(** * FrontierFund client: a shallow embedding of the TypeScript sources

    The development follows the layout of the repository:

    - [Js]: the fragment of JavaScript values the sources manipulate
      (JSON data, truthiness, the [||] operator, property reads, thrown
      errors) and a small free monad [Prog] for [async] functions, with
      [try]/[catch]/[finally].
    - [Http]: what the sources hand to [fetch] and what they read back.
    - [Types]: the [Transaction] and [RanchBalance] interfaces.
    - [Api]: [src/api/transactions.ts].
    - [Host], [React]: the built-ins the components call, and the element
      trees they return.
    - [ProposalCard], [TransactionCard], [PieChart], [BalanceSection],
      [CreateTransactionModal]: the components of these names.
    - [RanchScreen]: the state, the proposals section and the vote, execute
      and fetch handlers of [src/app/(tabs)/ranch.tsx].
    - [AuthContext]: [src/contexts/AuthContext.tsx].

    Numbers are IEEE 754 binary64 values, as in JavaScript: the kernel's
    primitive [float].  Calls to [console.log], [console.warn] and
    [console.error] only write diagnostics and are left out of the model.
    A [Record<string, T>] is the finite map of its own properties.  Where
    the sources test [key in votes] or read [votes[key]], the members every
    object inherits from [Object.prototype] are found as well:
    [Js.has_property] and [Js.read_property]. *)

From Stdlib Require Import Floats ZArith.
From stdpp Require Import gmap strings list pretty.

Open Scope string_scope.
Set Warnings "-register-all".

(* ===================================================================== *)
(** ** JavaScript values and async programs *)
(* ===================================================================== *)

Module Js.

(** A JavaScript value as it comes out of [JSON.parse], plus [undefined]
    (the result of reading a property that is not there).  An object is
    kept as the list of its own properties, in insertion order; a parsed
    object never has two properties of the same name. *)
Inductive value : Type :=
| VUndefined
| VNull
| VBool (b : bool)
| VNum (x : float)
| VStr (s : string)
| VArr (items : list value)
| VObj (props : list (string * value)).

(** [ToBoolean]: [undefined], [null], [false], [0], [-0], [NaN] and the
    empty string are falsy; every object and array is truthy. *)
Definition number_truthy (x : float) : bool :=
  negb (PrimFloat.is_nan x || PrimFloat.eqb x 0).

Definition truthy (v : value) : bool :=
  match v with
  | VUndefined | VNull => false
  | VBool b => b
  | VNum x => number_truthy x
  | VStr s => negb (String.eqb s "")
  | VArr _ | VObj _ => true
  end.

(** [a || b] *)
Definition or_else (a b : value) : value := if truthy a then a else b.

(** Own-property lookup in an object literal. *)
Fixpoint assoc (name : string) (props : list (string * value)) : value :=
  match props with
  | [] => VUndefined
  | (k, v) :: rest => if String.eqb k name then v else assoc name rest
  end.

(** What a running function can throw.  [Error m] is [new Error(m)]: its
    [message] is [m] (converted to a string when [m] is not one).
    [SyntaxError] is what [response.json()] rejects with on a body that is
    not JSON; [TypeError] is what a property read on [null] or [undefined]
    throws, and what [fetch] rejects with when the network fails.
    [Thrown v] is a value that is no [Error] at all, thrown as it is. *)
Inductive exn : Type :=
| Error (message : value)
| SyntaxError
| TypeError
| Thrown (v : value).

(** How a call ends. *)
Inductive outcome (A : Type) : Type :=
| Returned (a : A)
| Threw (e : exn).
Arguments Returned {A} a.
Arguments Threw {A} e.

Definition threw {A} (o : outcome A) : bool :=
  match o with Returned _ => false | Threw _ => true end.

(** *** Async functions

    An [async] function over the operations [E] (each [await] of an
    outside service is one operation): it returns, throws, or performs an
    operation and goes on with the answer. *)
Section Prog.
Context {E : Type -> Type}.

Inductive Prog (A : Type) : Type :=
| Ret (a : A)
| Throw (e : exn)
| Vis {X : Type} (op : E X) (k : X -> Prog A).

Arguments Ret {A} a.
Arguments Throw {A} e.
Arguments Vis {A X} op k.

Fixpoint bind {A B} (p : Prog A) (f : A -> Prog B) : Prog B :=
  match p with
  | Ret a => f a
  | Throw e => Throw e
  | Vis op k => Vis op (fun x => bind (k x) f)
  end.

(** [try { p } catch (e) { h e }] *)
Fixpoint try_catch {A} (p : Prog A) (h : exn -> Prog A) : Prog A :=
  match p with
  | Ret a => Ret a
  | Throw e => h e
  | Vis op k => Vis op (fun x => try_catch (k x) h)
  end.

(** [try { p } finally { f }] *)
Fixpoint try_finally {A} (p : Prog A) (f : Prog unit) : Prog A :=
  match p with
  | Ret a => bind f (fun _ => Ret a)
  | Throw e => bind f (fun _ => Throw e)
  | Vis op k => Vis op (fun x => try_finally (k x) f)
  end.

(** One operation, awaited. *)
Definition perform {X} (op : E X) : Prog X := Vis op Ret.

(** Running a program in a world [W] that answers its operations. *)
Fixpoint run {W A} (answer : forall X, E X -> W -> X * W)
         (p : Prog A) (w : W) : outcome A * W :=
  match p with
  | Ret a => (Returned a, w)
  | Throw e => (Threw e, w)
  | Vis op k => let '(x, w') := answer _ op w in run answer (k x) w'
  end.
End Prog.

Arguments Prog E A : clear implicits.
Arguments Ret {E A} a.
Arguments Throw {E A} e.
Arguments Vis {E A X} op k.

(** A property read [v.name], for the names the sources read ([detail],
    [transactions], [transaction]): none of them is a built-in property of
    a string, a number, a boolean or an array. *)
Definition get_field {E} (v : value) (name : string) : Prog E value :=
  match v with
  | VUndefined | VNull => Throw TypeError
  | VObj props => Ret (assoc name props)
  | VBool _ | VNum _ | VStr _ | VArr _ => Ret VUndefined
  end.

(** The same read where it cannot throw. *)
Definition field (v : value) (name : string) : value :=
  match v with
  | VObj props => assoc name props
  | _ => VUndefined
  end.

Definition nullish (v : value) : bool :=
  match v with VUndefined | VNull => true | _ => false end.

(** The names every object inherits from [Object.prototype]: an object that
    comes out of [JSON.parse] has [Object.prototype] for its prototype. *)
Definition Object_prototype : list string :=
  ["constructor"; "__defineGetter__"; "__defineSetter__"; "hasOwnProperty";
   "__lookupGetter__"; "__lookupSetter__"; "isPrototypeOf";
   "propertyIsEnumerable"; "toString"; "valueOf"; "__proto__"; "toLocaleString"].

(** What a property read of a [Record<string, V>] finds: a value of the
    record itself, or the member of [Object.prototype] of that name (a
    function, or for [__proto__] the prototype object).  Either is truthy
    when [V] is a type of non-empty strings, and an inherited member is
    [===] to no string. *)
Inductive Member (V : Type) : Type :=
| Own (v : V)
| Inherited (name : string).
Arguments Own {V} v.
Arguments Inherited {V} name.

#[global] Instance Member_eq_dec {V} `{EqDecision V} : EqDecision (Member V).
Proof. solve_decision. Defined.

(** [record[key]]; [None] is [undefined]. *)
Definition read_property {V} (record : gmap string V) (key : string) : option (Member V) :=
  match record !! key with
  | Some v => Some (Own v)
  | None => if bool_decide (key ∈ Object_prototype) then Some (Inherited key) else None
  end.

(** [key in record] *)
Definition has_property {V} (record : gmap string V) (key : string) : bool :=
  bool_decide (is_Some (read_property record key)).

End Js.

Declare Scope prog_scope.
Delimit Scope prog_scope with prog.
Notation "'let*' x ':=' p 'in' q" := (Js.bind p (fun x => q))
  (at level 10, x name, p at level 100, q at level 200) : prog_scope.
Notation "p ;; q" := (Js.bind p (fun _ => q))
  (at level 100, q at level 200, right associativity) : prog_scope.
Open Scope prog_scope.

(* ===================================================================== *)
(** ** Requests and responses *)
(* ===================================================================== *)

Module Http.
Import Js.

(** The second argument of [fetch].  [method] is [None] where the call
    site gives none; [body] is the value handed to [JSON.stringify]. *)
Record Request : Type := mkRequest {
  url : string;
  method : option string;
  headers : list (string * string);
  body : option value
}.

(** [fetch] sends a GET when no method is given. *)
Definition effective_method (r : Request) : string :=
  default "GET" (method r).

Fixpoint header (name : string) (hs : list (string * string)) : option string :=
  match hs with
  | [] => None
  | (k, v) :: rest => if String.eqb k name then Some v else header name rest
  end.

(** A response as the sources read it: [ok], and the result of
    [response.json()] at body type [B] ([None] when the body is not JSON
    and the promise rejects). *)
Record Response (B : Type) : Type := mkResponse {
  ok : bool;
  json : option B
}.
Arguments mkResponse {B} ok json.
Arguments ok {B} r.
Arguments json {B} r.

(** [fetch] resolves with a response, whatever its status, and rejects
    only when no response arrives. *)
Inductive FetchResult (B : Type) : Type :=
| Rejected
| Resolved (r : Response B).
Arguments Rejected {B}.
Arguments Resolved {B} r.

End Http.

(* ===================================================================== *)
(** ** Shared types (the [Transaction] interface and its companions) *)
(* ===================================================================== *)

Module Types.

(** ['approve' | 'reject'] *)
Inductive Vote : Type := approve | reject.

Definition vote_string (v : Vote) : string :=
  match v with approve => "approve" | reject => "reject" end.

#[global] Instance Vote_eq_dec : EqDecision Vote.
Proof. solve_decision. Defined.

(** ['pending' | 'approved' | 'rejected' | 'executed'] *)
Inductive Status : Type := pending | approved | rejected | executed.

Definition status_string (s : Status) : string :=
  match s with
  | pending => "pending"
  | approved => "approved"
  | rejected => "rejected"
  | executed => "executed"
  end.

#[global] Instance Status_eq_dec : EqDecision Status.
Proof. solve_decision. Defined.

(** [interface Transaction].  [votes] is a [Record<string, Vote>]: a finite
    map from user ids to votes.  The three optional properties are [None]
    when absent. *)
Record Transaction : Type := mkTransaction {
  transactionID : string;
  groupID : string;
  userID : string;
  amount : string;
  description : string;
  status : Status;
  votes : gmap string Vote;
  createdAt : string;
  proposedBy : option string;
  transactionType : option string;
  executedAt : option string
}.

(** [Object.values(votes).filter((v) => v === which).length] *)
Definition count_votes (which : Vote) (vs : gmap string Vote) : nat :=
  length (filter (fun v => v = which) (snd <$> map_to_list vs)).

(** [interface RanchBalance] *)
Record RanchBalance : Type := mkRanchBalance {
  ranchBalance : float;
  investedAmount : float;
  totalAssets : float;
  personalBalance : float
}.

End Types.

(* ===================================================================== *)
(** ** src/api/transactions.ts *)
(* ===================================================================== *)

Module Api.
Import Js Http Types.

Definition API_BASE_URL : string := "http://localhost:8080".

Record CreateTransactionRequest : Type := {
  groupId : string;
  amount : float;
  description : string
}.

(** The object [JSON.stringify(request)] serialises. *)
Definition request_value (r : CreateTransactionRequest) : value :=
  VObj [("groupId", VStr (groupId r));
        ("amount", VNum (amount r));
        ("description", VStr (description r))].

(** The one outside operation of this file. *)
Inductive ApiE : Type -> Type :=
| Fetch (req : Request) : ApiE (FetchResult value).

Definition Async : Type -> Type := Prog ApiE.

(** [await fetch(url, init)] *)
Definition fetch (req : Request) : Async (Response value) :=
  let* r := perform (Fetch req) in
  match r with
  | Rejected => Throw TypeError
  | Resolved response => Ret response
  end.

(** [await response.json()] *)
Definition response_json (response : Response value) : Async value :=
  match json response with
  | Some v => Ret v
  | None => Throw SyntaxError
  end.

Definition getGroupTransactions (groupId token : string) : Async value :=
  let* response :=
    fetch {| url := API_BASE_URL +:+ "/transactions?groupId=" +:+ groupId;
             method := None;
             headers := [("Authorization", "Bearer " +:+ token)];
             body := None |} in
  if negb (ok response) then
    let* error := response_json response in
    let* detail := get_field error "detail" in
    Throw (Error (or_else detail (VStr "Failed to fetch transactions")))
  else
    let* data := response_json response in
    get_field data "transactions".

Definition getTransactionHistory (token : string) : Async value :=
  let* response :=
    fetch {| url := API_BASE_URL +:+ "/transactions/history/me";
             method := None;
             headers := [("Authorization", "Bearer " +:+ token)];
             body := None |} in
  if negb (ok response) then
    let* error := response_json response in
    let* detail := get_field error "detail" in
    Throw (Error (or_else detail (VStr "Failed to fetch transaction history")))
  else
    let* data := response_json response in
    get_field data "transactions".

Definition getTransaction (transactionId token : string) : Async value :=
  let* response :=
    fetch {| url := API_BASE_URL +:+ "/transactions/" +:+ transactionId;
             method := None;
             headers := [("Authorization", "Bearer " +:+ token)];
             body := None |} in
  if negb (ok response) then
    let* error := response_json response in
    let* detail := get_field error "detail" in
    Throw (Error (or_else detail (VStr "Failed to fetch transaction")))
  else
    let* data := response_json response in
    get_field data "transaction".

Definition createTransaction (request : CreateTransactionRequest)
           (token : string) : Async value :=
  let* response :=
    fetch {| url := API_BASE_URL +:+ "/transactions";
             method := Some "POST";
             headers := [("Content-Type", "application/json");
                         ("Authorization", "Bearer " +:+ token)];
             body := Some (request_value request) |} in
  if negb (ok response) then
    let* error := response_json response in
    let* detail := get_field error "detail" in
    Throw (Error (or_else detail (VStr "Failed to create transaction")))
  else
    response_json response.

Definition voteOnTransaction (transactionId : string) (vote : Vote)
           (token : string) : Async value :=
  let* response :=
    fetch {| url := API_BASE_URL +:+ "/transactions/" +:+ transactionId +:+ "/vote";
             method := Some "POST";
             headers := [("Content-Type", "application/json");
                         ("Authorization", "Bearer " +:+ token)];
             body := Some (VObj [("vote", VStr (vote_string vote))]) |} in
  if negb (ok response) then
    let* error := response_json response in
    let* detail := get_field error "detail" in
    Throw (Error (or_else detail (VStr "Failed to vote on transaction")))
  else
    response_json response.

Definition executeTransaction (transactionId token : string) : Async value :=
  let* response :=
    fetch {| url := API_BASE_URL +:+ "/transactions/" +:+ transactionId +:+ "/execute";
             method := Some "POST";
             headers := [("Authorization", "Bearer " +:+ token)];
             body := None |} in
  if negb (ok response) then
    let* error := response_json response in
    let* detail := get_field error "detail" in
    Throw (Error (or_else detail (VStr "Failed to execute transaction")))
  else
    response_json response.

(** The six exported wrappers, as one type of calls. *)
Inductive Call : Type :=
| GetGroupTransactions (groupId token : string)
| GetTransactionHistory (token : string)
| GetTransaction (transactionId token : string)
| CreateTransaction (request : CreateTransactionRequest) (token : string)
| VoteOnTransaction (transactionId : string) (vote : Vote) (token : string)
| ExecuteTransaction (transactionId token : string).

Definition invoke (c : Call) : Async value :=
  match c with
  | GetGroupTransactions g t => getGroupTransactions g t
  | GetTransactionHistory t => getTransactionHistory t
  | GetTransaction i t => getTransaction i t
  | CreateTransaction r t => createTransaction r t
  | VoteOnTransaction i v t => voteOnTransaction i v t
  | ExecuteTransaction i t => executeTransaction i t
  end.

Definition token_of (c : Call) : string :=
  match c with
  | GetGroupTransactions _ t | GetTransactionHistory t | GetTransaction _ t
  | CreateTransaction _ t | VoteOnTransaction _ _ t | ExecuteTransaction _ t => t
  end.

(** The world of a call: a backend that answers each request, and the
    requests sent so far, oldest first. *)
Definition Backend : Type := Request -> FetchResult value.

Definition answer (backend : Backend) :
  forall X, ApiE X -> list Request -> X * list Request :=
  fun X op sent =>
    match op in ApiE X return X * list Request with
    | Fetch req => (backend req, (sent ++ [req])%list)
    end.

Definition call (backend : Backend) (c : Call) : outcome value * list Request :=
  run (answer backend) (invoke c) [].

Definition result (backend : Backend) (c : Call) : outcome value :=
  fst (call backend c).

Definition sent (backend : Backend) (c : Call) : list Request :=
  snd (call backend c).

(** A backend that answers every request with [response]. *)
Definition responds (response : Response value) : Backend :=
  fun _ => Resolved response.

(** The fallback message of each wrapper. *)
Definition fallback (c : Call) : string :=
  match c with
  | GetGroupTransactions _ _ => "Failed to fetch transactions"
  | GetTransactionHistory _ => "Failed to fetch transaction history"
  | GetTransaction _ _ => "Failed to fetch transaction"
  | CreateTransaction _ _ => "Failed to create transaction"
  | VoteOnTransaction _ _ _ => "Failed to vote on transaction"
  | ExecuteTransaction _ _ => "Failed to execute transaction"
  end.

(** What each wrapper hands back from the parsed payload [data] of an ok
    response: the three read wrappers return one property of it, the three
    others the payload itself. *)
Definition handed_back (c : Call) (data : value) : value :=
  match c with
  | GetGroupTransactions _ _ | GetTransactionHistory _ => field data "transactions"
  | GetTransaction _ _ => field data "transaction"
  | CreateTransaction _ _ | VoteOnTransaction _ _ _ | ExecuteTransaction _ _ => data
  end.

(** The three wrappers that read: they return one property of the payload. *)
Definition is_read (c : Call) : bool :=
  match c with
  | GetGroupTransactions _ _ | GetTransactionHistory _ | GetTransaction _ _ => true
  | CreateTransaction _ _ | VoteOnTransaction _ _ _ | ExecuteTransaction _ _ => false
  end.

End Api.

(* ===================================================================== *)
(** ** The host: built-ins the sources call *)
(* ===================================================================== *)

Module Host.
Import Js.

(** Number and date formatting and the trigonometric functions belong to
    the JavaScript engine and its locale data.  The components are
    modelled over whatever engine runs them. *)
Record Host : Type := mkHost {
  (** [parseFloat(s)] *)
  parseFloat : string -> float;
  (** [String(x)], as a template literal converts a number *)
  number_toString : float -> string;
  (** [x.toLocaleString()] *)
  toLocaleString : float -> string;
  (** [x.toLocaleString('en-US', { minimumFractionDigits: 2,
      maximumFractionDigits: 2 })] *)
  toLocaleString_en_US_2 : float -> string;
  (** [x.toFixed(2)] *)
  toFixed_2 : float -> string;
  (** [new Date(s).toLocaleString()] *)
  date_toLocaleString : string -> string;
  (** [new Date(s).toLocaleDateString('en-US', { month: 'short',
      day: 'numeric', hour: '2-digit', minute: '2-digit' })] *)
  date_toLocaleDateString_short : string -> string;
  (** [s.trim()] *)
  trim : string -> string;
  Math_cos : float -> float;
  Math_sin : float -> float;
  (** the [message] of the engine's own [SyntaxError] and [TypeError] *)
  SyntaxError_message : string;
  TypeError_message : string
}.

(** [Math.PI] *)
Definition Math_PI : float := 0x1.921fb54442d18p+1%float.

(** [s.toUpperCase()] on ASCII text (the status names are ASCII). *)
Definition upper_ascii (c : Ascii.ascii) : Ascii.ascii :=
  let n := Ascii.nat_of_ascii c in
  if (97 <=? n)%nat && (n <=? 122)%nat then Ascii.ascii_of_nat (n - 32) else c.

Fixpoint toUpperCase (s : string) : string :=
  match s with
  | EmptyString => EmptyString
  | String c rest => String (upper_ascii c) (toUpperCase rest)
  end.

(** Truthiness of a string, and of a string that may be [undefined]. *)
Definition string_truthy (s : string) : bool := negb (String.eqb s "").

Definition opt_truthy (o : option string) : bool :=
  match o with Some s => string_truthy s | None => false end.

(** Two hosts that agree on trigonometry and on the printing of numbers:
    the only built-ins the two components call. *)
Definition same_numbers (h1 h2 : Host) : Prop :=
  (forall x, Math_cos h1 x = Math_cos h2 x) /\
  (forall x, Math_sin h1 x = Math_sin h2 x) /\
  (forall x, number_toString h1 x = number_toString h2 x) /\
  (forall x, toLocaleString h1 x = toLocaleString h2 x).

End Host.

(* ===================================================================== *)
(** ** React elements *)
(* ===================================================================== *)

Module React.

(** One entry of a [style] property: a rule of the component's style sheet
    ([styles.name]) or one inline property. *)
Inductive StyleItem : Type :=
| Sheet (name : string)
| Inline (prop val : string).

(** A property of an element.  [OnPress a] is an [onPress] handler; what
    the handler does is named by [a]. *)
Inductive Attr (A : Type) : Type :=
| Style (items : list StyleItem)
| OnPress (a : A)
| Disabled (b : bool)
| Attribute (name val : string).
Arguments Style {A} items.
Arguments OnPress {A} a.
Arguments Disabled {A} b.
Arguments Attribute {A} name val.

(** What a component returns: text, or an element with its properties and
    children.  A child that is [false], [null] or [undefined] renders
    nothing and is left out of the list. *)
Inductive Element (A : Type) : Type :=
| Text (s : string)
| El (tag : string) (attrs : list (Attr A)) (children : list (Element A)).
Arguments Text {A} s.
Arguments El {A} tag attrs children.

Definition attr_presses {A} (a : Attr A) : list A :=
  match a with OnPress x => [x] | _ => [] end.

(** Every [onPress] handler of a tree, in document order. *)
Fixpoint presses {A} (e : Element A) : list A :=
  match e with
  | Text _ => []
  | El _ attrs children =>
      (concat (map attr_presses attrs) ++ concat (map presses children))%list
  end.

(** Every text of a tree, in document order. *)
Fixpoint texts {A} (e : Element A) : list string :=
  match e with
  | Text s => [s]
  | El _ _ children => concat (map texts children)
  end.





(** [cond && element] *)
Definition when {A} (cond : bool) (e : Element A) : list (Element A) :=
  if cond then [e] else [].

End React.

(* ===================================================================== *)
(** ** components/ranch/ProposalCard.tsx *)
(* ===================================================================== *)

Module ProposalCard.
Import Host React Types.

(** What a press does: it calls the [onVote] or the [onExecute] property
    with these arguments. *)
Inductive Action : Type :=
| OnVote (transactionId : string) (voteType : Vote)
| OnExecute (transactionId : string).

Record Props : Type := mkProps {
  proposal : Transaction;
  currentUserId : string;
  memberProfiles : gmap string string
}.

(** [Object.keys(proposal.votes).includes(currentUserId)] *)
Definition hasVoted (p : Props) : bool :=
  bool_decide (currentUserId p ∈ fst <$> map_to_list (votes (proposal p))).

(** [proposal.votes[currentUserId]] *)
Definition userVote (p : Props) : option Vote :=
  votes (proposal p) !! currentUserId p.

Definition approvalCount (p : Props) : nat := count_votes approve (votes (proposal p)).
Definition rejectCount (p : Props) : nat := count_votes reject (votes (proposal p)).

Definition statusColor (p : Props) : string :=
  match status (proposal p) with
  | pending => "#FBBF24"
  | approved => "#10B981"
  | _ => "#EF4444"
  end.

(** [proposal.proposedBy ? memberProfiles[proposal.proposedBy] || proposal.proposedBy
                         : "Unknown"], for a proposer whose id is not the name
    of a member of [Object.prototype]. *)
Definition proposedByName (p : Props) : string :=
  match proposedBy (proposal p) with
  | Some who =>
      if string_truthy who then
        match memberProfiles p !! who with
        | Some name => if string_truthy name then name else who
        | None => who
        end
      else "Unknown"
  | None => "Unknown"
  end.

Definition voteButtons (p : Props) : Element Action :=
  El "View" [Style [Sheet "voteButtons"]]
    [ El "TouchableOpacity"
        [Style [Sheet "voteButton"; Sheet "approveButton"];
         OnPress (OnVote (transactionID (proposal p)) approve)]
        [El "ThemedText" [Style [Sheet "voteButtonText"]] [Text "✅ Approve"]];
      El "TouchableOpacity"
        [Style [Sheet "voteButton"; Sheet "rejectButton"];
         OnPress (OnVote (transactionID (proposal p)) reject)]
        [El "ThemedText" [Style [Sheet "voteButtonText"]] [Text "❌ Reject"]] ].

Definition votedText (p : Props) : Element Action :=
  El "ThemedText" [Style [Sheet "votedText"]]
    [Text ("You voted: " +:+
           (if bool_decide (userVote p = Some approve) then "✅ Approve" else "❌ Reject"))].

Definition executeButton (p : Props) : Element Action :=
  El "TouchableOpacity"
    [Style [Sheet "executeButton"]; OnPress (OnExecute (transactionID (proposal p)))]
    [El "ThemedText" [Style [Sheet "executeButtonText"]] [Text "⚡ Execute Transaction"]].

Definition ProposalCard (host : Host) (p : Props) : Element Action :=
  El "ThemedView" [Style [Sheet "proposalCard"]]
    ([ El "View" [Style [Sheet "proposalHeader"]]
         [ El "ThemedText" [Style [Sheet "proposalAmount"]]
             [Text ("$" +:+ toLocaleString host (parseFloat host (amount (proposal p))))];
           El "View" [Style [Sheet "statusBadge"; Inline "backgroundColor" (statusColor p)]]
             [El "ThemedText" [Style [Sheet "statusText"]]
                [Text (toUpperCase (status_string (status (proposal p))))]] ];
       El "ThemedText" [Style [Sheet "proposalDescription"]]
         [Text (description (proposal p))];
       El "ThemedText" [Style [Sheet "proposalMeta"]]
         [Text ("Proposed by: " +:+ proposedByName p)] ]
     ++ match transactionType (proposal p) with
        | None => []
        | Some t =>
            if string_truthy t
            then [El "ThemedText" [Style [Sheet "proposalMeta"]] [Text ("Type: " +:+ t)]]
            else [Text t]
        end
     ++ [ El "View" [Style [Sheet "voteInfo"]]
            [ El "ThemedText" [Style [Sheet "voteText"]]
                [Text ("✅ Approvals: " +:+ pretty (approvalCount p))];
              El "ThemedText" [Style [Sheet "voteText"]]
                [Text ("❌ Rejections: " +:+ pretty (rejectCount p))] ] ]
     ++ (if hasVoted p then [votedText p]
         else if bool_decide (status (proposal p) = pending) then [voteButtons p]
         else [])
     ++ when (bool_decide (status (proposal p) = approved)) (executeButton p)
     ++ [ El "ThemedText" [Style [Sheet "timestampText"]]
            [Text ("Created: " +:+ date_toLocaleString host (createdAt (proposal p)))] ])%list.

End ProposalCard.

(* ===================================================================== *)
(** ** components/transaction-card.tsx *)
(* ===================================================================== *)

Module TransactionCard.
Import Host React Types.

(** What a press does: it calls the component's own [handleVote] or
    [handleExecute]. *)
Inductive Action : Type :=
| HandleVote (vote : Vote)
| HandleExecute.

Section Component.
(** The types of the three optional callbacks. *)
Context {OnVote OnExecute OnRefresh : Type}.

Record Props : Type := mkProps {
  transaction : Transaction;
  currentUserId : string;
  onVote : option OnVote;
  onExecute : option OnExecute;
  onRefresh : option OnRefresh
}.

(** The two [useState] cells. *)
Record State : Type := mkState {
  isVoting : bool;
  isExecuting : bool
}.

(** [transaction.votes && currentUserId in transaction.votes] *)
Definition userHasVoted (p : Props) : bool :=
  Js.has_property (votes (transaction p)) (currentUserId p).

(** [userHasVoted ? transaction.votes[currentUserId] : null] *)
Definition userVote (p : Props) : option (Js.Member Vote) :=
  if userHasVoted p then Js.read_property (votes (transaction p)) (currentUserId p)
  else None.

Definition approveCount (p : Props) : nat := count_votes approve (votes (transaction p)).
Definition rejectCount (p : Props) : nat := count_votes reject (votes (transaction p)).
Definition totalVotes (p : Props) : nat := approveCount p + rejectCount p.

Definition getStatusColor (p : Props) : string :=
  match status (transaction p) with
  | approved => "#10B981"
  | rejected => "#EF4444"
  | executed => "#8B5CF6"
  | _ => "#F59E0B"
  end.

Definition getStatusEmoji (p : Props) : string :=
  match status (transaction p) with
  | approved => "✅"
  | rejected => "❌"
  | executed => "💸"
  | _ => "⏳"
  end.

Definition voteInfo (p : Props) : Element Action :=
  El "View" [Style [Sheet "voteInfo"]]
    [El "ThemedText" [Style [Sheet "voteText"]]
       [Text ("👍 " +:+ pretty (approveCount p) +:+ " | 👎 " +:+ pretty (rejectCount p)
              +:+ " (" +:+ pretty (totalVotes p) +:+ " votes)")]].

Definition userVoteView (p : Props) : Element Action :=
  El "View" [Style [Sheet "userVote"]]
    [El "ThemedText" [Style [Sheet "voteText"]]
       [Text ("You voted: " +:+
              (if bool_decide (userVote p = Some (Js.Own approve))
               then "👍 Approve" else "👎 Reject"))]].

Definition buttonContainer (p : Props) (s : State) : Element Action :=
  El "View" [Style [Sheet "buttonContainer"]]
    [ El "TouchableOpacity"
        [Style [Sheet "button"; Sheet "approveButton"];
         OnPress (HandleVote approve); Disabled (isVoting s)]
        [El "ThemedText" [Style [Sheet "buttonText"]]
           [Text (if isVoting s then "..." else "👍 Approve")]];
      El "TouchableOpacity"
        [Style [Sheet "button"; Sheet "rejectButton"];
         OnPress (HandleVote reject); Disabled (isVoting s)]
        [El "ThemedText" [Style [Sheet "buttonText"]]
           [Text (if isVoting s then "..." else "👎 Reject")]] ].

Definition executeButton (s : State) : Element Action :=
  El "TouchableOpacity"
    [Style [Sheet "button"; Sheet "executeButton"];
     OnPress HandleExecute; Disabled (isExecuting s)]
    [El "ThemedText" [Style [Sheet "buttonText"]]
       [Text (if isExecuting s then "Executing..." else "💸 Execute Transaction")]].

Definition TransactionCard (host : Host) (p : Props) (s : State) : Element Action :=
  El "ThemedView" [Style [Sheet "card"]]
    ([ El "View" [Style [Sheet "header"]]
         [ El "View" [Style [Sheet "headerLeft"]]
             [ El "ThemedText" [Style [Sheet "emoji"]] [Text (getStatusEmoji p)];
               El "ThemedText" [Attribute "type" "subtitle"; Style [Sheet "description"]]
                 [Text (description (transaction p))] ];
           El "ThemedText" [Style [Sheet "status"; Inline "color" (getStatusColor p)]]
             [Text (toUpperCase (status_string (status (transaction p))))] ];
       El "ThemedText" [Style [Sheet "amount"]]
         [Text ("$" +:+ toFixed_2 host (parseFloat host (amount (transaction p))))] ]
     ++ when (bool_decide (status (transaction p) = pending)) (voteInfo p)
     ++ when (userHasVoted p) (userVoteView p)
     ++ when (bool_decide (status (transaction p) = pending)
              && negb (userHasVoted p) && bool_decide (is_Some (onVote p)))
             (buttonContainer p s)
     ++ when (bool_decide (status (transaction p) = approved)
              && bool_decide (is_Some (onExecute p)))
             (executeButton s)
     ++ [ El "ThemedText" [Style [Sheet "date"]]
            [Text (date_toLocaleDateString_short host (createdAt (transaction p)))] ])%list.

End Component.
Arguments Props : clear implicits.

(** *** The two handlers of the card

    A press on a vote button runs [handleVote]; a press on the execute
    button runs [handleExecute], which shows a dialog whose "Execute" button
    runs [confirmExecute]. *)

Definition with_isVoting (b : bool) (s : State) : State :=
  {| isVoting := b; isExecuting := isExecuting s |}.

Definition with_isExecuting (b : bool) (s : State) : State :=
  {| isVoting := isVoting s; isExecuting := b |}.

(** What the press of a button of a dialog does. *)
Inductive DialogAction : Type :=
| ConfirmExecute.

(** One button of [Alert.alert]: [{ text, style, onPress }]. *)
Record Button : Type := mkButton {
  text : string;
  style : string;
  onPress : option DialogAction
}.

(** The outside operations: the callbacks of the properties, the alerts and
    the state setters. *)
Inductive CardE : Type -> Type :=
| OnVote_call (transactionId : string) (vote : Vote) : CardE (Js.outcome unit)
| OnExecute_call (transactionId : string) : CardE (Js.outcome unit)
| OnRefresh_call : CardE (Js.outcome unit)
| Alert_alert (title : string) (message : Js.value) : CardE unit
| Alert_buttons (title : string) (message : Js.value) (buttons : list Button) : CardE unit
| SetState (f : State -> State) : CardE unit.

Definition Handler : Type -> Type := Js.Prog CardE.

(** A call of a callback that may throw or reject. *)
Definition call (op : CardE (Js.outcome unit)) : Handler unit :=
  Js.bind (Js.perform op)
    (fun r => match r with
              | Js.Returned _ => Js.Ret tt
              | Js.Threw e => Js.Throw e
              end).

Definition setIsVoting (b : bool) : Handler unit := Js.perform (SetState (with_isVoting b)).
Definition setIsExecuting (b : bool) : Handler unit := Js.perform (SetState (with_isExecuting b)).

Section Handlers.
Context {OnVote OnExecute OnRefresh : Type}.
Context (host : Host) (p : Props OnVote OnExecute OnRefresh).

(** [error instanceof Error ? error.message : fallback] *)
Definition error_text (fallback : string) (error : Js.exn) : Js.value :=
  match error with
  | Js.Error m => m
  | Js.SyntaxError => Js.VStr (SyntaxError_message host)
  | Js.TypeError => Js.VStr (TypeError_message host)
  | Js.Thrown _ => Js.VStr fallback
  end.

(** [onRefresh?.()] *)
Definition refresh : Handler unit :=
  match onRefresh p with
  | Some _ => call OnRefresh_call
  | None => Js.Ret tt
  end.

Definition handleVote (vote : Vote) : Handler unit :=
  if negb (bool_decide (is_Some (onVote p))) || userHasVoted p then Js.Ret tt
  else
    Js.try_finally
      (Js.try_catch
         (Js.bind (setIsVoting true) (fun _ =>
          Js.bind (call (OnVote_call (transactionID (transaction p)) vote)) (fun _ =>
          refresh)))
         (fun error => Js.perform (Alert_alert "Error" (error_text "Failed to vote" error))))
      (setIsVoting false).

(** The [onPress] of the "Execute" button of the dialog. *)
Definition confirmExecute : Handler unit :=
  Js.try_finally
    (Js.try_catch
       (Js.bind (setIsExecuting true) (fun _ =>
        Js.bind (call (OnExecute_call (transactionID (transaction p)))) (fun _ =>
        refresh)))
       (fun error => Js.perform (Alert_alert "Error" (error_text "Failed to execute" error))))
    (setIsExecuting false).

Definition handleExecute : Handler unit :=
  if negb (bool_decide (is_Some (onExecute p))) then Js.Ret tt
  else
    Js.perform
      (Alert_buttons "Execute Transaction"
         (Js.VStr ("Execute " +:+ description (transaction p) +:+ " for $"
                   +:+ toFixed_2 host (parseFloat host (amount (transaction p))) +:+ "?"))
         [ mkButton "Cancel" "cancel" None;
           mkButton "Execute" "destructive" (Some ConfirmExecute) ]).

(** What a press does. *)
Definition press (a : Action) : Handler unit :=
  match a with
  | HandleVote vote => handleVote vote
  | HandleExecute => handleExecute
  end.

Definition press_dialog (a : DialogAction) : Handler unit :=
  match a with
  | ConfirmExecute => confirmExecute
  end.

End Handlers.

(** *** Running the handlers

    The world holds the state of the card, what the three callbacks of the
    parent will do, and what has happened so far. *)
Inductive Event : Type :=
| EvVote (transactionId : string) (vote : Vote)
| EvExecute (transactionId : string)
| EvRefresh
| EvAlert (title : string) (message : Js.value)
| EvDialog (title : string) (message : Js.value) (buttons : list Button).

Record World : Type := mkWorld {
  state : State;
  vote_result : string -> Vote -> Js.outcome unit;
  execute_result : string -> Js.outcome unit;
  refresh_result : Js.outcome unit;
  trace : list Event
}.

Definition record (e : Event) (w : World) : World :=
  mkWorld (state w) (vote_result w) (execute_result w) (refresh_result w)
    (trace w ++ [e])%list.

Definition answer : forall X, CardE X -> World -> X * World :=
  fun X op w =>
    match op in CardE X return X * World with
    | OnVote_call id vote => (vote_result w id vote, record (EvVote id vote) w)
    | OnExecute_call id => (execute_result w id, record (EvExecute id) w)
    | OnRefresh_call => (refresh_result w, record EvRefresh w)
    | Alert_alert title message => (tt, record (EvAlert title message) w)
    | Alert_buttons title message buttons => (tt, record (EvDialog title message buttons) w)
    | SetState f =>
        (tt, mkWorld (f (state w)) (vote_result w) (execute_result w) (refresh_result w)
               (trace w))
    end.

(** The calls of the parent's callbacks in a trace. *)
Definition is_call (e : Event) : bool :=
  match e with
  | EvVote _ _ | EvExecute _ | EvRefresh => true
  | _ => false
  end.

Definition calls (t : list Event) : list Event := List.filter is_call t.

End TransactionCard.

(* ===================================================================== *)
(** ** app/(tabs)/ranch.tsx *)
(* ===================================================================== *)

Module RanchScreen.
Import Js Http Host React Types.

Definition API_BASE_URL : string := "http://localhost:8080".

Record StockHolding : Type := mkStockHolding {
  symbol : string;
  name : string;
  quantity : float;
  current_price : float;
  current_value : float;
  percentage : float
}.

Record AvailableUser : Type := mkAvailableUser {
  au_userId : string;
  au_username : string;
  au_email : string
}.

(** The [useState] cells of the screen, in the order they are declared. *)
Record ScreenState : Type := mkScreenState {
  authToken : option string;
  currentUserId : option string;
  groupOwnerId : option string;
  ranchBalance : float;
  investedAmount : float;
  totalAssets : float;
  stockHoldings : list StockHolding;
  memberList : list string;
  memberProfiles : gmap string string;
  memberCount : nat;
  loading : bool;
  refreshing : bool;
  proposals : list Transaction;
  ledger : list Transaction;
  personalBalance : float;
  inviteModalVisible : bool;
  availableUsers : list AvailableUser;
  selectedUserId : string;
  manageMembersModalVisible : bool;
  investModalVisible : bool;
  stockModalVisible : bool;
  withdrawModalVisible : bool;
  depositModalVisible : bool;
  transactionAmount : string;
  depositAmount : string
}.

Definition with_proposals (ps : list Transaction) (s : ScreenState) : ScreenState :=
  {| authToken := authToken s; currentUserId := currentUserId s;
     groupOwnerId := groupOwnerId s; ranchBalance := ranchBalance s;
     investedAmount := investedAmount s; totalAssets := totalAssets s;
     stockHoldings := stockHoldings s; memberList := memberList s;
     memberProfiles := memberProfiles s; memberCount := memberCount s;
     loading := loading s; refreshing := refreshing s;
     proposals := ps; ledger := ledger s;
     personalBalance := personalBalance s;
     inviteModalVisible := inviteModalVisible s; availableUsers := availableUsers s;
     selectedUserId := selectedUserId s;
     manageMembersModalVisible := manageMembersModalVisible s;
     investModalVisible := investModalVisible s;
     stockModalVisible := stockModalVisible s;
     withdrawModalVisible := withdrawModalVisible s;
     depositModalVisible := depositModalVisible s;
     transactionAmount := transactionAmount s; depositAmount := depositAmount s |}.

Definition with_ledger (l : list Transaction) (s : ScreenState) : ScreenState :=
  {| authToken := authToken s; currentUserId := currentUserId s;
     groupOwnerId := groupOwnerId s; ranchBalance := ranchBalance s;
     investedAmount := investedAmount s; totalAssets := totalAssets s;
     stockHoldings := stockHoldings s; memberList := memberList s;
     memberProfiles := memberProfiles s; memberCount := memberCount s;
     loading := loading s; refreshing := refreshing s;
     proposals := proposals s; ledger := l;
     personalBalance := personalBalance s;
     inviteModalVisible := inviteModalVisible s; availableUsers := availableUsers s;
     selectedUserId := selectedUserId s;
     manageMembersModalVisible := manageMembersModalVisible s;
     investModalVisible := investModalVisible s;
     stockModalVisible := stockModalVisible s;
     withdrawModalVisible := withdrawModalVisible s;
     depositModalVisible := depositModalVisible s;
     transactionAmount := transactionAmount s; depositAmount := depositAmount s |}.

(** *** What the screen reads from a response body

    The screen reads two properties of a parsed body: [detail] (of an error
    body) and [transactions].  A body that parses to [null] is kept apart,
    since a property read on it throws; any other JSON value is seen through
    these two properties ([VUndefined] and [None] when they are not there). *)
Record Payload : Type := mkPayload {
  detail : value;
  transactions : option (list Transaction)
}.

Inductive Body : Type :=
| BodyNull
| BodyData (p : Payload).

(** The outside operations of the screen's handlers. *)
Inductive ScreenE : Type -> Type :=
| Fetch (req : Request) : ScreenE (FetchResult Body)
| Alert_alert (title : string) (message : value) : ScreenE unit
| SetState (f : ScreenState -> ScreenState) : ScreenE unit.

Definition Handler : Type -> Type := Prog ScreenE.

Definition fetch (req : Request) : Handler (Response Body) :=
  let* r := perform (Fetch req) in
  match r with
  | Rejected => Throw TypeError
  | Resolved response => Ret response
  end.

(** [await response.json()] *)
Definition response_json (response : Response Body) : Handler Body :=
  match json response with
  | Some b => Ret b
  | None => Throw SyntaxError
  end.

(** [error.detail] *)
Definition get_detail (b : Body) : Handler value :=
  match b with
  | BodyNull => Throw TypeError
  | BodyData p => Ret (detail p)
  end.

(** [data.transactions || []] *)
Definition get_transactions (b : Body) : Handler (list Transaction) :=
  match b with
  | BodyNull => Throw TypeError
  | BodyData p => Ret (default [] (transactions p))
  end.

Definition setProposals (ps : list Transaction) : Handler unit :=
  perform (SetState (with_proposals ps)).

Definition setLedger (l : list Transaction) : Handler unit :=
  perform (SetState (with_ledger l)).

Definition alert (title : string) (message : value) : Handler unit :=
  perform (Alert_alert title message).

(** A [string | null] inside a template literal. *)
Definition template (o : option string) : string := default "null" o.

Section Handlers.
(** The route parameter [id] and the state the handlers close over. *)
Context (id : string) (s : ScreenState).
(** Two sibling functions of the screen that the handlers call after a
    successful request; the handlers are modelled over any behaviour of
    theirs. *)
Context (fetchGroupData fetchPersonalBalance : Handler unit).

Definition proposals_request : Request :=
  {| url := API_BASE_URL +:+ "/transactions?groupId=" +:+ id;
     method := None;
     headers := [("Authorization", "Bearer " +:+ template (authToken s))];
     body := None |}.

Definition fetchProposals : Handler unit :=
  if negb (string_truthy id) then Ret tt
  else if negb (opt_truthy (authToken s)) then Ret tt
  else
    try_catch
      (let* response := fetch proposals_request in
       if ok response then
         let* data := response_json response in
         let* all := get_transactions data in
         let thisGroupTransactions := filter (fun txn => groupID txn = id) all in
         let pendingProposals :=
           filter (fun txn => status txn <> executed) thisGroupTransactions in
         let executedTransactions :=
           filter (fun txn => status txn = executed) thisGroupTransactions in
         setProposals pendingProposals ;;
         setLedger executedTransactions
       else
         (* the body is read as text and logged *)
         Ret tt)
      (fun _ => Ret tt).

Definition vote_request (transactionId : string) (vote : Vote) : Request :=
  {| url := API_BASE_URL +:+ "/transactions/" +:+ transactionId +:+ "/vote";
     method := Some "POST";
     headers := [("Authorization", "Bearer " +:+ template (authToken s));
                 ("Content-Type", "application/json")];
     body := Some (VObj [("vote", VStr (vote_string vote))]) |}.

Definition handleVote (transactionId : string) (vote : Vote) : Handler unit :=
  try_catch
    (let* response := fetch (vote_request transactionId vote) in
     if ok response then
       alert "Vote Recorded"
             (VStr ("You voted to " +:+ vote_string vote +:+ " this proposal")) ;;
       fetchProposals ;;
       fetchGroupData
     else
       let* error := response_json response in
       let* detail := get_detail error in
       alert "Error" (or_else detail (VStr "Failed to vote")))
    (fun _ => alert "Error" (VStr "Network error occurred")).

Definition execute_request (transactionId : string) : Request :=
  {| url := API_BASE_URL +:+ "/transactions/" +:+ transactionId +:+ "/execute";
     method := Some "POST";
     headers := [("Authorization", "Bearer " +:+ template (authToken s))];
     body := None |}.

Definition handleExecute (transactionId : string) : Handler unit :=
  if negb (opt_truthy (authToken s)) then
    alert "Error" (VStr "Not authenticated. Please log in again.")
  else
    try_catch
      (let* response := fetch (execute_request transactionId) in
       if ok response then
         let* result := response_json response in
         alert "Success! 🎉" (VStr "Transaction executed successfully!") ;;
         fetchProposals ;;
         fetchGroupData ;;
         fetchPersonalBalance
       else
         let* error := response_json response in
         let* detail := get_detail error in
         alert "Error" (or_else detail (VStr "Failed to execute")))
      (fun _ => alert "Error" (VStr "Network error occurred")).

End Handlers.

(** *** The proposals section of the screen (lines 984-1118) *)

(** What a press does: it calls [handleVote] or [handleExecute]. *)
Inductive Action : Type :=
| HandleVote (transactionId : string) (vote : Vote)
| HandleExecute (transactionId : string).

(** [Math.ceil(n / 2)] for a count [n]. *)
Definition ceil_half (n : nat) : nat := (n + 1) / 2.

Section View.
Context (host : Host) (s : ScreenState).

Definition approveCount (proposal : Transaction) : nat :=
  count_votes approve (votes proposal).

Definition rejectCount (proposal : Transaction) : nat :=
  count_votes reject (votes proposal).

(** [Math.ceil(memberCount / 2)] *)
Definition votesNeeded : nat := ceil_half (memberCount s).

(** [Math.max(0, votesNeeded - approveCount)] *)
Definition votesRemaining (proposal : Transaction) : Z :=
  Z.max 0 (Z.of_nat votesNeeded - Z.of_nat (approveCount proposal)).

(** [proposal.votes?.[currentUserId || ""]] *)
Definition userVote (proposal : Transaction) : option (Member Vote) :=
  read_property (votes proposal) (default "" (currentUserId s)).

(** [statusConfig[proposal.status]]: emoji, colour, text. *)
Definition statusConfig (st : Status) : string * string * string :=
  match st with
  | pending => ("⏳", "#FBBF24", "Pending")
  | approved => ("✓", "#10B981", "Approved")
  | rejected => ("✗", "#EF4444", "Rejected")
  | executed => ("✅", "#8B5CF6", "Executed")
  end.

(** The text under the description: the two tallies and what is left to
    do. *)
Definition voteText (proposal : Transaction) : string :=
  "👍 " +:+ pretty (approveCount proposal) +:+ " | 👎 "
  +:+ pretty (rejectCount proposal) +:+ " |"
  +:+ match status proposal with
      | pending =>
          " " +:+ pretty (votesRemaining proposal) +:+ " more vote"
          +:+ (if bool_decide (votesRemaining proposal <> 1%Z) then "s" else "")
          +:+ " needed"
      | approved => " Ready to execute!"
      | executed => " Funds added to ranch!"
      | rejected => " Not approved"
      end.

Definition voteButtons (proposal : Transaction) : Element Action :=
  El "View" [Style [Sheet "voteButtons"]]
    [ El "TouchableOpacity"
        [Style [Sheet "voteButton"; Sheet "approveButton"];
         OnPress (HandleVote (transactionID proposal) approve)]
        [El "ThemedText" [Style [Sheet "voteButtonText"]] [Text "👍 Approve"]];
      El "TouchableOpacity"
        [Style [Sheet "voteButton"; Sheet "rejectButton"];
         OnPress (HandleVote (transactionID proposal) reject)]
        [El "ThemedText" [Style [Sheet "voteButtonText"]] [Text "👎 Reject"]] ].

Definition votedText (vote : Member Vote) : Element Action :=
  El "ThemedText" [Style [Sheet "votedText"]]
    [Text ("You voted: " +:+
           (if bool_decide (vote = Own approve) then "👍 Approve" else "👎 Reject"))].

Definition executeButton (proposal : Transaction) : Element Action :=
  El "TouchableOpacity"
    [Style [Sheet "executeButton"]; OnPress (HandleExecute (transactionID proposal))]
    [El "ThemedText" [Style [Sheet "executeButtonText"]] [Text "⚡ Execute Transaction"]].

(** The body of [proposals.map((proposal) => ...)]. *)
Definition proposalCard (proposal : Transaction) : Element Action :=
  let '(emoji, color, text) := statusConfig (status proposal) in
  El "ThemedView" [Attribute "key" (transactionID proposal); Style [Sheet "proposalCard"]]
    ([ El "View" [Style [Sheet "proposalHeader"]]
         [ El "ThemedText" [Style [Sheet "proposalAmount"]]
             [Text ("$" +:+ toLocaleString_en_US_2 host (parseFloat host (amount proposal)))];
           El "View" [Style [Sheet "statusBadge"; Inline "backgroundColor" color]]
             [El "ThemedText" [Style [Sheet "statusText"]] [Text (emoji +:+ " " +:+ text)]] ];
       El "ThemedText" [Style [Sheet "proposalDescription"]] [Text (description proposal)];
       El "View" [Style [Sheet "voteInfo"]]
         [El "ThemedText" [Style [Sheet "voteText"]] [Text (voteText proposal)]] ]
     ++ match userVote proposal with
        | Some vote => [votedText vote]
        | None =>
            if bool_decide (status proposal = pending) then [voteButtons proposal] else []
        end
     ++ when (bool_decide (status proposal = approved)) (executeButton proposal)
     ++ [ El "ThemedText" [Style [Sheet "timestampText"]]
            [Text ("Created: " +:+ date_toLocaleString host (createdAt proposal))] ])%list.

Definition proposalsSection : Element Action :=
  El "ThemedView" [Style [Sheet "section"]]
    (El "ThemedText" [Attribute "type" "subtitle"; Style [Sheet "sectionTitle"]]
       [Text ("📋 Proposals (" +:+ pretty (length (proposals s)) +:+ ")")]
     :: (if bool_decide (length (proposals s) = 0%nat)
         then [El "ThemedText" [Style [Sheet "emptyText"]]
                 [Text "No proposals yet. Click Invest to create one!"]]
         else map proposalCard (proposals s))).

End View.

(** What a press in the proposals section does:
    [onPress={() => handleVote(proposal.transactionID, "approve")}] and its
    two companions. *)
Definition press (id : string) (s : ScreenState)
           (fetchGroupData fetchPersonalBalance : Handler unit) (a : Action)
  : Handler unit :=
  match a with
  | HandleVote transactionId vote => handleVote id s fetchGroupData transactionId vote
  | HandleExecute transactionId =>
      handleExecute id s fetchGroupData fetchPersonalBalance transactionId
  end.

(** *** Running a handler *)

Inductive Event : Type :=
| EvFetch (req : Request)
| EvAlert (title : string) (message : value)
| EvSetState (after : ScreenState).

Definition requests_of (trace : list Event) : list Request :=
  omap (fun e => match e with EvFetch r => Some r | _ => None end) trace.

(** The alerts of a trace, in order. *)
Definition alerts_of (trace : list Event) : list (string * value) :=
  omap (fun e => match e with EvAlert title message => Some (title, message) | _ => None end)
       trace.

(** A backend answers a request knowing the requests that came before it. *)
Definition Backend : Type := list Request -> Request -> FetchResult Body.

Record World : Type := mkWorld {
  state : ScreenState;
  trace : list Event
}.

Definition answer (backend : Backend) : forall X, ScreenE X -> World -> X * World :=
  fun X op w =>
    match op in ScreenE X return X * World with
    | Fetch req =>
        (backend (requests_of (trace w)) req,
         mkWorld (state w) (trace w ++ [EvFetch req])%list)
    | Alert_alert title message =>
        (tt, mkWorld (state w) (trace w ++ [EvAlert title message])%list)
    | SetState f =>
        (tt, mkWorld (f (state w)) (trace w ++ [EvSetState (f (state w))])%list)
    end.

Definition exec {A} (backend : Backend) (h : Handler A) (w : World) : World :=
  snd (run (answer backend) h w).

(** *** More setters *)

Definition with_loading (b : bool) (s : ScreenState) : ScreenState :=
  {| authToken := authToken s; currentUserId := currentUserId s;
     groupOwnerId := groupOwnerId s; ranchBalance := ranchBalance s;
     investedAmount := investedAmount s; totalAssets := totalAssets s;
     stockHoldings := stockHoldings s; memberList := memberList s;
     memberProfiles := memberProfiles s; memberCount := memberCount s;
     loading := b; refreshing := refreshing s; proposals := proposals s;
     ledger := ledger s; personalBalance := personalBalance s;
     inviteModalVisible := inviteModalVisible s;
     availableUsers := availableUsers s; selectedUserId := selectedUserId s;
     manageMembersModalVisible := manageMembersModalVisible s;
     investModalVisible := investModalVisible s;
     stockModalVisible := stockModalVisible s;
     withdrawModalVisible := withdrawModalVisible s;
     depositModalVisible := depositModalVisible s;
     transactionAmount := transactionAmount s;
     depositAmount := depositAmount s |}.

Definition with_memberList (l : list string) (s : ScreenState) : ScreenState :=
  {| authToken := authToken s; currentUserId := currentUserId s;
     groupOwnerId := groupOwnerId s; ranchBalance := ranchBalance s;
     investedAmount := investedAmount s; totalAssets := totalAssets s;
     stockHoldings := stockHoldings s; memberList := l;
     memberProfiles := memberProfiles s; memberCount := memberCount s;
     loading := loading s; refreshing := refreshing s;
     proposals := proposals s; ledger := ledger s;
     personalBalance := personalBalance s;
     inviteModalVisible := inviteModalVisible s;
     availableUsers := availableUsers s; selectedUserId := selectedUserId s;
     manageMembersModalVisible := manageMembersModalVisible s;
     investModalVisible := investModalVisible s;
     stockModalVisible := stockModalVisible s;
     withdrawModalVisible := withdrawModalVisible s;
     depositModalVisible := depositModalVisible s;
     transactionAmount := transactionAmount s;
     depositAmount := depositAmount s |}.

Definition with_transactionAmount (a : string) (s : ScreenState) : ScreenState :=
  {| authToken := authToken s; currentUserId := currentUserId s;
     groupOwnerId := groupOwnerId s; ranchBalance := ranchBalance s;
     investedAmount := investedAmount s; totalAssets := totalAssets s;
     stockHoldings := stockHoldings s; memberList := memberList s;
     memberProfiles := memberProfiles s; memberCount := memberCount s;
     loading := loading s; refreshing := refreshing s;
     proposals := proposals s; ledger := ledger s;
     personalBalance := personalBalance s;
     inviteModalVisible := inviteModalVisible s;
     availableUsers := availableUsers s; selectedUserId := selectedUserId s;
     manageMembersModalVisible := manageMembersModalVisible s;
     investModalVisible := investModalVisible s;
     stockModalVisible := stockModalVisible s;
     withdrawModalVisible := withdrawModalVisible s;
     depositModalVisible := depositModalVisible s; transactionAmount := a;
     depositAmount := depositAmount s |}.

Definition with_investModalVisible (b : bool) (s : ScreenState) : ScreenState :=
  {| authToken := authToken s; currentUserId := currentUserId s;
     groupOwnerId := groupOwnerId s; ranchBalance := ranchBalance s;
     investedAmount := investedAmount s; totalAssets := totalAssets s;
     stockHoldings := stockHoldings s; memberList := memberList s;
     memberProfiles := memberProfiles s; memberCount := memberCount s;
     loading := loading s; refreshing := refreshing s;
     proposals := proposals s; ledger := ledger s;
     personalBalance := personalBalance s;
     inviteModalVisible := inviteModalVisible s;
     availableUsers := availableUsers s; selectedUserId := selectedUserId s;
     manageMembersModalVisible := manageMembersModalVisible s;
     investModalVisible := b; stockModalVisible := stockModalVisible s;
     withdrawModalVisible := withdrawModalVisible s;
     depositModalVisible := depositModalVisible s;
     transactionAmount := transactionAmount s;
     depositAmount := depositAmount s |}.

Definition with_withdrawModalVisible (b : bool) (s : ScreenState) : ScreenState :=
  {| authToken := authToken s; currentUserId := currentUserId s;
     groupOwnerId := groupOwnerId s; ranchBalance := ranchBalance s;
     investedAmount := investedAmount s; totalAssets := totalAssets s;
     stockHoldings := stockHoldings s; memberList := memberList s;
     memberProfiles := memberProfiles s; memberCount := memberCount s;
     loading := loading s; refreshing := refreshing s;
     proposals := proposals s; ledger := ledger s;
     personalBalance := personalBalance s;
     inviteModalVisible := inviteModalVisible s;
     availableUsers := availableUsers s; selectedUserId := selectedUserId s;
     manageMembersModalVisible := manageMembersModalVisible s;
     investModalVisible := investModalVisible s;
     stockModalVisible := stockModalVisible s; withdrawModalVisible := b;
     depositModalVisible := depositModalVisible s;
     transactionAmount := transactionAmount s;
     depositAmount := depositAmount s |}.

Definition with_authToken (t : option string) (s : ScreenState) : ScreenState :=
  {| authToken := t; currentUserId := currentUserId s;
     groupOwnerId := groupOwnerId s; ranchBalance := ranchBalance s;
     investedAmount := investedAmount s; totalAssets := totalAssets s;
     stockHoldings := stockHoldings s; memberList := memberList s;
     memberProfiles := memberProfiles s; memberCount := memberCount s;
     loading := loading s; refreshing := refreshing s;
     proposals := proposals s; ledger := ledger s;
     personalBalance := personalBalance s;
     inviteModalVisible := inviteModalVisible s;
     availableUsers := availableUsers s; selectedUserId := selectedUserId s;
     manageMembersModalVisible := manageMembersModalVisible s;
     investModalVisible := investModalVisible s;
     stockModalVisible := stockModalVisible s;
     withdrawModalVisible := withdrawModalVisible s;
     depositModalVisible := depositModalVisible s;
     transactionAmount := transactionAmount s;
     depositAmount := depositAmount s |}.


(** *** More handlers of the screen *)

Definition setLoading (b : bool) : Handler unit := perform (SetState (with_loading b)).
Definition setMemberList (l : list string) : Handler unit := perform (SetState (with_memberList l)).
Definition setTransactionAmount (a : string) : Handler unit :=
  perform (SetState (with_transactionAmount a)).
Definition setInvestModalVisible (b : bool) : Handler unit :=
  perform (SetState (with_investModalVisible b)).
Definition setWithdrawModalVisible (b : bool) : Handler unit :=
  perform (SetState (with_withdrawModalVisible b)).

(** A line break inside a template literal. *)
Definition newline : string := String (Ascii.ascii_of_nat 10) EmptyString.

Section MoreHandlers.
Context (host : Host) (id : string) (s : ScreenState).
Context (fetchGroupData : Handler unit).

Definition trade_request (symbol : string) (quantity : float) : Request :=
  {| url := API_BASE_URL +:+ "/stocks/trade";
     method := Some "POST";
     headers := [("Content-Type", "application/json");
                 ("Authorization", "Bearer " +:+ template (authToken s))];
     body := Some (VObj [("symbol", VStr symbol);
                         ("quantity", VNum quantity);
                         ("group_id", VStr id)]) |}.

(** The text of the alert that confirms a trade proposal. *)
Definition trade_confirmation (quantity : float) (stockName : string)
           (price : float) : string :=
  "Trade proposal created: Buy " +:+ number_toString host quantity
  +:+ " shares of " +:+ stockName +:+ " @ $" +:+ toFixed_2 host price
  +:+ newline +:+ newline
  +:+ "Total: $" +:+ toFixed_2 host (quantity * price)%float
  +:+ newline +:+ newline
  +:+ "Group members can now vote on this proposal.".

(** The callback the screen passes to the stock trading modal.  Its
    [catch] block throws the error again. *)
Definition handleStockTrade (symbol : string) (quantity : float)
           (stockName : string) (price : float) : Handler unit :=
  if negb (opt_truthy (authToken s)) then
    alert "Error" (VStr "Not authenticated. Please log in again.")
  else
    try_catch
      (let* response := fetch (trade_request symbol quantity) in
       if ok response then
         let* result := response_json response in
         alert "Success! 📈" (VStr (trade_confirmation quantity stockName price)) ;;
         fetchProposals id s ;;
         fetchGroupData
       else
         let* error := response_json response in
         let* detail := get_detail error in
         alert "Error" (or_else detail (VStr "Failed to create trade proposal")))
      (fun error =>
         alert "Error" (VStr "Network error occurred") ;;
         Throw error).

Definition invest_request (amount : float) : Request :=
  {| url := API_BASE_URL +:+ "/transactions";
     method := Some "POST";
     headers := [("Authorization", "Bearer " +:+ template (authToken s));
                 ("Content-Type", "application/json")];
     body := Some (VObj [("groupId", VStr id);
                         ("amount", VNum amount);
                         ("description",
                          VStr ("Investment proposal: $" +:+ toLocaleString host amount));
                         ("transactionType", VStr "investment")]) |}.

Definition handleInvestSubmit : Handler unit :=
  if negb (opt_truthy (authToken s)) then
    alert "Error" (VStr "Not authenticated. Please log in again.")
  else if negb (string_truthy id) then
    alert "Error" (VStr "Ranch ID is missing. Please try again.")
  else
    let amount := parseFloat host (transactionAmount s) in
    if negb (number_truthy amount) || PrimFloat.leb amount 0 then
      alert "Invalid Amount" (VStr "Please enter a valid positive amount")
    else if PrimFloat.ltb (personalBalance s) amount then
      alert "Insufficient Funds"
        (VStr ("You don't have enough to invest $" +:+ toLocaleString host amount
               +:+ ". Your available balance is $"
               +:+ toLocaleString host (personalBalance s) +:+ "."))
    else
      setLoading true ;;
      try_finally
        (try_catch
           (let* response := fetch (invest_request amount) in
            if ok response then
              let* data := response_json response in
              setTransactionAmount "" ;;
              setInvestModalVisible false ;;
              fetchProposals id s ;;
              alert "🎉 Proposal Created!"
                (VStr ("Your investment proposal of $" +:+ toLocaleString host amount
                       +:+ " has been submitted. Other members need to approve it before funds are added."))
            else
              let* error := response_json response in
              let* detail := get_detail error in
              alert "Error" (or_else detail (VStr "Failed to create proposal")))
           (fun _ => alert "Error" (VStr "Network error occurred")))
        (setLoading false).

Definition withdraw_request (amount : float) : Request :=
  {| url := API_BASE_URL +:+ "/transactions";
     method := Some "POST";
     headers := [("Authorization", "Bearer " +:+ template (authToken s));
                 ("Content-Type", "application/json")];
     body := Some (VObj [("groupId", VStr id);
                         ("amount", VNum amount);
                         ("description",
                          VStr ("Withdrawal Request: $" +:+ toLocaleString host amount
                                +:+ " from ranch balance"));
                         ("transactionType", VStr "withdrawal")]) |}.

Definition handleWithdrawSubmit : Handler unit :=
  let amount := parseFloat host (transactionAmount s) in
  if negb (number_truthy amount) || PrimFloat.leb amount 0 then
    alert "Invalid Amount" (VStr "Please enter a valid positive amount")
  else if PrimFloat.ltb (ranchBalance s) amount then
    alert "Insufficient Balance"
      (VStr ("Cannot withdraw $" +:+ toLocaleString host amount
             +:+ ". Ranch balance is only $" +:+ toLocaleString host (ranchBalance s)))
  else
    setLoading true ;;
    try_finally
      (try_catch
         (let* response := fetch (withdraw_request amount) in
          if ok response then
            alert "Proposal Created! �"
              (VStr ("Withdrawal proposal for $" +:+ toLocaleString host amount
                     +:+ " has been submitted for group approval")) ;;
            setTransactionAmount "" ;;
            setWithdrawModalVisible false ;;
            fetchProposals id s ;;
            fetchGroupData
          else
            let* error := response_json response in
            let* detail := get_detail error in
            alert "Error" (or_else detail (VStr "Failed to create withdrawal proposal")))
         (fun _ => alert "Error" (VStr "Network error occurred")))
      (setLoading false).

Definition handleKickMember (member : string) : Handler unit :=
  alert "Kick Member" (VStr ("Kicked " +:+ member +:+ " from the ranch")) ;;
  setMemberList (filter (fun m => m <> member) (memberList s)).

Definition handlePromoteMember (member : string) : Handler unit :=
  alert "Promote Member" (VStr (member +:+ " is now an admin!")).

End MoreHandlers.

End RanchScreen.

(* ===================================================================== *)
(** ** contexts/AuthContext.tsx *)
(* ===================================================================== *)

Module AuthContext.
Import Js Host.

(** The five [useState] cells of [AuthProvider]. *)
Record AuthState : Type := mkAuthState {
  isAuthenticated : bool;
  isLoading : bool;
  token : option string;
  userId : option string;
  username : option string
}.

(** The state of a freshly mounted provider. *)
Definition initial : AuthState :=
  {| isAuthenticated := false; isLoading := true;
     token := None; userId := None; username := None |}.

Definition with_isAuthenticated (b : bool) (s : AuthState) : AuthState :=
  {| isAuthenticated := b; isLoading := isLoading s;
     token := token s; userId := userId s; username := username s |}.

Definition with_isLoading (b : bool) (s : AuthState) : AuthState :=
  {| isAuthenticated := isAuthenticated s; isLoading := b;
     token := token s; userId := userId s; username := username s |}.

Definition with_token (t : option string) (s : AuthState) : AuthState :=
  {| isAuthenticated := isAuthenticated s; isLoading := isLoading s;
     token := t; userId := userId s; username := username s |}.

Definition with_userId (u : option string) (s : AuthState) : AuthState :=
  {| isAuthenticated := isAuthenticated s; isLoading := isLoading s;
     token := token s; userId := u; username := username s |}.

Definition with_username (n : option string) (s : AuthState) : AuthState :=
  {| isAuthenticated := isAuthenticated s; isLoading := isLoading s;
     token := token s; userId := userId s; username := n |}.

(** The outside operations: the three calls of [expo-secure-store], each of
    which resolves or rejects, and the state setters. *)
Inductive AuthE : Type -> Type :=
| GetItemAsync (key : string) : AuthE (outcome (option string))
| SetItemAsync (key val : string) : AuthE (outcome unit)
| DeleteItemAsync (key : string) : AuthE (outcome unit)
| SetState (f : AuthState -> AuthState) : AuthE unit.

Definition Auth : Type -> Type := Prog AuthE.

(** [await promise] *)
Definition await {X} (op : AuthE (outcome X)) : Auth X :=
  let* r := perform op in
  match r with
  | Returned x => Ret x
  | Threw e => Throw e
  end.

Definition setIsAuthenticated (b : bool) : Auth unit := perform (SetState (with_isAuthenticated b)).
Definition setIsLoading (b : bool) : Auth unit := perform (SetState (with_isLoading b)).
Definition setToken (t : option string) : Auth unit := perform (SetState (with_token t)).
Definition setUserId (u : option string) : Auth unit := perform (SetState (with_userId u)).
Definition setUsername (n : option string) : Auth unit := perform (SetState (with_username n)).

Definition checkAuth : Auth unit :=
  try_finally
    (try_catch
       (let* storedToken := await (GetItemAsync "authToken") in
        let* storedUserId := await (GetItemAsync "userId") in
        let* storedUsername := await (GetItemAsync "username") in
        if opt_truthy storedToken && opt_truthy storedUserId then
          setToken storedToken ;;
          setUserId storedUserId ;;
          setUsername storedUsername ;;
          setIsAuthenticated true
        else Ret tt)
       (fun _ => Ret tt))
    (setIsLoading false).

Definition login (newToken newUserId newUsername : string) : Auth unit :=
  try_catch
    (await (SetItemAsync "authToken" newToken) ;;
     await (SetItemAsync "userId" newUserId) ;;
     await (SetItemAsync "username" newUsername) ;;
     setToken (Some newToken) ;;
     setUserId (Some newUserId) ;;
     setUsername (Some newUsername) ;;
     setIsAuthenticated true)
    (fun error => Throw error).

Definition logout : Auth unit :=
  try_catch
    (await (DeleteItemAsync "authToken") ;;
     await (DeleteItemAsync "userId") ;;
     await (DeleteItemAsync "username") ;;
     setToken None ;;
     setUserId None ;;
     setUsername None ;;
     setIsAuthenticated false)
    (fun error => Throw error).

(** *** Running the provider's functions

    The world holds the state of the provider, the secure store, and what
    will go wrong: the next call of the store rejects with [e] when the list
    [faults] starts with [Some e], and resolves when it starts with [None]
    or is empty. *)
Record World : Type := mkWorld {
  auth : AuthState;
  store : gmap string string;
  faults : list (option exn)
}.

Definition store_call {X} (w : World) (result : X)
           (after : gmap string string) : outcome X * World :=
  match faults w with
  | Some e :: rest => (Threw e, mkWorld (auth w) (store w) rest)
  | None :: rest => (Returned result, mkWorld (auth w) after rest)
  | [] => (Returned result, mkWorld (auth w) after [])
  end.

Definition answer : forall X, AuthE X -> World -> X * World :=
  fun X op w =>
    match op in AuthE X return X * World with
    | GetItemAsync key => store_call w (store w !! key) (store w)
    | SetItemAsync key val => store_call w tt (<[key := val]> (store w))
    | DeleteItemAsync key => store_call w tt (delete key (store w))
    | SetState f => (tt, mkWorld (f (auth w)) (store w) (faults w))
    end.

Definition exec {A} (p : Auth A) (w : World) : outcome A * World := run answer p w.

(** The invariant of the provider: an authenticated state has a token and a
    user id. *)
Definition authenticated_has_identity (s : AuthState) : Prop :=
  isAuthenticated s = true -> token s <> None /\ userId s <> None.

(** The state [login] leaves when it succeeds. *)
Definition logged_in (t u n : string) (s : AuthState) : AuthState :=
  with_isAuthenticated true
    (with_username (Some n) (with_userId (Some u) (with_token (Some t) s))).

(** The state [logout] leaves when it succeeds. *)
Definition logged_out (s : AuthState) : AuthState :=
  with_isAuthenticated false
    (with_username None (with_userId None (with_token None s))).

(** The provider mounted again on the device [w] leaves behind: its cells
    are [initial], the store is kept, and the store answers every call. *)
Definition remount (w : World) : World := mkWorld initial (store w) [].

End AuthContext.

(* ===================================================================== *)
(** ** app/index.tsx *)
(* ===================================================================== *)

Module Index.
Import Js Host React.

(** The outside operations: the two stores [getData] reads, each of which
    may throw, and the state setter.  The one [useState] cell,
    [isAuthenticated], is [null] ([None]) until the check is done. *)
Inductive IndexE : Type -> Type :=
| LocalStorage_getItem (key : string) : IndexE (outcome (option string))
| GetItemAsync (key : string) : IndexE (outcome (option string))
| SetIsAuthenticated (b : bool) : IndexE unit.

Definition Effect : Type -> Type := Prog IndexE.

Definition await {X} (op : IndexE (outcome X)) : Effect X :=
  let* r := perform op in
  match r with
  | Returned x => Ret x
  | Threw e => Throw e
  end.

(** [Platform.OS === 'web' ? localStorage.getItem(key)
                           : await SecureStore.getItemAsync(key)] *)
Definition getData (os : string) (key : string) : Effect (option string) :=
  if String.eqb os "web" then await (LocalStorage_getItem key)
  else await (GetItemAsync key).

(** The effect run when the component mounts. *)
Definition checkAuth (os : string) : Effect unit :=
  try_catch
    (let* token := getData os "authToken" in
     perform (SetIsAuthenticated (opt_truthy token)))
    (fun _ => perform (SetIsAuthenticated false)).

Definition Index {A} (isAuthenticated : option bool) : Element A :=
  match isAuthenticated with
  | None =>
      El "View" [Style [Inline "flex" "1"; Inline "backgroundColor" "#0B1120";
                        Inline "justifyContent" "center"; Inline "alignItems" "center"]]
        [El "ActivityIndicator" [Attribute "size" "large"; Attribute "color" "#ffffff"] []]
  | Some true => El "Redirect" [Attribute "href" "/(tabs)"] []
  | Some false => El "Redirect" [Attribute "href" "/login"] []
  end.

(** *** Running the effect

    The world holds the cell, the two stores, and what will go wrong: the
    next read rejects with [e] when [faults] starts with [Some e]. *)
Record World : Type := mkWorld {
  isAuthenticated : option bool;
  secureStore : gmap string string;
  localStorage : gmap string string;
  faults : list (option exn)
}.

Definition read (w : World) (from : gmap string string) (key : string)
  : outcome (option string) * World :=
  match faults w with
  | Some e :: rest =>
      (Threw e, mkWorld (isAuthenticated w) (secureStore w) (localStorage w) rest)
  | None :: rest =>
      (Returned (from !! key),
       mkWorld (isAuthenticated w) (secureStore w) (localStorage w) rest)
  | [] => (Returned (from !! key), w)
  end.

Definition answer : forall X, IndexE X -> World -> X * World :=
  fun X op w =>
    match op in IndexE X return X * World with
    | LocalStorage_getItem key => read w (localStorage w) key
    | GetItemAsync key => read w (secureStore w) key
    | SetIsAuthenticated b =>
        (tt, mkWorld (Some b) (secureStore w) (localStorage w) (faults w))
    end.

(** The app started on a device: the cell is [null], and the secure store is
    the one the provider of the credentials reads. *)
Definition start (store : gmap string string) (fs : list (option exn)) : World :=
  mkWorld None store ∅ fs.

End Index.

(* ===================================================================== *)
(** ** components/create-transaction-modal.tsx

    (in the source tree: the second file of
    [src/components/StockTradingModal.tsx]) *)
(* ===================================================================== *)

Module CreateTransactionModal.
Import Js Host.

(** The data properties of the modal; [onClose] and [onSubmit] are the two
    callbacks its handler calls. *)
Record Props : Type := mkProps {
  visible : bool;
  groupId : string;
  groupBalance : float
}.

(** The three [useState] cells. *)
Record State : Type := mkState {
  description : string;
  amount : string;
  isSubmitting : bool
}.

Definition with_description (d : string) (s : State) : State :=
  {| description := d; amount := amount s; isSubmitting := isSubmitting s |}.

Definition with_amount (a : string) (s : State) : State :=
  {| description := description s; amount := a; isSubmitting := isSubmitting s |}.

Definition with_isSubmitting (b : bool) (s : State) : State :=
  {| description := description s; amount := amount s; isSubmitting := b |}.

Inductive ModalE : Type -> Type :=
| Alert_alert (title : string) (message : value) : ModalE unit
| SetState (f : State -> State) : ModalE unit
| OnSubmit (description : string) (amount : float) : ModalE (outcome unit)
| OnClose : ModalE unit.

Definition Handler : Type -> Type := Prog ModalE.

Definition alert (title : string) (message : value) : Handler unit :=
  perform (Alert_alert title message).

Definition setDescription (d : string) : Handler unit := perform (SetState (with_description d)).
Definition setAmount (a : string) : Handler unit := perform (SetState (with_amount a)).
Definition setIsSubmitting (b : bool) : Handler unit := perform (SetState (with_isSubmitting b)).

(** [await onSubmit(description, numAmount)] *)
Definition onSubmit (d : string) (a : float) : Handler unit :=
  let* r := perform (OnSubmit d a) in
  match r with
  | Returned _ => Ret tt
  | Threw e => Throw e
  end.

Definition onClose : Handler unit := perform OnClose.

Section Handlers.
Context (host : Host) (props : Props) (s : State).

(** [error instanceof Error ? error.message : 'Failed to create transaction'] *)
Definition error_text (error : exn) : value :=
  match error with
  | Error m => m
  | SyntaxError => VStr (SyntaxError_message host)
  | TypeError => VStr (TypeError_message host)
  | Thrown _ => VStr "Failed to create transaction"
  end.

Definition handleSubmit : Handler unit :=
  if negb (string_truthy (trim host (description s))) then
    alert "Error" (VStr "Please enter a description")
  else
    let numAmount := parseFloat host (amount s) in
    if negb (number_truthy numAmount) || PrimFloat.leb numAmount 0 then
      alert "Error" (VStr "Please enter a valid amount greater than 0")
    else
      (if PrimFloat.ltb (groupBalance props) numAmount then
         alert "Warning"
           (VStr ("Amount ($" +:+ toFixed_2 host numAmount
                  +:+ ") exceeds group balance ($"
                  +:+ toFixed_2 host (groupBalance props)
                  +:+ "). Transaction can be proposed but not executed until sufficient funds."))
       else Ret tt) ;;
      try_finally
        (try_catch
           (setIsSubmitting true ;;
            onSubmit (description s) numAmount ;;
            setDescription "" ;;
            setAmount "" ;;
            onClose ;;
            alert "Success" (VStr "Transaction proposed! Members can now vote."))
           (fun error => alert "Error" (error_text error)))
        (setIsSubmitting false).

Definition handleCancel : Handler unit :=
  setDescription "" ;;
  setAmount "" ;;
  onClose.

End Handlers.

(** *** Running the handler

    The world holds the state of the modal, what the parent's [onSubmit]
    will do with a proposal, and what has happened so far. *)
Inductive Event : Type :=
| EvAlert (title : string) (message : value)
| EvSubmit (description : string) (amount : float)
| EvClose.

Record World : Type := mkWorld {
  state : State;
  parent : string -> float -> outcome unit;
  trace : list Event
}.

Definition answer : forall X, ModalE X -> World -> X * World :=
  fun X op w =>
    match op in ModalE X return X * World with
    | Alert_alert title message =>
        (tt, mkWorld (state w) (parent w) (trace w ++ [EvAlert title message])%list)
    | SetState f => (tt, mkWorld (f (state w)) (parent w) (trace w))
    | OnSubmit d a =>
        (parent w d a, mkWorld (state w) (parent w) (trace w ++ [EvSubmit d a])%list)
    | OnClose => (tt, mkWorld (state w) (parent w) (trace w ++ [EvClose])%list)
    end.

Definition exec {A} (h : Handler A) (w : World) : World := snd (run answer h w).

(** The proposals handed to [onSubmit] in a trace. *)
Definition submissions (t : list Event) : list (string * float) :=
  omap (fun e => match e with EvSubmit d a => Some (d, a) | _ => None end) t.

(** The messages of the alerts of a trace that have a given title. *)
Definition alerts (title : string) (t : list Event) : list value :=
  omap (fun e => match e with
                 | EvAlert t m => if String.eqb t title then Some m else None
                 | _ => None
                 end) t.

End CreateTransactionModal.

(* ===================================================================== *)
(** ** components/StockTradingModal.tsx *)
(* ===================================================================== *)

Module StockTradingModal.
Import Js Host.

(** [interface Stock]; the three optional properties are [None] when
    absent. *)
Record Stock : Type := mkStock {
  symbol : string;
  name : string;
  price : option float;
  change : option float;
  change_percent : option float
}.

(** The six [useState] cells. *)
Record State : Type := mkState {
  categories : gmap string (list Stock);
  expandedCategory : option string;
  selectedStock : option Stock;
  quantity : string;
  loading : bool;
  fetchingPrices : bool
}.

Definition with_selectedStock (o : option Stock) (s : State) : State :=
  {| categories := categories s; expandedCategory := expandedCategory s;
     selectedStock := o; quantity := quantity s;
     loading := loading s; fetchingPrices := fetchingPrices s |}.

Definition with_quantity (q : string) (s : State) : State :=
  {| categories := categories s; expandedCategory := expandedCategory s;
     selectedStock := selectedStock s; quantity := q;
     loading := loading s; fetchingPrices := fetchingPrices s |}.

Inductive ModalE : Type -> Type :=
| Alert_alert (title : string) (message : value) : ModalE unit
| SetState (f : State -> State) : ModalE unit
| OnTradeSubmit (symbol : string) (quantity : float) (stockName : string) (price : float)
  : ModalE (outcome unit)
| OnClose : ModalE unit.

Definition Handler : Type -> Type := Prog ModalE.

Definition alert (title : string) (message : value) : Handler unit :=
  perform (Alert_alert title message).

Definition setSelectedStock (o : option Stock) : Handler unit :=
  perform (SetState (with_selectedStock o)).
Definition setQuantity (q : string) : Handler unit := perform (SetState (with_quantity q)).

(** [await onTradeSubmit(symbol, qty, name, price)] *)
Definition onTradeSubmit (symbol : string) (qty : float) (stockName : string)
           (price : float) : Handler unit :=
  let* r := perform (OnTradeSubmit symbol qty stockName price) in
  match r with
  | Returned _ => Ret tt
  | Threw e => Throw e
  end.

Definition onClose : Handler unit := perform OnClose.

Section Handlers.
Context (host : Host) (s : State).

Definition handleTradeSubmit : Handler unit :=
  let refuse := alert "Error" (VStr "Please select a stock and enter quantity") in
  match selectedStock s with
  | None => refuse
  | Some stock =>
      match price stock with
      | None => refuse
      | Some stock_price =>
          if negb (string_truthy (quantity s)) || negb (number_truthy stock_price) then
            refuse
          else
            let qty := parseFloat host (quantity s) in
            if PrimFloat.is_nan qty || PrimFloat.leb qty 0 then
              alert "Error" (VStr "Please enter a valid quantity")
            else
              try_catch
                (onTradeSubmit (symbol stock) qty (name stock) stock_price ;;
                 setSelectedStock None ;;
                 setQuantity "" ;;
                 onClose)
                (fun _ => Ret tt)
      end
  end.

(** The total the modal shows under the quantity. *)
Definition calculateTotal : string :=
  match selectedStock s with
  | Some stock =>
      match price stock with
      | Some stock_price =>
          if number_truthy stock_price && string_truthy (quantity s) then
            let qty := parseFloat host (quantity s) in
            if negb (PrimFloat.is_nan qty) then toFixed_2 host (stock_price * qty)%float
            else "0.00"
          else "0.00"
      | None => "0.00"
      end
  | None => "0.00"
  end.

End Handlers.

(** *** Running the handler

    The world holds the state of the modal, what the parent's
    [onTradeSubmit] will do with a trade, and what has happened so far. *)
Inductive Event : Type :=
| EvAlert (title : string) (message : value)
| EvTrade (symbol : string) (quantity : float) (stockName : string) (price : float)
| EvClose.

Record World : Type := mkWorld {
  state : State;
  parent : string -> float -> string -> float -> outcome unit;
  trace : list Event
}.

Definition answer : forall X, ModalE X -> World -> X * World :=
  fun X op w =>
    match op in ModalE X return X * World with
    | Alert_alert title message =>
        (tt, mkWorld (state w) (parent w) (trace w ++ [EvAlert title message])%list)
    | SetState f => (tt, mkWorld (f (state w)) (parent w) (trace w))
    | OnTradeSubmit sym q n p =>
        (parent w sym q n p,
         mkWorld (state w) (parent w) (trace w ++ [EvTrade sym q n p])%list)
    | OnClose => (tt, mkWorld (state w) (parent w) (trace w ++ [EvClose])%list)
    end.

(** The modal as the screen of the ranch mounts it: [onTradeSubmit] is the
    screen's [handleStockTrade], run on the screen [w] against [backend]. *)
Definition mounted (host : Host) (id : string) (fetchGroupData : RanchScreen.Handler unit)
           (backend : RanchScreen.Backend) (w : RanchScreen.World)
  : string -> float -> string -> float -> outcome unit :=
  fun sym q n p =>
    fst (run (RanchScreen.answer backend)
             (RanchScreen.handleStockTrade host id (RanchScreen.state w) fetchGroupData
                sym q n p) w).

End StockTradingModal.

(* ===================================================================== *)
(** ** components/ranch/PieChart.tsx and BalanceSection.tsx *)
(* ===================================================================== *)

Module PieChart.
Import Host React.

Record PieChartProps : Type := mkPieChartProps {
  ranchBalance : float;
  investedAmount : float;
  totalAssets : float
}.

(** One slice: [{ key, value, color }]. *)
Record Investment : Type := mkInvestment {
  key : string;
  value : float;
  color : string
}.

Section Chart.
Context (host : Host) {A : Type}.

Definition createArcPath (cx cy r startAngle endAngle : float) : string :=
  let startX := (cx + r * Math_cos host startAngle)%float in
  let startY := (cy + r * Math_sin host startAngle)%float in
  let endX := (cx + r * Math_cos host endAngle)%float in
  let endY := (cy + r * Math_sin host endAngle)%float in
  let largeArcFlag :=
    if PrimFloat.leb (endAngle - startAngle)%float Math_PI then "0" else "1" in
  "M " +:+ number_toString host cx +:+ " " +:+ number_toString host cy
  +:+ " L " +:+ number_toString host startX +:+ " " +:+ number_toString host startY
  +:+ " A " +:+ number_toString host r +:+ " " +:+ number_toString host r
  +:+ " 0 " +:+ largeArcFlag +:+ " 1 "
  +:+ number_toString host endX +:+ " " +:+ number_toString host endY +:+ " Z".

(** [[liquid, invested].filter((inv) => inv.value > 0)] *)
Definition investments (p : PieChartProps) : list Investment :=
  filter (fun inv => PrimFloat.ltb 0 (value inv) = true)
    [ mkInvestment "Liquid Cash" (ranchBalance p) "#FBBF24";
      mkInvestment "Invested" (investedAmount p) "#10B981" ].

(** The slices, drawn one after the other: [currentAngle] is the local
    variable the callback of [map] reads and advances. *)
Fixpoint paths (total : float) (currentAngle : float) (invs : list Investment)
  : list (Element A) :=
  match invs with
  | [] => []
  | inv :: rest =>
      let angle := (value inv / total * 2 * Math_PI)%float in
      let path := createArcPath 125 125 100 currentAngle (currentAngle + angle)%float in
      El "Path" [Attribute "key" (key inv); Attribute "d" path; Attribute "fill" (color inv)] []
      :: paths total (currentAngle + angle)%float rest
  end.

Definition legendItem (keyed : bool) (inv : Investment) : Element A :=
  El "View" ((if keyed then [Attribute "key" (key inv)] else []) ++ [Style [Sheet "legendItem"]])%list
    [ El "View" [Style [Sheet "legendColor"; Inline "backgroundColor" (color inv)]] [];
      El "ThemedText" []
        [Text (key inv +:+ ": $" +:+ toLocaleString host (value inv))] ].

Definition svg (children : list (Element A)) : Element A :=
  El "Svg" [Attribute "width" "250"; Attribute "height" "250";
            Attribute "viewBox" "0 0 250 250"; Style [Inline "alignSelf" "center"]]
    [El "G" [Attribute "rotation" "-90"; Attribute "origin" "125,125"] children].

Definition title : Element A :=
  El "ThemedText" [Attribute "type" "subtitle"] [Text "Ranch Balance Breakdown"].

Definition RanchPieChart (p : PieChartProps) : Element A :=
  match investments p with
  | [singleInv] =>
      El "ThemedView" [Style [Sheet "section"]]
        [ title;
          svg [El "Path" [Attribute "d" (createArcPath 125 125 100 0 (2 * Math_PI)%float);
                          Attribute "fill" (color singleInv)] []];
          El "View" [Style [Sheet "legend"]] [legendItem false singleInv] ]
  | invs =>
      if PrimFloat.eqb (totalAssets p) 0 || bool_decide (length invs = 0%nat) then
        El "ThemedView" [Style [Sheet "section"]]
          [ title;
            El "ThemedText" [Style [Sheet "emptyText"]]
              [Text "No assets yet. Make a deposit to get started!"] ]
      else
        El "ThemedView" [Style [Sheet "section"]]
          [ title;
            svg (paths (totalAssets p) 0 invs);
            El "View" [Style [Sheet "legend"]] (map (legendItem true) invs) ]
  end.

End Chart.

End PieChart.

Module BalanceSection.
Import Host React Types.

Record BalanceSectionProps : Type := mkBalanceSectionProps {
  balance : RanchBalance
}.

Section Component.
Context (host : Host) {A : Type}.

Definition balanceRow (rowStyle : list StyleItem) (labelStyle : list StyleItem)
           (label : string) (valueStyle : list StyleItem) (amount : float) : Element A :=
  El "View" [Style rowStyle]
    [ El "ThemedText" [Style labelStyle] [Text label];
      El "ThemedText" [Style valueStyle] [Text ("$" +:+ toLocaleString host amount)] ].

Definition BalanceSection (p : BalanceSectionProps) : Element A :=
  El "ThemedView" [Style [Sheet "section"]]
    [ El "ThemedText" [Attribute "type" "subtitle"] [Text "Ranch Balance"];
      El "View" [Style [Sheet "balanceBreakdown"]]
        [ balanceRow [Sheet "balanceRow"] [Sheet "balanceLabel"] "Liquid Cash:"
            [Sheet "balanceValue"] (ranchBalance (balance p));
          balanceRow [Sheet "balanceRow"] [Sheet "balanceLabel"] "Invested:"
            [Sheet "balanceValueInvested"] (investedAmount (balance p));
          balanceRow [Sheet "balanceRow"; Inline "marginTop" "8"]
            [Sheet "balanceLabel"; Inline "fontWeight" "bold"] "Total Assets:"
            [Sheet "balanceValue"; Inline "fontSize" "20"; Inline "fontWeight" "bold"]
            (totalAssets (balance p));
          El "View" [Style [Sheet "separator"]] [];
          balanceRow [Sheet "balanceRow"] [Sheet "balanceLabel"] "Your Available Balance:"
            [Sheet "balanceValue"] (personalBalance (balance p)) ] ].

End Component.

End BalanceSection.

(* ===================================================================== *)
(** ** Sample data *)
(* ===================================================================== *)

Module Samples.
Import Js Http Host React Types.

(** A host that formats nothing: every number and date prints as a fixed
    mark.  It serves where the formatted text plays no part. *)
Definition mute_host : Host :=
  {| parseFloat := fun _ => 0%float;
     number_toString := fun _ => "#";
     toLocaleString := fun _ => "#";
     toLocaleString_en_US_2 := fun _ => "#";
     toFixed_2 := fun _ => "#";
     date_toLocaleString := fun _ => "@";
     date_toLocaleDateString_short := fun _ => "@";
     trim := fun s => s;
     Math_cos := fun x => x;
     Math_sin := fun x => x;
     SyntaxError_message := "Unexpected token";
     TypeError_message := "Network request failed" |}.

Definition make_transaction (tid gid : string) (st : Status)
           (vs : gmap string Vote) : Transaction :=
  {| transactionID := tid; groupID := gid; userID := "alice";
     amount := "250"; description := "Buy feed"; status := st; votes := vs;
     createdAt := "2025-01-15T10:00:00Z";
     proposedBy := Some "alice"; transactionType := None; executedAt := None |}.

Definition two_to_one : gmap string Vote :=
  <["alice" := approve]> (<["bob" := approve]> (<["carol" := reject]> ∅)).

Definition tx_open : Transaction := make_transaction "t1" "g1" pending two_to_one.
Definition tx_fresh : Transaction := make_transaction "t2" "g1" pending ∅.
Definition tx_approved : Transaction := make_transaction "t3" "g1" approved two_to_one.
Definition tx_done : Transaction := make_transaction "t4" "g1" executed two_to_one.
Definition tx_elsewhere : Transaction := make_transaction "t5" "g2" pending ∅.
Definition tx_dave : Transaction :=
  make_transaction "t6" "g1" pending (<["dave" := reject]> ∅).

(** A [TransactionCard] that was passed no callback. *)
Definition bare_card (t : Transaction) : TransactionCard.Props unit unit unit :=
  TransactionCard.mkProps t "dave" None None None.

Definition idle : TransactionCard.State := TransactionCard.mkState false false.

(** A screen of the ranch ["g1"] with [members] members that shows the
    proposals [ps]; Dave is logged in. *)
Definition screen (members : nat) (ps : list Transaction) : RanchScreen.ScreenState :=
  {| RanchScreen.authToken := Some "tok";
     RanchScreen.currentUserId := Some "dave";
     RanchScreen.groupOwnerId := Some "alice";
     RanchScreen.ranchBalance := 1000%float;
     RanchScreen.investedAmount := 0%float;
     RanchScreen.totalAssets := 1000%float;
     RanchScreen.stockHoldings := [];
     RanchScreen.memberList := [];
     RanchScreen.memberProfiles := ∅;
     RanchScreen.memberCount := members;
     RanchScreen.loading := false;
     RanchScreen.refreshing := false;
     RanchScreen.proposals := ps;
     RanchScreen.ledger := [];
     RanchScreen.personalBalance := 10000%float;
     RanchScreen.inviteModalVisible := false;
     RanchScreen.availableUsers := [];
     RanchScreen.selectedUserId := "";
     RanchScreen.manageMembersModalVisible := false;
     RanchScreen.investModalVisible := false;
     RanchScreen.stockModalVisible := false;
     RanchScreen.withdrawModalVisible := false;
     RanchScreen.depositModalVisible := false;
     RanchScreen.transactionAmount := "";
     RanchScreen.depositAmount := "" |}.

(** A backend that refuses every request with a [detail]. *)
Definition refusing_backend : RanchScreen.Backend :=
  fun _ _ =>
    Resolved (mkResponse false
      (Some (RanchScreen.BodyData
               (RanchScreen.mkPayload (VStr "You have already voted") None)))).

(** A backend that answers every request with the same four transactions,
    one of them of another ranch. *)
Definition listing_backend : RanchScreen.Backend :=
  fun _ _ =>
    Resolved (mkResponse true
      (Some (RanchScreen.BodyData
               (RanchScreen.mkPayload VUndefined
                  (Some [tx_open; tx_done; tx_elsewhere; tx_approved]))))).

(** The screen of a ranch of three before anything has happened. *)
Definition quiet_world : RanchScreen.World :=
  RanchScreen.mkWorld (screen 3 [tx_open]) [].

(** A device that holds the credentials of Dave, before the provider has
    looked. *)
Definition stored_world : AuthContext.World :=
  AuthContext.mkWorld AuthContext.initial
    (<["authToken" := "tok"]> (<["userId" := "dave"]> (<["username" := "Dave"]> ∅)))
    [].

(** Dave logged in; the secure store will fail on its second call. *)
Definition failing_world : AuthContext.World :=
  AuthContext.mkWorld
    (AuthContext.mkAuthState true false (Some "tok") (Some "dave") (Some "Dave"))
    (<["authToken" := "tok"]> (<["userId" := "dave"]> (<["username" := "Dave"]> ∅)))
    [None; Some (Error (VStr "Could not reach the keychain"))].

(** Dave logged in, and a store that works. *)
Definition logged_in_world : AuthContext.World :=
  AuthContext.mkWorld
    (AuthContext.mkAuthState true false (Some "tok") (Some "dave") (Some "Dave"))
    (<["authToken" := "tok"]> (<["userId" := "dave"]> (<["username" := "Dave"]> ∅)))
    [].

(** Leading and trailing ASCII white space removed. *)
Fixpoint trim_start (s : string) : string :=
  match s with
  | EmptyString => EmptyString
  | String c rest => if Ascii.is_space c then trim_start rest else s
  end.

Definition trim_ascii (s : string) : string :=
  String.rev (trim_start (String.rev (trim_start s))).

(** A host that reads the few amounts typed in the examples and trims
    ASCII white space. *)
Definition desk_host : Host :=
  {| parseFloat := fun s =>
       if String.eqb s "250" then 250%float
       else if String.eqb s "1500" then 1500%float
       else if String.eqb s "0" then 0%float
       else if String.eqb s "-5" then (-5)%float
       else nan;
     number_toString := fun _ => "#";
     toLocaleString := fun _ => "#";
     toLocaleString_en_US_2 := fun _ => "#";
     toFixed_2 := fun _ => "#";
     date_toLocaleString := fun _ => "@";
     date_toLocaleDateString_short := fun _ => "@";
     trim := trim_ascii;
     Math_cos := fun x => x;
     Math_sin := fun x => x;
     SyntaxError_message := "Unexpected token";
     TypeError_message := "Network request failed" |}.

(** The modal of a ranch that holds 1000. *)
Definition modal_props : CreateTransactionModal.Props :=
  CreateTransactionModal.mkProps true "g1" 1000%float.

Definition form (d a : string) : CreateTransactionModal.State :=
  CreateTransactionModal.mkState d a false.

(** A parent that accepts every proposal. *)
Definition accepting : string -> float -> outcome unit := fun _ _ => Returned tt.

(** A ranch with 600 in cash and 400 invested; one with cash only; an empty
    one. *)
Definition mixed_ranch : PieChart.PieChartProps := PieChart.mkPieChartProps 600 400 1000.
Definition cash_ranch : PieChart.PieChartProps := PieChart.mkPieChartProps 1000 0 1000.
Definition empty_ranch : PieChart.PieChartProps := PieChart.mkPieChartProps 0 0 0.

Definition mixed_balance : BalanceSection.BalanceSectionProps :=
  BalanceSection.mkBalanceSectionProps (mkRanchBalance 600 400 1000 10000).

(** A [TransactionCard] of Dave's that was passed both callbacks. *)
Definition full_card (t : Transaction) : TransactionCard.Props unit unit unit :=
  TransactionCard.mkProps t "dave" (Some tt) (Some tt) None.

(** A vote refused by the backend with a [detail], as the API client reads
    it. *)
Definition refused_vote : Response value :=
  mkResponse false (Some (VObj [("detail", VStr "You have already voted")])).

(** The same screen before the token is loaded. *)
Definition screen_without_token (members : nat) (ps : list Transaction)
  : RanchScreen.ScreenState :=
  RanchScreen.with_authToken None (screen members ps).

(** A backend that cannot be reached. *)
Definition offline_backend : RanchScreen.Backend := fun _ _ => Rejected.

(** The body [listing_backend] answers with. *)
Definition listing : RanchScreen.Payload :=
  RanchScreen.mkPayload VUndefined (Some [tx_open; tx_done; tx_elsewhere; tx_approved]).

(** The body [refusing_backend] answers with. *)
Definition refusal : RanchScreen.Payload :=
  RanchScreen.mkPayload (VStr "You have already voted") None.

(** A stock whose price has been fetched, and the trading modal with this
    stock selected and a quantity typed. *)
Definition acme : StockTradingModal.Stock :=
  StockTradingModal.mkStock "ACME" "Acme Corp" (Some 10%float) None None.

Definition trade_form (q : string) : StockTradingModal.State :=
  StockTradingModal.mkState ∅ (Some "blue_chips") (Some acme) q false false.


Definition constructor_card (t : Transaction) : TransactionCard.Props unit unit unit :=
  TransactionCard.mkProps t "constructor" (Some tt) (Some tt) None.

(** A backend whose answers are not JSON. *)
Definition garbled_backend : RanchScreen.Backend :=
  fun _ _ => Resolved (mkResponse false None).

(** Two devices that differ in their locale only: [toLocaleString()] groups
    the digits of the amounts of the examples with [group]. *)
Definition locale_host (group : string) : Host :=
  {| parseFloat := fun _ => 0%float;
     number_toString := fun _ => "#";
     toLocaleString := fun x =>
       if PrimFloat.eqb x 400 then "400"
       else if PrimFloat.eqb x 600 then "600"
       else if PrimFloat.eqb x 1000 then "1" +:+ group +:+ "000"
       else if PrimFloat.eqb x 10000 then "10" +:+ group +:+ "000"
       else "#";
     toLocaleString_en_US_2 := fun _ => "#";
     toFixed_2 := fun _ => "#";
     date_toLocaleString := fun _ => "@";
     date_toLocaleDateString_short := fun _ => "@";
     trim := fun s => s;
     Math_cos := fun x => x;
     Math_sin := fun x => x;
     SyntaxError_message := "Unexpected token";
     TypeError_message := "Network request failed" |}.

Definition en_US_host : Host := locale_host ",".
Definition de_DE_host : Host := locale_host ".".

End Samples.
(* ===================================================================== *)
(** * Properties *)
(* ===================================================================== *)

(** ** The API wrappers *)

Section ApiProperties.
Import Js Http Types Api.

Lemma get_field_not_nullish (E : Type -> Type) (v : value) (name : string) :
  nullish v = false -> @get_field E v name = Ret (field v name).
Proof. destruct v; simpl; intros H; try discriminate; reflexivity. Qed.

(** Every wrapper, run against a backend that answers [response] with a
    body that parses to [data]. *)
Lemma result_responds (c : Call) (response : Response value) (data : value) :
  json response = Some data ->
  nullish data = false ->
  result (responds response) c =
    if ok response
    then Returned (handed_back c data)
    else Threw (Error (or_else (field data "detail") (VStr (fallback c)))).
Proof.
  intros Hjson Hdata.
  destruct response as [okb js]; simpl in Hjson; subst js.
  destruct c, okb; unfold result, call; cbn;
    rewrite ?(get_field_not_nullish _ _ _ Hdata); reflexivity.
Qed.

End ApiProperties.

Section ApiClaims.
Import Js Http Types Api.

(** C3.  Every wrapper sends exactly one request, whatever the backend
    answers; that request goes to the wrapper's endpoint with the wrapper's
    method (GET for the three read wrappers, which name no method, POST for
    [createTransaction], [voteOnTransaction] and [executeTransaction]),
    [voteOnTransaction] sends the body [{vote}], and in every case the
    request carries [Authorization: Bearer <token>] built from the token
    argument. *)
Theorem api_request_shape (backend : Backend) (c : Call) :
  exists req : Request,
    sent backend c = [req] /\
    header "Authorization" (headers req) = Some ("Bearer " +:+ token_of c) /\
    match c with
    | GetGroupTransactions g _ =>
        effective_method req = "GET" /\
        url req = API_BASE_URL +:+ "/transactions?groupId=" +:+ g
    | GetTransactionHistory _ =>
        effective_method req = "GET" /\
        url req = API_BASE_URL +:+ "/transactions/history/me"
    | GetTransaction i _ =>
        effective_method req = "GET" /\
        url req = API_BASE_URL +:+ "/transactions/" +:+ i
    | CreateTransaction r _ =>
        effective_method req = "POST" /\
        url req = API_BASE_URL +:+ "/transactions" /\
        body req = Some (request_value r)
    | VoteOnTransaction i v _ =>
        effective_method req = "POST" /\
        url req = API_BASE_URL +:+ "/transactions/" +:+ i +:+ "/vote" /\
        body req = Some (VObj [("vote", VStr (vote_string v))])
    | ExecuteTransaction i _ =>
        effective_method req = "POST" /\
        url req = API_BASE_URL +:+ "/transactions/" +:+ i +:+ "/execute"
    end.
Proof.
  unfold sent, call.
  destruct c; cbn -[String.append API_BASE_URL];
    match goal with
    | |- context [backend ?r] =>
        exists r; destruct (backend r) as [|[[] [j|]]]; cbn -[String.append API_BASE_URL];
        repeat match goal with
               | |- context [@get_field ?E ?v ?n] => destruct v; cbn -[String.append API_BASE_URL]
               end;
        auto
    end.
Qed.

(** C2, as the code has it.  When the backend answers with a body that
    parses to a JSON value other than [null], a wrapper throws if and only
    if the response is not ok.  What it throws is an [Error] whose message
    is the body's [detail] when that is truthy and the wrapper's fallback
    string otherwise (also when [detail] is there and is the empty string).
    On an ok response [createTransaction], [voteOnTransaction] and
    [executeTransaction] return the parsed payload; [getGroupTransactions]
    and [getTransactionHistory] return its [transactions] property and
    [getTransaction] its [transaction] property. *)
Theorem api_outcome (c : Call) (response : Response value) (data : value) :
  json response = Some data ->
  nullish data = false ->
  let out := result (responds response) c in
  (threw out = true <-> ok response = false) /\
  (ok response = false ->
     out = Threw (Error (or_else (field data "detail") (VStr (fallback c))))) /\
  (ok response = true -> out = Returned (handed_back c data)).
Proof.
  intros Hjson Hdata out. subst out.
  rewrite (result_responds c response data Hjson Hdata).
  destruct (ok response); cbn; repeat split; intros; try discriminate; reflexivity.
Qed.

End ApiClaims.

Section ApiExamples.
Import Js Http Types Api Samples.

Lemma api_outcome_witness :
  json refused_vote = Some (VObj [("detail", VStr "You have already voted")]) /\
  nullish (VObj [("detail", VStr "You have already voted")]) = false /\
  let out := result (responds refused_vote) (VoteOnTransaction "t1" approve "tok") in
  (threw out = true <-> ok refused_vote = false) /\
  (ok refused_vote = false ->
     out = Threw (Error (or_else
             (field (VObj [("detail", VStr "You have already voted")]) "detail")
             (VStr (fallback (VoteOnTransaction "t1" approve "tok")))))) /\
  (ok refused_vote = true ->
     out = Returned (handed_back (VoteOnTransaction "t1" approve "tok")
                       (VObj [("detail", VStr "You have already voted")]))).
Proof.
  exact (conj eq_refl (conj eq_refl
    (api_outcome (VoteOnTransaction "t1" approve "tok") refused_vote
       (VObj [("detail", VStr "You have already voted")]) eq_refl eq_refl))).
Defined.

Example refused_vote_message :
  result (responds refused_vote) (VoteOnTransaction "t1" approve "tok")
  = Threw (Error (VStr "You have already voted")).
Proof. reflexivity. Qed.

(** C2 as the specification words it fails in three places.  (1) On an ok response
    [getGroupTransactions] does not return the parsed payload but its
    [transactions] property.  (2) A [detail] that is present and empty is
    not the thrown message: the fallback is.  (3) An ok response whose body
    is not JSON makes the wrapper throw although the response is ok. *)
Lemma api_outcome_counterexample :
  (json (mkResponse true (Some (VObj [("transactions", VArr [])])))
     = Some (VObj [("transactions", VArr [])]) /\
   result (responds (mkResponse true (Some (VObj [("transactions", VArr [])]))))
          (GetGroupTransactions "g1" "tok")
     = Returned (VArr []) /\
   VArr [] <> VObj [("transactions", VArr [])]) /\
  (field (VObj [("detail", VStr "")]) "detail" = VStr "" /\
   result (responds (mkResponse false (Some (VObj [("detail", VStr "")]))))
          (ExecuteTransaction "t1" "tok")
     = Threw (Error (VStr "Failed to execute transaction"))) /\
  (ok (mkResponse (B := value) true None) = true /\
   result (responds (mkResponse true None)) (ExecuteTransaction "t1" "tok")
     = Threw SyntaxError).
Proof.
  repeat split; try reflexivity. discriminate.
Qed.

End ApiExamples.

(** ** Tallies of a votes map *)

Section Tallies.
Import Types.

Lemma count_votes_insert (which : Vote) (vs : gmap string Vote) (k : string) (v : Vote) :
  vs !! k = None ->
  count_votes which (<[k:=v]> vs) =
    ((if decide (v = which) then 1 else 0) + count_votes which vs)%nat.
Proof.
  intros Hk. unfold count_votes.
  rewrite (map_to_list_insert vs k v Hk). cbn.
  destruct (decide (v = which)); reflexivity.
Qed.

(** The tally of [which] is the number of entries of the map whose vote is
    [which]. *)
Lemma count_votes_size (which : Vote) (vs : gmap string Vote) :
  count_votes which vs = size (filter (fun kv => kv.2 = which) vs).
Proof.
  induction vs as [|k v vs Hk IH] using map_ind.
  - rewrite map_filter_empty, map_size_empty. unfold count_votes.
    rewrite map_to_list_empty. reflexivity.
  - rewrite (count_votes_insert which vs k v Hk), IH.
    destruct (decide (v = which)) as [Hv|Hv].
    + rewrite map_filter_insert_True by exact Hv.
      rewrite map_size_insert_None; [reflexivity|].
      apply map_lookup_filter_None. left. exact Hk.
    + rewrite map_filter_insert_not' ; [reflexivity | exact Hv |].
      intros y Hy. rewrite Hk in Hy. discriminate.
Qed.

(** Every entry is counted once: as an approval or as a rejection. *)
Lemma count_votes_total (vs : gmap string Vote) :
  (count_votes approve vs + count_votes reject vs)%nat = size vs.
Proof.
  induction vs as [|k v vs Hk IH] using map_ind.
  - rewrite map_size_empty. unfold count_votes. rewrite map_to_list_empty. reflexivity.
  - rewrite !(count_votes_insert _ vs k v Hk), (map_size_insert_None k v vs Hk).
    destruct v; repeat case_decide; try congruence; lia.
Qed.


End Tallies.

(** ** What the cards let the user press *)

Section Presses.
Import Js Http Host React Types.



Lemma proposalCard_presses host s (p : Transaction) :
  presses (RanchScreen.proposalCard host s p) =
    ((match RanchScreen.userVote s p with
      | Some _ => []
      | None => if bool_decide (status p = pending)
                then [RanchScreen.HandleVote (transactionID p) approve;
                      RanchScreen.HandleVote (transactionID p) reject]
                else []
      end)
     ++ (if bool_decide (status p = approved)
         then [RanchScreen.HandleExecute (transactionID p)] else []))%list.
Proof.
  unfold RanchScreen.proposalCard.
  destruct (RanchScreen.statusConfig (status p)) as [[emoji color] text].
  cbn [presses map attr_presses concat app].
  rewrite !map_app, !concat_app. cbn [map concat app].
  destruct (RanchScreen.userVote s p);
  destruct (bool_decide (status p = pending));
  destruct (bool_decide (status p = approved)); reflexivity.
Qed.

Lemma proposalsSection_presses host s :
  presses (RanchScreen.proposalsSection host s) =
    concat (map (fun p => presses (RanchScreen.proposalCard host s p))
                (RanchScreen.proposals s)).
Proof.
  unfold RanchScreen.proposalsSection.
  cbn [presses map attr_presses concat app].
  destruct (RanchScreen.proposals s) as [|p ps]; [reflexivity|].
  cbn [length]. rewrite bool_decide_eq_false_2 by discriminate.
  rewrite map_map. reflexivity.
Qed.

End Presses.

(** ** Which controls a card renders *)
Section ControlClaims.
Import Js Http Host React Types.



Lemma has_property_spec {V} (record : gmap string V) (key : string) :
  has_property record key
  = bool_decide (is_Some (record !! key)) || bool_decide (key ∈ Object_prototype).
Proof.
  unfold has_property, read_property. destruct (record !! key) as [v|].
  - rewrite !bool_decide_eq_true_2 by eauto. reflexivity.
  - rewrite (bool_decide_eq_false_2 (is_Some None)) by (intros [x Hx]; discriminate Hx).
    cbn [orb]. destruct (bool_decide (key ∈ Object_prototype)).
    + apply bool_decide_eq_true_2. eauto.
    + apply bool_decide_eq_false_2. intros [x Hx]. discriminate Hx.
Qed.



(** A text of a child of the root is among the texts of the tree. *)
Lemma texts_child {A} (tag : string) (attrs : list (Attr A))
      (children : list (Element A)) (c : Element A) (t : string) :
  In c children -> In t (texts c) -> In t (texts (El tag attrs children)).
Proof.
  intros Hc Ht. cbn [texts]. apply in_concat. exists (texts c). split; [|exact Ht].
  apply in_map. exact Hc.
Qed.


End ControlClaims.
Section ControlExamples.
Import Js Http Host React Types Samples.




Example proposal_card_presses_open :
  presses (ProposalCard.ProposalCard mute_host (ProposalCard.mkProps tx_open "dave" ∅))
  = [ProposalCard.OnVote "t1" approve; ProposalCard.OnVote "t1" reject].
Proof. vm_compute. reflexivity. Qed.

Example proposal_card_presses_approved :
  presses (ProposalCard.ProposalCard mute_host (ProposalCard.mkProps tx_approved "dave" ∅))
  = [ProposalCard.OnExecute "t3"].
Proof. vm_compute. reflexivity. Qed.

End ControlExamples.

(** ** The tallies a card shows *)
Section TallyClaims.
Import Js Http Host React Types.

(** [ceil_half n] is the least integer that is at least [n / 2]. *)
Lemma ceil_half_spec (n : nat) :
  (n <= 2 * RanchScreen.ceil_half n <= n + 1)%nat.
Proof.
  unfold RanchScreen.ceil_half.
  pose proof (Nat.div_mod_eq (n + 1) 2) as H.
  pose proof (Nat.mod_upper_bound (n + 1) 2) as Hm. lia.
Qed.

(** C1, as the code has it.  The approval and rejection counts a card shows
    are tallies the client computes from the votes map of the proposal: the
    number of entries that are [approve], and the number that are [reject]
    (together, every entry of the map).  The votes-remaining figure of
    [RanchScreen] is computed by the client as well: it is
    [max(0, ceil(memberCount / 2) - approvals)], with [memberCount] taken
    from the state of the screen.  The words after the tallies are chosen
    by the status of the proposal. *)
Theorem tallies_shown :
  (forall host (p : ProposalCard.Props),
     let a := size (filter (fun kv => kv.2 = approve) (votes (ProposalCard.proposal p))) in
     let r := size (filter (fun kv => kv.2 = reject) (votes (ProposalCard.proposal p))) in
     In ("✅ Approvals: " +:+ pretty a) (texts (ProposalCard.ProposalCard host p)) /\
     In ("❌ Rejections: " +:+ pretty r) (texts (ProposalCard.ProposalCard host p)) /\
     (a + r)%nat = size (votes (ProposalCard.proposal p))) /\
  (forall host (s : RanchScreen.ScreenState) (p : Transaction),
     let a := size (filter (fun kv => kv.2 = approve) (votes p)) in
     let r := size (filter (fun kv => kv.2 = reject) (votes p)) in
     let needed := RanchScreen.ceil_half (RanchScreen.memberCount s) in
     let remaining := Z.max 0 (Z.of_nat needed - Z.of_nat a) in
     In ("👍 " +:+ pretty a +:+ " | 👎 " +:+ pretty r +:+ " |" +:+
         (match status p with
          | pending =>
              " " +:+ pretty remaining +:+ " more vote"
              +:+ (if bool_decide (remaining <> 1%Z) then "s" else "") +:+ " needed"
          | approved => " Ready to execute!"
          | executed => " Funds added to ranch!"
          | rejected => " Not approved"
          end))
        (texts (RanchScreen.proposalCard host s p)) /\
     (RanchScreen.memberCount s <= 2 * needed <= RanchScreen.memberCount s + 1)%nat /\
     (remaining = 0%Z <-> (RanchScreen.memberCount s <= 2 * a)%nat)) /\
  (forall (V X R : Type) host (p : TransactionCard.Props V X R) (st : TransactionCard.State),
     let a := size (filter (fun kv => kv.2 = approve) (votes (TransactionCard.transaction p))) in
     let r := size (filter (fun kv => kv.2 = reject) (votes (TransactionCard.transaction p))) in
     status (TransactionCard.transaction p) = pending ->
     In ("👍 " +:+ pretty a +:+ " | 👎 " +:+ pretty r +:+ " (" +:+ pretty (a + r)%nat +:+ " votes)")
        (texts (TransactionCard.TransactionCard host p st))).
Proof.
  split; [|split].
  - intros host p a r. subst a r. rewrite <- !count_votes_size.
    split; [|split].
    + unfold ProposalCard.ProposalCard.
      eapply texts_child; [rewrite !in_app_iff; right; right; left; left; reflexivity|].
      cbn. left. reflexivity.
    + unfold ProposalCard.ProposalCard.
      eapply texts_child; [rewrite !in_app_iff; right; right; left; left; reflexivity|].
      cbn. right. left. reflexivity.
    + apply count_votes_total.
  - intros host s p a r needed remaining. subst a r needed remaining.
    rewrite <- !count_votes_size.
    pose proof (ceil_half_spec (RanchScreen.memberCount s)) as Hc.
    split; [|split].
    + unfold RanchScreen.proposalCard.
      destruct (RanchScreen.statusConfig (status p)) as [[emoji color] text].
      eapply texts_child; [rewrite !in_app_iff; left; right; right; left; reflexivity|].
      cbn. left. unfold RanchScreen.voteText, RanchScreen.votesRemaining,
        RanchScreen.votesNeeded, RanchScreen.approveCount, RanchScreen.rejectCount.
      reflexivity.
    + exact Hc.
    + lia.
  - intros V X R host p st a r Hst. subst a r. rewrite <- !count_votes_size.
    unfold TransactionCard.TransactionCard.
    eapply texts_child with (c := TransactionCard.voteInfo p).
    + rewrite bool_decide_eq_true_2 by exact Hst.
      rewrite !in_app_iff. right. left. left. reflexivity.
    + cbn. left. reflexivity.
Qed.
End TallyClaims.

Section TallyExamples.
Import Js Http Host React Types Samples.

Example tx_open_vote_text_7 :
  RanchScreen.voteText (screen 7 [tx_open]) tx_open = "👍 2 | 👎 1 | 2 more votes needed".
Proof. vm_compute. reflexivity. Qed.

(** C1 as the specification words it fails: the figures are not delivered with the
    proposal.  The same proposal, with the same votes map, is shown with
    two votes remaining on a screen that counts seven members and with none
    remaining on a screen that counts three; the threshold is the client's
    [ceil(memberCount / 2)], and the tallies [2] and [1] are counted by the
    client from the three entries of the map. *)
Lemma tallies_counterexample :
  (RanchScreen.voteText (screen 7 [tx_open]) tx_open = "👍 2 | 👎 1 | 2 more votes needed" /\
   RanchScreen.voteText (screen 3 [tx_open]) tx_open = "👍 2 | 👎 1 | 0 more votes needed") /\
  (RanchScreen.approveCount tx_open = 2%nat /\ RanchScreen.rejectCount tx_open = 1%nat /\
   RanchScreen.votesNeeded (screen 7 [tx_open]) = 4%nat) /\
  ~ (exists delivered : Transaction -> Z,
       forall s p, RanchScreen.votesRemaining s p = delivered p).
Proof.
  split; [split; vm_compute; reflexivity|].
  split; [repeat split; vm_compute; reflexivity|].
  intros [delivered H].
  pose proof (H (screen 7 [tx_open]) tx_open) as H7.
  pose proof (H (screen 3 [tx_open]) tx_open) as H3.
  assert (E7 : RanchScreen.votesRemaining (screen 7 [tx_open]) tx_open = 2%Z)
    by (vm_compute; reflexivity).
  assert (E3 : RanchScreen.votesRemaining (screen 3 [tx_open]) tx_open = 0%Z)
    by (vm_compute; reflexivity).
  congruence.
Qed.

(** A pending transaction on a card: the tallies are shown. *)
Lemma tallies_shown_witness :
  status (TransactionCard.transaction (bare_card tx_open)) = pending /\
  In ("👍 " +:+ pretty (size (filter (fun kv => kv.2 = approve) (votes tx_open)))
      +:+ " | 👎 " +:+ pretty (size (filter (fun kv => kv.2 = reject) (votes tx_open)))
      +:+ " (" +:+ pretty (size (filter (fun kv => kv.2 = approve) (votes tx_open))
                           + size (filter (fun kv => kv.2 = reject) (votes tx_open)))%nat
      +:+ " votes)")
     (texts (TransactionCard.TransactionCard mute_host (bare_card tx_open) idle)).
Proof.
  split; [reflexivity|].
  exact (proj2 (proj2 tallies_shown) unit unit unit mute_host (bare_card tx_open) idle eq_refl).
Defined.

End TallyExamples.
(** ** The handlers of RanchScreen *)

Section HandlerClaims.
Import Js Http Host React Types RanchScreen.

(** C6.  When the backend answers the vote request (or the execute request)
    with a response that is not ok, the handler does one thing after the
    request: it shows one alert titled [Error].  The message is the
    [detail] of the error body when that is truthy and the fixed string
    [Failed to vote] (or [Failed to execute]) otherwise; when the error body
    cannot be read it is the fixed string [Network error occurred].  The
    state of the screen is what it was, and the trace shows no further
    request and no state update. *)
Theorem failed_request_leaves_state :
  (forall (id : string) (s : ScreenState) (fetchGroupData : Handler unit)
          (backend : Backend) (w : World) (transactionId : string) (vote : Vote)
          (response : Response Body),
     backend (requests_of (trace w)) (vote_request s transactionId vote) = Resolved response ->
     ok response = false ->
     let w' := exec backend (handleVote id s fetchGroupData transactionId vote) w in
     state w' = state w /\
     trace w' =
       (trace w ++
        [EvFetch (vote_request s transactionId vote);
         EvAlert "Error"
           match json response with
           | Some (BodyData p) => or_else (detail p) (VStr "Failed to vote")
           | _ => VStr "Network error occurred"
           end])%list) /\
  (forall (id : string) (s : ScreenState) (fetchGroupData fetchPersonalBalance : Handler unit)
          (backend : Backend) (w : World) (transactionId : string)
          (response : Response Body),
     opt_truthy (authToken s) = true ->
     backend (requests_of (trace w)) (execute_request s transactionId) = Resolved response ->
     ok response = false ->
     let w' := exec backend
                 (handleExecute id s fetchGroupData fetchPersonalBalance transactionId) w in
     state w' = state w /\
     trace w' =
       (trace w ++
        [EvFetch (execute_request s transactionId);
         EvAlert "Error"
           match json response with
           | Some (BodyData p) => or_else (detail p) (VStr "Failed to execute")
           | _ => VStr "Network error occurred"
           end])%list).
Proof.
  split.
  - intros id s fgd backend w tid vote response Hresp Hok w'. subst w'.
    unfold exec, handleVote, fetch, perform. cbn [bind try_catch run answer].
    rewrite Hresp. cbn [bind try_catch run answer]. rewrite Hok.
    destruct response as [okb [[|p]|]]; cbn;
      rewrite <- ?app_assoc; cbn; split; reflexivity.
  - intros id s fgd fpb backend w tid response Hauth Hresp Hok w'. subst w'.
    unfold exec, handleExecute, fetch, perform. rewrite Hauth.
    cbn [negb bind try_catch run answer].
    rewrite Hresp. cbn [bind try_catch run answer]. rewrite Hok.
    destruct response as [okb [[|p]|]]; cbn;
      rewrite <- ?app_assoc; cbn; split; reflexivity.
Qed.

(** The same holds when no response arrives at all. *)
Lemma rejected_vote_leaves_state
      (id : string) (s : ScreenState) (fetchGroupData : Handler unit)
      (backend : Backend) (w : World) (transactionId : string) (vote : Vote) :
  backend (requests_of (trace w)) (vote_request s transactionId vote) = Rejected ->
  let w' := exec backend (handleVote id s fetchGroupData transactionId vote) w in
  state w' = state w /\
  trace w' = (trace w ++ [EvFetch (vote_request s transactionId vote);
                          EvAlert "Error" (VStr "Network error occurred")])%list.
Proof.
  intros Hresp w'. subst w'.
  unfold exec, handleVote, fetch, perform. cbn [bind try_catch run answer].
  rewrite Hresp. cbn. rewrite <- app_assoc. split; reflexivity.
Qed.

(** C9.  A call of [fetchProposals] succeeds when the route has an id, a
    token is loaded, and the backend answers the request with an ok
    response whose body parses to a value other than [null].  After it,
    [proposals] holds exactly the fetched transactions of this ranch whose
    status is not [executed] and [ledger] exactly those whose status is
    [executed], each as often and in the order it was fetched; together they
    are the fetched transactions of this ranch, no transaction is in both,
    and a transaction of another group is in neither. *)
Theorem fetchProposals_partition
        (id : string) (s : ScreenState) (backend : Backend) (w : World)
        (response : Response Body) (p : Payload) :
  string_truthy id = true ->
  opt_truthy (authToken s) = true ->
  backend (requests_of (trace w)) (proposals_request id s) = Resolved response ->
  ok response = true ->
  json response = Some (BodyData p) ->
  let fetched := default [] (transactions p) in
  let mine := filter (fun txn => groupID txn = id) fetched in
  let w' := exec backend (fetchProposals id s) w in
  state w' = with_ledger (filter (fun txn => status txn = executed) mine)
               (with_proposals (filter (fun txn => status txn <> executed) mine) (state w)) /\
  proposals (state w') = filter (fun txn => status txn <> executed) mine /\
  ledger (state w') = filter (fun txn => status txn = executed) mine /\
  (forall txn, In txn (proposals (state w')) <->
               In txn fetched /\ groupID txn = id /\ status txn <> executed) /\
  (forall txn, In txn (ledger (state w')) <->
               In txn fetched /\ groupID txn = id /\ status txn = executed) /\
  (proposals (state w') ++ ledger (state w'))%list ≡ₚ mine /\
  (forall txn, ~ (In txn (proposals (state w')) /\ In txn (ledger (state w')))) /\
  (forall txn, groupID txn <> id ->
               ~ In txn (proposals (state w')) /\ ~ In txn (ledger (state w'))).
Proof.
  intros Hid Hauth Hresp Hok Hjson fetched mine w'.
  assert (Hst : state w' =
                with_ledger (filter (fun txn => status txn = executed) mine)
                  (with_proposals (filter (fun txn => status txn <> executed) mine)
                     (state w))).
  { subst w'. unfold exec, fetchProposals, fetch, perform. rewrite Hid, Hauth.
    cbn [negb bind try_catch run answer].
    rewrite Hresp. cbn [bind try_catch run answer]. rewrite Hok.
    unfold response_json. rewrite Hjson. reflexivity. }
  split; [exact Hst|]. rewrite Hst. cbn [proposals ledger with_ledger with_proposals].
  assert (Hin1 : forall txn, In txn (filter (fun txn => status txn <> executed) mine) <->
                   In txn fetched /\ groupID txn = id /\ status txn <> executed).
  { intros txn. subst mine. rewrite <- !list_elem_of_In, !list_elem_of_filter. tauto. }
  assert (Hin2 : forall txn, In txn (filter (fun txn => status txn = executed) mine) <->
                   In txn fetched /\ groupID txn = id /\ status txn = executed).
  { intros txn. subst mine. rewrite <- !list_elem_of_In, !list_elem_of_filter. tauto. }
  split; [reflexivity|]. split; [reflexivity|].
  split; [exact Hin1|]. split; [exact Hin2|].
  split; [|split].
  - assert (E : filter (fun txn => status txn = executed) mine =
                 filter (fun txn => ~ status txn <> executed) mine).
    { apply list_filter_iff. intros t. split.
      - intros -> Hne. apply Hne. reflexivity.
      - intros Hnn. destruct (decide (status t = executed)); tauto. }
    rewrite E. apply filter_app_complement.
  - intros txn [H1 H2]. apply Hin1 in H1. apply Hin2 in H2. tauto.
  - intros txn Hne. split.
    + intros H1. apply Hin1 in H1. tauto.
    + intros H2. apply Hin2 in H2. tauto.
Qed.

End HandlerClaims.

Section HandlerExamples.
Import Js Http Host React Types RanchScreen Samples.

(** Dave votes again on [tx_open], then tries to execute it; the backend
    refuses both. *)
Lemma failed_request_leaves_state_witness :
  (refusing_backend (requests_of (trace quiet_world))
     (vote_request (screen 3 [tx_open]) "t1" approve)
   = Resolved (mkResponse false
       (Some (BodyData (mkPayload (VStr "You have already voted") None)))) /\
   ok (mkResponse false
         (Some (BodyData (mkPayload (VStr "You have already voted") None)))) = false /\
   state (exec refusing_backend
            (handleVote "g1" (screen 3 [tx_open]) (Ret tt) "t1" approve) quiet_world)
   = state quiet_world /\
   trace (exec refusing_backend
            (handleVote "g1" (screen 3 [tx_open]) (Ret tt) "t1" approve) quiet_world)
   = [EvFetch (vote_request (screen 3 [tx_open]) "t1" approve);
      EvAlert "Error" (VStr "You have already voted")]) /\
  (opt_truthy (authToken (screen 3 [tx_open])) = true /\
   refusing_backend (requests_of (trace quiet_world))
     (execute_request (screen 3 [tx_open]) "t1")
   = Resolved (mkResponse false
       (Some (BodyData (mkPayload (VStr "You have already voted") None)))) /\
   state (exec refusing_backend
            (handleExecute "g1" (screen 3 [tx_open]) (Ret tt) (Ret tt) "t1") quiet_world)
   = state quiet_world /\
   trace (exec refusing_backend
            (handleExecute "g1" (screen 3 [tx_open]) (Ret tt) (Ret tt) "t1") quiet_world)
   = [EvFetch (execute_request (screen 3 [tx_open]) "t1");
      EvAlert "Error" (VStr "You have already voted")]).
Proof.
  split.
  - split; [reflexivity|]. split; [reflexivity|].
    exact (proj1 failed_request_leaves_state "g1" (screen 3 [tx_open]) (Ret tt)
             refusing_backend quiet_world "t1" approve
             (mkResponse false
                (Some (BodyData (mkPayload (VStr "You have already voted") None))))
             eq_refl eq_refl).
  - split; [reflexivity|]. split; [reflexivity|].
    exact (proj2 failed_request_leaves_state "g1" (screen 3 [tx_open]) (Ret tt) (Ret tt)
             refusing_backend quiet_world "t1"
             (mkResponse false
                (Some (BodyData (mkPayload (VStr "You have already voted") None))))
             eq_refl eq_refl eq_refl).
Defined.

(** The screen of ranch [g1] fetches four transactions. *)
Lemma fetchProposals_partition_witness :
  string_truthy "g1" = true /\
  opt_truthy (authToken (screen 3 [tx_open])) = true /\
  proposals (state (exec listing_backend (fetchProposals "g1" (screen 3 [tx_open])) quiet_world))
  = [tx_open; tx_approved] /\
  ledger (state (exec listing_backend (fetchProposals "g1" (screen 3 [tx_open])) quiet_world))
  = [tx_done].
Proof.
  split; [reflexivity|]. split; [reflexivity|].
  destruct (fetchProposals_partition "g1" (screen 3 [tx_open]) listing_backend quiet_world
              (mkResponse true
                 (Some (BodyData (mkPayload VUndefined
                    (Some [tx_open; tx_done; tx_elsewhere; tx_approved])))))
              (mkPayload VUndefined (Some [tx_open; tx_done; tx_elsewhere; tx_approved]))
              eq_refl eq_refl eq_refl eq_refl eq_refl)
    as (_ & Hp & Hl & _).
  rewrite Hp, Hl. split; vm_compute; reflexivity.
Defined.

End HandlerExamples.

(** ** The authentication context *)

Section AuthClaims.
Import Js Host AuthContext.

(** Case analysis on what the next store call does. *)
Ltac next_store_call :=
  match goal with
  | |- context [store_call (mkWorld _ _ ?fs)] =>
      unfold store_call at 1; cbn [faults auth store];
      try (is_var fs; destruct fs as [|[?e|] ?fs]);
      cbn [run bind try_catch try_finally answer fst snd]
  end.

Ltac run_auth :=
  unfold exec, checkAuth, login, logout, await, perform,
    setToken, setUserId, setUsername, setIsAuthenticated, setIsLoading;
  cbn [run bind try_catch try_finally answer fst snd];
  repeat next_store_call;
  cbn [faults auth store].

Lemma opt_truthy_not_None (o : option string) : opt_truthy o = true -> o <> None.
Proof. destruct o; [discriminate|]. cbn. discriminate. Qed.

(** C8.  An authenticated state always has a token and a user id: this
    holds of the initial state, and each of [checkAuth], [login] and
    [logout] takes a state where it holds to a state where it holds,
    whichever calls of the secure store fail.  When [logout] returns, the
    token, the user id and the user name are [null] and [isAuthenticated] is
    [false]. *)
Theorem auth_invariant :
  authenticated_has_identity initial /\
  (forall w : World,
     authenticated_has_identity (auth w) ->
     authenticated_has_identity (auth (snd (exec checkAuth w)))) /\
  (forall (w : World) (newToken newUserId newUsername : string),
     authenticated_has_identity (auth w) ->
     authenticated_has_identity (auth (snd (exec (login newToken newUserId newUsername) w)))) /\
  (forall w : World,
     authenticated_has_identity (auth w) ->
     authenticated_has_identity (auth (snd (exec logout w)))) /\
  (forall w : World,
     fst (exec logout w) = Returned tt ->
     let s := auth (snd (exec logout w)) in
     token s = None /\ userId s = None /\ username s = None /\ isAuthenticated s = false).
Proof.
  unfold authenticated_has_identity.
  split; [cbn; discriminate|]. split; [|split; [|split]].
  - intros [a st fs] Hinv. cbn [auth] in Hinv.
    remember (exec checkAuth (mkWorld a st fs)) as r eqn:E. revert E. run_auth.
    all: intros ->; try (cbn; exact Hinv).
    all: destruct (opt_truthy (st !! "authToken")) eqn:Ht;
         destruct (opt_truthy (st !! "userId")) eqn:Hu; cbn; try exact Hinv.
    all: intros _; split; apply opt_truthy_not_None; assumption.
  - intros [a st fs] t u n Hinv. cbn [auth] in Hinv.
    remember (exec (login t u n) (mkWorld a st fs)) as r eqn:E. revert E. run_auth.
    all: intros ->; try (cbn; exact Hinv).
    all: cbn; intros _; split; discriminate.
  - intros [a st fs] Hinv. cbn [auth] in Hinv.
    remember (exec logout (mkWorld a st fs)) as r eqn:E. revert E. run_auth.
    all: intros ->; try (cbn; exact Hinv).
    all: cbn; discriminate.
  - intros [a st fs].
    remember (exec logout (mkWorld a st fs)) as r eqn:E. revert E. run_auth.
    all: intros ->; cbn; intros H; try discriminate H; repeat split; reflexivity.
Qed.

End AuthClaims.

Section AuthExamples.
Import Js Host AuthContext Samples.

Example checkAuth_finds_credentials :
  auth (snd (exec checkAuth stored_world))
  = mkAuthState true false (Some "tok") (Some "dave") (Some "Dave").
Proof. vm_compute. reflexivity. Qed.

(** A logout that fails half way throws and leaves the state of the
    provider as it was. *)
Example logout_fails_half_way :
  fst (exec logout failing_world) = Threw (Error (VStr "Could not reach the keychain")) /\
  auth (snd (exec logout failing_world)) = auth failing_world.
Proof. split; vm_compute; reflexivity. Qed.

Lemma auth_invariant_witness :
  (authenticated_has_identity (auth stored_world) /\
   authenticated_has_identity (auth (snd (exec checkAuth stored_world)))) /\
  (authenticated_has_identity (auth logged_in_world) /\
   authenticated_has_identity (auth (snd (exec (login "tok2" "erin" "Erin") logged_in_world)))) /\
  (authenticated_has_identity (auth failing_world) /\
   authenticated_has_identity (auth (snd (exec logout failing_world)))) /\
  (fst (exec logout logged_in_world) = Returned tt /\
   token (auth (snd (exec logout logged_in_world))) = None /\
   userId (auth (snd (exec logout logged_in_world))) = None /\
   username (auth (snd (exec logout logged_in_world))) = None /\
   isAuthenticated (auth (snd (exec logout logged_in_world))) = false).
Proof.
  assert (H0 : authenticated_has_identity (auth stored_world))
    by (intros H; discriminate H).
  assert (H1 : authenticated_has_identity (auth logged_in_world))
    by (intros _; split; discriminate).
  assert (H2 : authenticated_has_identity (auth failing_world))
    by (intros _; split; discriminate).
  assert (H3 : fst (exec logout logged_in_world) = Returned tt)
    by (vm_compute; reflexivity).
  destruct auth_invariant as (_ & Hcheck & Hlogin & Hlogout & Hdone).
  split; [split; [exact H0 | exact (Hcheck stored_world H0)]|].
  split; [split; [exact H1 | exact (Hlogin logged_in_world "tok2" "erin" "Erin" H1)]|].
  split; [split; [exact H2 | exact (Hlogout failing_world H2)]|].
  split; [exact H3 | exact (Hdone logged_in_world H3)].
Defined.

End AuthExamples.
(** ** The modal that proposes a transaction *)

Section ModalClaims.
Import Js Host CreateTransactionModal.

(** The amount guard of [handleSubmit], [!numAmount || numAmount <= 0],
    rejects exactly the amounts that are not strictly greater than zero
    ([NaN] among them). *)
Lemma positive_guard (x : float) :
  negb (number_truthy x) || PrimFloat.leb x 0 = negb (PrimFloat.ltb 0 x).
Proof.
  unfold number_truthy, PrimFloat.is_nan.
  rewrite !FloatAxioms.eqb_spec, FloatAxioms.leb_spec, FloatAxioms.ltb_spec.
  replace (Prim2SF 0) with (S754_zero false) by reflexivity.
  destruct (Prim2SF x) as [s|s| |s m e]; try (destruct s; reflexivity); try reflexivity.
  unfold SFeqb, SFleb, SFltb. cbn.
  rewrite Z.compare_refl, Pos.compare_cont_refl.
  destruct s; reflexivity.
Qed.

Lemma string_truthy_iff (s : string) : string_truthy s = true <-> s <> "".
Proof.
  unfold string_truthy. rewrite negb_true_iff. apply String.eqb_neq.
Qed.

(** What [handleSubmit] leaves in the trace, case by case. *)
Lemma handleSubmit_trace (host : Host) (props : Props) (s st : State)
      (parent : string -> float -> outcome unit) :
  let numAmount := parseFloat host (amount s) in
  let t := trace (exec (handleSubmit host props s) (mkWorld st parent [])) in
  if string_truthy (trim host (description s)) && PrimFloat.ltb 0 numAmount then
    submissions t = [(description s, numAmount)] /\
    In (EvSubmit (description s) numAmount) t /\
    alerts "Warning" t =
      if PrimFloat.ltb (groupBalance props) numAmount
      then [VStr ("Amount ($" +:+ toFixed_2 host numAmount
                  +:+ ") exceeds group balance ($"
                  +:+ toFixed_2 host (groupBalance props)
                  +:+ "). Transaction can be proposed but not executed until sufficient funds.")]
      else []
  else
    submissions t = [] /\ (forall d a, ~ In (EvSubmit d a) t).
Proof.
  intros numAmount t. subst t. unfold exec, handleSubmit.
  fold numAmount. rewrite positive_guard.
  destruct (string_truthy (trim host (description s))); cbn [negb andb].
  2:{ cbn. split; [reflexivity|]. intros d a [H|[]]. discriminate H. }
  destruct (PrimFloat.ltb 0 numAmount); cbn [negb].
  2:{ cbn. split; [reflexivity|]. intros d a [H|[]]. discriminate H. }
  destruct (PrimFloat.ltb (groupBalance props) numAmount);
    unfold alert, setIsSubmitting, onSubmit, setDescription, setAmount, onClose, perform;
    cbn [bind try_catch try_finally run answer snd CreateTransactionModal.trace CreateTransactionModal.state CreateTransactionModal.parent app];
    destruct (parent (description s) numAmount) as [[]|e]; cbn; auto 10.
Qed.

(** C10.  [handleSubmit] calls [onSubmit] if and only if the trimmed
    description is not empty and [parseFloat(amount)] is strictly greater
    than zero; it then calls it once, with the description as typed and the
    parsed amount.  An amount that exceeds [groupBalance] raises one warning
    alert and is submitted all the same. *)
Theorem handleSubmit_submits (host : Host) (props : Props) (s st : State)
        (parent : string -> float -> outcome unit) :
  let numAmount := parseFloat host (amount s) in
  let t := trace (exec (handleSubmit host props s) (mkWorld st parent [])) in
  ((exists d a, In (EvSubmit d a) t) <->
   trim host (description s) <> "" /\ PrimFloat.ltb 0 numAmount = true) /\
  ((exists d a, In (EvSubmit d a) t) ->
   submissions t = [(description s, numAmount)]) /\
  (trim host (description s) <> "" ->
   PrimFloat.ltb 0 numAmount = true ->
   PrimFloat.ltb (groupBalance props) numAmount = true ->
   (exists message, alerts "Warning" t = [message]) /\
   submissions t = [(description s, numAmount)]).
Proof.
  intros numAmount t.
  pose proof (handleSubmit_trace host props s st parent) as H.
  cbv zeta in H. fold numAmount in H. fold t in H.
  rewrite <- string_truthy_iff.
  destruct (string_truthy (trim host (description s)));
    destruct (PrimFloat.ltb 0 numAmount); cbn [andb] in H.
  - destruct H as (Hs & Hin & Hw). split; [|split].
    + split; [auto|]. intros _. eauto.
    + intros _. exact Hs.
    + intros _ _ Hgt. rewrite Hgt in Hw. split; [eauto|exact Hs].
  - destruct H as (Hs & Hno). split; [|split].
    + split; [intros (d & a & Hin); destruct (Hno d a Hin)|intros [_ H]; discriminate H].
    + intros (d & a & Hin). destruct (Hno d a Hin).
    + intros _ H. discriminate H.
  - destruct H as (Hs & Hno). split; [|split].
    + split; [intros (d & a & Hin); destruct (Hno d a Hin)|intros [H _]; discriminate H].
    + intros (d & a & Hin). destruct (Hno d a Hin).
    + intros H. discriminate H.
  - destruct H as (Hs & Hno). split; [|split].
    + split; [intros (d & a & Hin); destruct (Hno d a Hin)|intros [H _]; discriminate H].
    + intros (d & a & Hin). destruct (Hno d a Hin).
    + intros H. discriminate H.
Qed.

End ModalClaims.

Section ModalExamples.
Import Js Host CreateTransactionModal Samples.

Example blank_description_is_refused :
  trace (exec (handleSubmit desk_host modal_props (form "   " "250"))
              (mkWorld (form "   " "250") accepting []))
  = [EvAlert "Error" (VStr "Please enter a description")].
Proof. vm_compute. reflexivity. Qed.

Example unreadable_amount_is_refused :
  trace (exec (handleSubmit desk_host modal_props (form "New fence" "a lot"))
              (mkWorld (form "New fence" "a lot") accepting []))
  = [EvAlert "Error" (VStr "Please enter a valid amount greater than 0")].
Proof. vm_compute. reflexivity. Qed.

Example negative_amount_is_refused :
  submissions (trace (exec (handleSubmit desk_host modal_props (form "New fence" "-5"))
                           (mkWorld (form "New fence" "-5") accepting [])))
  = [].
Proof. vm_compute. reflexivity. Qed.

Example affordable_amount_is_submitted :
  trace (exec (handleSubmit desk_host modal_props (form "New fence" "250"))
              (mkWorld (form "New fence" "250") accepting []))
  = [EvSubmit "New fence" 250%float; EvClose;
     EvAlert "Success" (VStr "Transaction proposed! Members can now vote.")].
Proof. vm_compute. reflexivity. Qed.

(** 1500 is more than the ranch holds: one warning, and the proposal is
    submitted. *)
Lemma handleSubmit_submits_witness :
  trim desk_host (description (form "New fence" "1500")) <> "" /\
  PrimFloat.ltb 0 (parseFloat desk_host (amount (form "New fence" "1500"))) = true /\
  PrimFloat.ltb (groupBalance modal_props)
                (parseFloat desk_host (amount (form "New fence" "1500"))) = true /\
  (exists d a,
     In (EvSubmit d a)
        (trace (exec (handleSubmit desk_host modal_props (form "New fence" "1500"))
                     (mkWorld (form "New fence" "1500") accepting [])))) /\
  (exists message,
     alerts "Warning"
       (trace (exec (handleSubmit desk_host modal_props (form "New fence" "1500"))
                    (mkWorld (form "New fence" "1500") accepting [])))
     = [message]) /\
  submissions
    (trace (exec (handleSubmit desk_host modal_props (form "New fence" "1500"))
                 (mkWorld (form "New fence" "1500") accepting [])))
  = [(description (form "New fence" "1500"),
      parseFloat desk_host (amount (form "New fence" "1500")))].
Proof.
  assert (H1 : trim desk_host (description (form "New fence" "1500")) <> "")
    by (vm_compute; discriminate).
  assert (H2 : PrimFloat.ltb 0 (parseFloat desk_host (amount (form "New fence" "1500"))) = true)
    by (vm_compute; reflexivity).
  assert (H3 : PrimFloat.ltb (groupBalance modal_props)
                 (parseFloat desk_host (amount (form "New fence" "1500"))) = true)
    by (vm_compute; reflexivity).
  assert (H4 : exists d a,
             In (EvSubmit d a)
                (trace (exec (handleSubmit desk_host modal_props (form "New fence" "1500"))
                             (mkWorld (form "New fence" "1500") accepting []))))
    by (exists "New fence", 1500%float; vm_compute; right; left; reflexivity).
  destruct (handleSubmit_submits desk_host modal_props
              (form "New fence" "1500") (form "New fence" "1500") accepting)
    as (_ & Honce & Hwarn).
  split; [exact H1|]. split; [exact H2|]. split; [exact H3|]. split; [exact H4|].
  split; [exact (proj1 (Hwarn H1 H2 H3)) | exact (Honce H4)].
Defined.

End ModalExamples.
(** ** The presentational components *)

Section RendererClaims.
Import Host React Types.

Lemma createArcPath_same (h1 h2 : Host) (cx cy r a b : float) :
  same_numbers h1 h2 ->
  PieChart.createArcPath h1 cx cy r a b = PieChart.createArcPath h2 cx cy r a b.
Proof.
  intros (Hc & Hs & Hn & _). unfold PieChart.createArcPath.
  rewrite !Hc, !Hs, !Hn. reflexivity.
Qed.

Lemma paths_same (h1 h2 : Host) (A : Type) (total : float)
      (invs : list PieChart.Investment) (angle : float) :
  same_numbers h1 h2 ->
  @PieChart.paths h1 A total angle invs = PieChart.paths h2 total angle invs.
Proof.
  intros H. revert angle. induction invs as [|inv rest IH]; intros angle; cbn.
  - reflexivity.
  - rewrite (createArcPath_same h1 h2) by exact H. rewrite IH. reflexivity.
Qed.

Lemma legendItem_same (h1 h2 : Host) (A : Type) (keyed : bool) (inv : PieChart.Investment) :
  same_numbers h1 h2 ->
  @PieChart.legendItem h1 A keyed inv = PieChart.legendItem h2 keyed inv.
Proof.
  intros (_ & _ & _ & Hl). unfold PieChart.legendItem. rewrite Hl. reflexivity.
Qed.

(** C7, as the code has it.  [RanchPieChart] and [BalanceSection] keep no
    state and read nothing but their properties and built-ins of the
    engine, so what they render is not fixed by the properties alone.  Two
    renders of [RanchPieChart] with equal [ranchBalance], [investedAmount]
    and [totalAssets] return the same tree on any two hosts that agree on
    [Math.cos], [Math.sin], the conversion of a number to a string and
    [toLocaleString()]; two renders of [BalanceSection] with an equal
    [balance] return the same tree on any two hosts that agree on
    [toLocaleString()].  No other built-in enters the output.
    [toLocaleString()] formats for the locale of the device. *)
Theorem renderers_depend_on_props_and_host :
  (forall (h1 h2 : Host) (A : Type) (p q : PieChart.PieChartProps),
     PieChart.ranchBalance p = PieChart.ranchBalance q ->
     PieChart.investedAmount p = PieChart.investedAmount q ->
     PieChart.totalAssets p = PieChart.totalAssets q ->
     same_numbers h1 h2 ->
     @PieChart.RanchPieChart h1 A p = PieChart.RanchPieChart h2 q) /\
  (forall (h1 h2 : Host) (A : Type) (p q : BalanceSection.BalanceSectionProps),
     BalanceSection.balance p = BalanceSection.balance q ->
     (forall x, toLocaleString h1 x = toLocaleString h2 x) ->
     @BalanceSection.BalanceSection h1 A p = BalanceSection.BalanceSection h2 q).
Proof.
  split.
  - intros h1 h2 A [b1 i1 t1] [b2 i2 t2]; cbn [PieChart.ranchBalance
      PieChart.investedAmount PieChart.totalAssets]. intros -> -> -> H.
    set (p := PieChart.mkPieChartProps b2 i2 t2).
    unfold PieChart.RanchPieChart.
    destruct (PieChart.investments p) as [|inv [|inv' rest]].
    + reflexivity.
    + rewrite (createArcPath_same h1 h2), (legendItem_same h1 h2) by exact H.
      reflexivity.
    + destruct (PrimFloat.eqb (PieChart.totalAssets p) 0 || _); [reflexivity|].
      rewrite (paths_same h1 h2) by exact H.
      assert (E : map (@PieChart.legendItem h1 A true) (inv :: inv' :: rest)
                  = map (PieChart.legendItem h2 true) (inv :: inv' :: rest)).
      { apply map_ext. intros x. apply legendItem_same. exact H. }
      rewrite E. reflexivity.
  - intros h1 h2 A [b1] [b2]; cbn [BalanceSection.balance]. intros -> Hl.
    unfold BalanceSection.BalanceSection, BalanceSection.balanceRow.
    rewrite !Hl. reflexivity.
Qed.

End RendererClaims.

Section RendererExamples.
Import Host React Types Samples.

Example mixed_ranch_legend :
  texts (@PieChart.RanchPieChart mute_host unit mixed_ranch)
  = ["Ranch Balance Breakdown"; "Liquid Cash: $#"; "Invested: $#"].
Proof. vm_compute. reflexivity. Qed.

Example cash_ranch_legend :
  texts (@PieChart.RanchPieChart mute_host unit cash_ranch)
  = ["Ranch Balance Breakdown"; "Liquid Cash: $#"].
Proof. vm_compute. reflexivity. Qed.

Example empty_ranch_message :
  texts (@PieChart.RanchPieChart mute_host unit empty_ranch)
  = ["Ranch Balance Breakdown"; "No assets yet. Make a deposit to get started!"].
Proof. vm_compute. reflexivity. Qed.

(** By contrast a [TransactionCard] is no function of its properties alone:
    what it shows also depends on its own state. *)
Example transaction_card_reads_its_state :
  TransactionCard.TransactionCard mute_host (full_card tx_fresh)
    (TransactionCard.mkState false false)
  <> TransactionCard.TransactionCard mute_host (full_card tx_fresh)
       (TransactionCard.mkState true false).
Proof. vm_compute. discriminate. Qed.

(** C7 as the specification words it fails: the output depends on more than
    the properties.  With the same properties, a device whose locale is
    [en-US] and a device whose locale is [de-DE] render different trees:
    [(1000).toLocaleString()] is ["1,000"] on the first and ["1.000"] on the
    second. *)
Lemma renderers_counterexample :
  (texts (@PieChart.RanchPieChart en_US_host unit cash_ranch)
   = ["Ranch Balance Breakdown"; "Liquid Cash: $1,000"] /\
   texts (@PieChart.RanchPieChart de_DE_host unit cash_ranch)
   = ["Ranch Balance Breakdown"; "Liquid Cash: $1.000"] /\
   @PieChart.RanchPieChart en_US_host unit cash_ranch
   <> PieChart.RanchPieChart de_DE_host cash_ranch) /\
  (texts (@BalanceSection.BalanceSection en_US_host unit mixed_balance)
   = ["Ranch Balance"; "Liquid Cash:"; "$600"; "Invested:"; "$400";
      "Total Assets:"; "$1,000"; "Your Available Balance:"; "$10,000"] /\
   texts (@BalanceSection.BalanceSection de_DE_host unit mixed_balance)
   = ["Ranch Balance"; "Liquid Cash:"; "$600"; "Invested:"; "$400";
      "Total Assets:"; "$1.000"; "Your Available Balance:"; "$10.000"] /\
   @BalanceSection.BalanceSection en_US_host unit mixed_balance
   <> BalanceSection.BalanceSection de_DE_host mixed_balance).
Proof.
  split; (split; [vm_compute; reflexivity|]; split; [vm_compute; reflexivity|]).
  - intros H. apply (f_equal texts) in H. vm_compute in H. discriminate H.
  - intros H. apply (f_equal texts) in H. vm_compute in H. discriminate H.
Qed.

Lemma renderers_depend_on_props_and_host_witness :
  (PieChart.ranchBalance mixed_ranch = PieChart.ranchBalance (PieChart.mkPieChartProps 600 400 1000) /\
   PieChart.investedAmount mixed_ranch = PieChart.investedAmount (PieChart.mkPieChartProps 600 400 1000) /\
   PieChart.totalAssets mixed_ranch = PieChart.totalAssets (PieChart.mkPieChartProps 600 400 1000) /\
   same_numbers mute_host desk_host /\
   @PieChart.RanchPieChart mute_host unit mixed_ranch
   = PieChart.RanchPieChart desk_host (PieChart.mkPieChartProps 600 400 1000)) /\
  (BalanceSection.balance mixed_balance = mkRanchBalance 600 400 1000 10000 /\
   (forall x, toLocaleString mute_host x = toLocaleString desk_host x) /\
   @BalanceSection.BalanceSection mute_host unit mixed_balance
   = BalanceSection.BalanceSection desk_host
       (BalanceSection.mkBalanceSectionProps (mkRanchBalance 600 400 1000 10000))).
Proof.
  assert (Hsame : same_numbers mute_host desk_host)
    by (repeat split; intros x; reflexivity).
  assert (Hlocale : forall x, toLocaleString mute_host x = toLocaleString desk_host x)
    by (intros x; reflexivity).
  destruct renderers_depend_on_props_and_host as (Hpie & Hbal).
  split.
  - split; [reflexivity|]. split; [reflexivity|]. split; [reflexivity|].
    split; [exact Hsame|].
    exact (Hpie mute_host desk_host unit mixed_ranch (PieChart.mkPieChartProps 600 400 1000)
             eq_refl eq_refl eq_refl Hsame).
  - split; [reflexivity|]. split; [exact Hlocale|].
    exact (Hbal mute_host desk_host unit mixed_balance
             (BalanceSection.mkBalanceSectionProps (mkRanchBalance 600 400 1000 10000))
             eq_refl Hlocale).
Defined.

End RendererExamples.


(** ** Laws of async programs *)

Section ProgLaws.
Import Js.
Context {E : Type -> Type} {W : Type} (answer : forall X, E X -> W -> X * W).

(** Running [p] and then [k] is running their sequence. *)
Lemma run_bind {A B} (p : Prog E A) (k : A -> Prog E B) (w : W) :
  run answer (bind p k) w =
    match run answer p w with
    | (Returned a, w') => run answer (k a) w'
    | (Threw e, w') => (Threw e, w')
    end.
Proof.
  revert w. induction p as [a|e|X op k' IH]; intros w; cbn.
  - reflexivity.
  - reflexivity.
  - destruct (answer X op w) as [x w']. apply IH.
Qed.

(** A [catch] block runs exactly when the [try] block throws, in the world
    the [try] block left. *)
Lemma run_try_catch {A} (p : Prog E A) (h : exn -> Prog E A) (w : W) :
  run answer (try_catch p h) w =
    match run answer p w with
    | (Returned a, w') => (Returned a, w')
    | (Threw e, w') => run answer (h e) w'
    end.
Proof.
  revert w. induction p as [a|e|X op k' IH]; intros w; cbn.
  - reflexivity.
  - reflexivity.
  - destruct (answer X op w) as [x w']. apply IH.
Qed.

(** A [finally] block always runs, after the [try] block; the outcome is
    that of the [try] block unless the [finally] block throws. *)
Lemma run_try_finally {A} (p : Prog E A) (f : Prog E unit) (w : W) :
  run answer (try_finally p f) w =
    let '(o, w') := run answer p w in
    match run answer f w' with
    | (Returned _, w'') => (o, w'')
    | (Threw e, w'') => (Threw e, w'')
    end.
Proof.
  revert w. induction p as [a|e|X op k' IH]; intros w; cbn.
  - rewrite run_bind. destruct (run answer f w) as [[[]|e] w']; reflexivity.
  - rewrite run_bind. destruct (run answer f w) as [[[]|e'] w']; reflexivity.
  - destruct (answer X op w) as [x w']. apply IH.
Qed.

End ProgLaws.


(** ** More on the API wrappers *)

Section ApiFailures.
Import Js Http Types Api.

(** Every case of a call: what the backend answers to the one request. *)
Ltac api_cases backend c :=
  unfold result, sent, call; destruct c; cbn -[String.append API_BASE_URL];
  match goal with
  | |- context [backend ?r] =>
      destruct (backend r) as [|[[] [[]|]]] eqn:Hanswer;
      cbn -[String.append API_BASE_URL]
  end.

(** X1.  A wrapper returns normally exactly when [fetch] resolved with an
    ok response whose body is JSON (and, for the three read wrappers, is not
    [null]); what it returns is then the payload, or the property of it the
    wrapper reads.  In every other case it throws. *)
Theorem api_returns_exactly_when_ok (backend : Backend) (c : Call) (v : value) :
  result backend c = Returned v <->
  exists req response data,
    sent backend c = [req] /\
    backend req = Resolved response /\
    ok response = true /\
    json response = Some data /\
    (is_read c = true -> nullish data = false) /\
    v = handed_back c data.
Proof.
  split.
  - api_cases backend c; intros H; try discriminate H;
      inversion H; subst; clear H;
      (eexists; eexists; eexists;
       split; [reflexivity|]; split; [exact Hanswer|];
       split; [reflexivity|]; split; [reflexivity|];
       split; [try reflexivity; try discriminate|reflexivity]).
  - intros (req & response & data & Hsent & Hans & Hok & Hjson & Hread & ->).
    revert Hsent Hread. api_cases backend c; intros Hsent Hread;
      simplify_eq/=; rewrite Hans in Hanswer; simplify_eq/=; try reflexivity;
      try (specialize (Hread eq_refl); discriminate Hread).
Qed.

(** X2.  What a wrapper throws tells the failures apart, exactly.  It
    throws an [Error] with a message if and only if the response is not ok
    and its body is JSON other than [null]: the message is the body's truthy
    [detail], or the wrapper's fallback.  It throws a [TypeError] if and
    only if the network failed, or the body is [null] and the wrapper reads
    a property of it: the error body of a response that is not ok, or, in
    the three read wrappers, the payload of an ok response.  It throws a
    [SyntaxError] if and only if the body is not JSON.  Nothing else is ever
    thrown. *)
Theorem api_thrown_errors (backend : Backend) (c : Call) (e : exn) :
  result backend c = Threw e <->
  exists req, sent backend c = [req] /\
    match e with
    | Error m =>
        exists response data,
          backend req = Resolved response /\ ok response = false /\
          json response = Some data /\ nullish data = false /\
          m = or_else (field data "detail") (VStr (fallback c))
    | TypeError =>
        backend req = Rejected \/
        exists response data,
          backend req = Resolved response /\ json response = Some data /\
          nullish data = true /\ (ok response = false \/ is_read c = true)
    | SyntaxError =>
        exists response, backend req = Resolved response /\ json response = None
    | Thrown _ => False
    end.
Proof.
  split.
  - api_cases backend c; intros H; try discriminate H; inversion H; subst; clear H;
      (eexists; split; [reflexivity|]);
      first [ left; exact Hanswer
            | right; eexists; eexists; split; [exact Hanswer|];
              split; [reflexivity|]; split; [reflexivity|]; auto
            | eexists; split; [exact Hanswer|reflexivity]
            | eexists; eexists; split; [exact Hanswer|]; repeat split ].
  - intros (req & Hsent & He). revert Hsent He.
    api_cases backend c; intros Hsent He; simplify_eq/=;
      destruct e as [m| | |thrown];
      repeat match goal with
             | H : _ \/ _ |- _ => destruct H
             | H : exists _, _ |- _ => destruct H
             | H : _ /\ _ |- _ => destruct H
             | H : False |- _ => destruct H
             end;
      simplify_eq/=; try reflexivity; try discriminate; try congruence;
      repeat match goal with
             | Ha : backend ?r = _, H : backend ?r = Resolved ?x |- _ =>
                 is_var x; rewrite Ha in H; first [discriminate H | injection H as <-]
             end;
      simplify_eq/=; try reflexivity; try discriminate.
Qed.
End ApiFailures.

Section ApiFailureExamples.
Import Js Http Types Api Samples.

Lemma api_thrown_errors_witness :
  result (responds refused_vote) (VoteOnTransaction "t1" approve "tok")
  = Threw (Error (VStr "You have already voted")) /\
  exists req,
    sent (responds refused_vote) (VoteOnTransaction "t1" approve "tok") = [req] /\
    exists response data,
      responds refused_vote req = Resolved response /\ ok response = false /\
      json response = Some data /\ nullish data = false /\
      VStr "You have already voted"
      = or_else (field data "detail")
          (VStr (fallback (VoteOnTransaction "t1" approve "tok"))).
Proof.
  split; [reflexivity|].
  exact (proj1 (api_thrown_errors (responds refused_vote)
                  (VoteOnTransaction "t1" approve "tok")
                  (Error (VStr "You have already voted"))) eq_refl).
Defined.

(** An ok response whose body is [null]: a read wrapper throws, the others
    return [null]. *)
Example null_payload :
  result (responds (mkResponse true (Some VNull))) (GetGroupTransactions "g1" "tok")
  = Threw TypeError /\
  result (responds (mkResponse true (Some VNull))) (ExecuteTransaction "t1" "tok")
  = Returned VNull.
Proof. split; reflexivity. Qed.

Example network_failure_throws_type_error :
  result (fun _ => Rejected) (GetTransactionHistory "tok") = Threw TypeError.
Proof. reflexivity. Qed.

End ApiFailureExamples.

(** ** More on the handlers of RanchScreen *)

Section ScreenHandlers.
Import Js Http Host React Types RanchScreen.

(** A handler only adds to the trace. *)
Lemma trace_grows {A} (backend : Backend) (h : Handler A) (w : World) :
  exists rest, trace (snd (run (answer backend) h w)) = (trace w ++ rest)%list.
Proof.
  revert w. induction h as [a|e|X op k IH]; intros w; cbn.
  - exists []. rewrite app_nil_r. reflexivity.
  - exists []. rewrite app_nil_r. reflexivity.
  - destruct op; cbn;
      match goal with
      | |- context [run _ (k ?x) ?w'] => destruct (IH x w') as [rest Hrest]
      end;
      cbn in Hrest; rewrite Hrest, <- app_assoc; eauto.
Qed.

(** X3.  [fetchProposals] keeps its failures to itself: whatever the
    backend does, it returns normally, raises no alert and sends at most
    its one request (none while the route has no id or no token is loaded),
    and unless the answer is an ok response with a readable body the state
    of the screen is what it was. *)
Theorem fetchProposals_is_silent
        (id : string) (s : ScreenState) (backend : Backend) (w : World) :
  let r := run (answer backend) (fetchProposals id s) w in
  fst r = Returned tt /\
  alerts_of (trace (snd r)) = alerts_of (trace w) /\
  requests_of (trace (snd r))
  = (requests_of (trace w)
     ++ if string_truthy id && opt_truthy (authToken s)
        then [proposals_request id s] else [])%list /\
  match backend (requests_of (trace w)) (proposals_request id s) with
  | Resolved {| ok := true; json := Some (BodyData _) |} => True
  | _ => state (snd r) = state w
  end.
Proof.
  intros r. subst r. unfold fetchProposals.
  destruct (string_truthy id); cbn [negb andb].
  2:{ cbn. rewrite app_nil_r. repeat split; auto.
      destruct (backend _ _) as [|[[] [[|p]|]]]; auto. }
  destruct (opt_truthy (authToken s)); cbn [negb].
  2:{ cbn. rewrite app_nil_r. repeat split; auto.
      destruct (backend _ _) as [|[[] [[|p]|]]]; auto. }
  unfold fetch, perform. cbn [bind try_catch run answer].
  destruct (backend _ _) as [|[[] [[|p]|]]]; cbn;
    unfold requests_of, alerts_of; rewrite ?omap_app; cbn; rewrite ?app_nil_r;
    repeat split; reflexivity.
Qed.

(** X4.  [handleExecute] sends nothing while no token is loaded: it raises
    one alert and stops.  [handleVote] has no such guard: with no token
    loaded it still sends the vote, under the header
    [Authorization: Bearer null]. *)
Theorem execute_needs_token_vote_does_not :
  (forall (id : string) (s : ScreenState) (fetchGroupData fetchPersonalBalance : Handler unit)
          (backend : Backend) (w : World) (transactionId : string),
     opt_truthy (authToken s) = false ->
     run (answer backend)
         (handleExecute id s fetchGroupData fetchPersonalBalance transactionId) w
     = (Returned tt,
        mkWorld (state w)
          (trace w ++ [EvAlert "Error" (VStr "Not authenticated. Please log in again.")])%list)) /\
  (forall (id : string) (s : ScreenState) (fetchGroupData : Handler unit)
          (backend : Backend) (w : World) (transactionId : string) (vote : Vote),
     authToken s = None ->
     header "Authorization" (headers (vote_request s transactionId vote))
       = Some "Bearer null" /\
     exists rest,
       trace (exec backend (handleVote id s fetchGroupData transactionId vote) w)
       = (trace w ++ EvFetch (vote_request s transactionId vote) :: rest)%list).
Proof.
  split.
  - intros id s fgd fpb backend w tid Hauth. unfold handleExecute. rewrite Hauth.
    reflexivity.
  - intros id s fgd backend w tid vote Hauth. split.
    + unfold vote_request. cbn. rewrite Hauth. reflexivity.
    + unfold exec, handleVote, fetch, perform. cbn [bind try_catch run answer].
      match goal with
      | |- context [run (answer backend) ?p ?w1] =>
          destruct (trace_grows backend p w1) as [rest Hrest]
      end.
      cbn [trace] in Hrest. rewrite Hrest, <- app_assoc. eauto.
Qed.

(** X5.  The vote, execute, invest and withdraw handlers never throw,
    whatever the backend answers and whatever the functions they call do:
    every failure ends in their [catch] block. *)
Theorem screen_handlers_never_throw
        (host : Host) (id : string) (s : ScreenState)
        (fetchGroupData fetchPersonalBalance : Handler unit)
        (backend : Backend) (w : World) (transactionId : string) (vote : Vote) :
  fst (run (answer backend) (handleVote id s fetchGroupData transactionId vote) w)
    = Returned tt /\
  fst (run (answer backend)
           (handleExecute id s fetchGroupData fetchPersonalBalance transactionId) w)
    = Returned tt /\
  fst (run (answer backend) (handleInvestSubmit host id s) w) = Returned tt /\
  fst (run (answer backend) (handleWithdrawSubmit host id s fetchGroupData) w) = Returned tt.
Proof.
  split; [|split; [|split]].
  - unfold handleVote. rewrite run_try_catch.
    destruct (run _ _ w) as [[[]|e] w']; reflexivity.
  - unfold handleExecute. destruct (opt_truthy (authToken s)); [|reflexivity].
    cbn [negb]. rewrite run_try_catch.
    destruct (run _ _ w) as [[[]|e] w']; reflexivity.
  - unfold handleInvestSubmit.
    destruct (opt_truthy (authToken s)); [|reflexivity].
    destruct (string_truthy id); [|reflexivity]. cbn [negb].
    destruct (negb _ || _); [reflexivity|].
    destruct (PrimFloat.ltb _ _); [reflexivity|].
    rewrite run_bind. cbn [setLoading perform run answer].
    rewrite run_try_finally, run_try_catch.
    match goal with |- context [run (answer backend) ?p ?w1] =>
      destruct (run (answer backend) p w1) as [[[]|e] w'] end; reflexivity.
  - unfold handleWithdrawSubmit. cbv zeta.
    destruct (negb _ || _); [reflexivity|].
    destruct (PrimFloat.ltb _ _); [reflexivity|].
    rewrite run_bind. cbn [setLoading perform run answer].
    rewrite run_try_finally, run_try_catch.
    match goal with |- context [run (answer backend) ?p ?w1] =>
      destruct (run (answer backend) p w1) as [[[]|e] w'] end; reflexivity.
Qed.

(** X6.  What [handleStockTrade] does with a token loaded, for every answer
    of the backend.  It returns normally in two cases only: when the
    backend refuses the trade with an error body that is JSON other than
    [null], after one alert with the body's [detail] (or [Failed to create
    trade proposal]); and when the backend accepts the trade with a body
    that is JSON and the refresh that follows the confirmation
    ([fetchProposals], then [fetchGroupData]) returns.  In every other case
    (the network fails, the body is not JSON, the error body is [null], the
    refresh throws) it alerts [Network error occurred] and throws the error
    again.  Unless the trade is accepted, the state of the screen is not
    touched. *)
Theorem handleStockTrade_outcome
        (host : Host) (id : string) (s : ScreenState) (fetchGroupData : Handler unit)
        (backend : Backend) (w : World)
        (symbol : string) (quantity : float) (stockName : string) (price : float) :
  opt_truthy (authToken s) = true ->
  let req := trade_request id s symbol quantity in
  let r := run (answer backend)
               (handleStockTrade host id s fetchGroupData symbol quantity stockName price) w in
  let sent := (trace w ++ [EvFetch req])%list in
  let network_error := EvAlert "Error" (VStr "Network error occurred") in
  match backend (requests_of (trace w)) req with
  | Rejected => r = (Threw TypeError, mkWorld (state w) (sent ++ [network_error]))
  | Resolved response =>
      match json response with
      | None => r = (Threw SyntaxError, mkWorld (state w) (sent ++ [network_error]))
      | Some body =>
          if ok response then
            let confirmed :=
              mkWorld (state w)
                (sent ++ [EvAlert "Success! 📈"
                            (VStr (trade_confirmation host quantity stockName price))]) in
            let refreshed :=
              run (answer backend) (fetchProposals id s ;; fetchGroupData) confirmed in
            match fst refreshed with
            | Returned _ => r = (Returned tt, snd refreshed)
            | Threw e =>
                r = (Threw e,
                     mkWorld (state (snd refreshed))
                       (trace (snd refreshed) ++ [network_error]))
            end
          else
            match body with
            | BodyNull =>
                r = (Threw TypeError, mkWorld (state w) (sent ++ [network_error]))
            | BodyData error =>
                r = (Returned tt,
                     mkWorld (state w)
                       (sent ++ [EvAlert "Error"
                                   (or_else (detail error)
                                      (VStr "Failed to create trade proposal"))]))
            end
      end
  end.
Proof.
  intros Hauth. cbv zeta. unfold handleStockTrade, fetch, perform, alert.
  rewrite Hauth. cbn [negb bind try_catch run answer].
  destruct (backend _ _) as [|[isok [body|]]]; cbn [json ok].
  - cbn. rewrite <- app_assoc. reflexivity.
  - destruct isok.
    + cbn [response_json json bind try_catch run answer state trace].
      rewrite run_try_catch.
      cbn [ok perform bind run answer state trace].
      match goal with
      | |- context [run (answer backend) ?p ?w1] =>
          destruct (run (answer backend) p w1) as [[[]|e] w2]
      end; cbn; reflexivity.
    + destruct body as [|error]; cbn; rewrite <- app_assoc; reflexivity.
  - destruct isok; cbn; rewrite <- app_assoc; reflexivity.
Qed.

(** X7.  After a vote the backend accepted, [handleVote] confirms with the
    alert [Vote Recorded] and re-reads the proposals before anything else:
    its next request is the proposals request, and when that is answered the
    screen shows the proposals and the ledger as the backend lists them
    after the vote. *)
Theorem handleVote_refreshes_proposals
        (id : string) (s : ScreenState) (fetchGroupData : Handler unit)
        (backend : Backend) (w : World) (transactionId : string) (vote : Vote)
        (voted listed : Response Body) (p : Payload) :
  string_truthy id = true ->
  opt_truthy (authToken s) = true ->
  backend (requests_of (trace w)) (vote_request s transactionId vote) = Resolved voted ->
  ok voted = true ->
  backend (requests_of (trace w) ++ [vote_request s transactionId vote])%list
          (proposals_request id s) = Resolved listed ->
  ok listed = true ->
  json listed = Some (BodyData p) ->
  let mine := filter (fun txn => groupID txn = id) (default [] (transactions p)) in
  let pendingProposals := filter (fun txn => status txn <> executed) mine in
  let executedTransactions := filter (fun txn => status txn = executed) mine in
  exists rest,
    trace (exec backend (handleVote id s fetchGroupData transactionId vote) w)
    = (trace w ++
       [EvFetch (vote_request s transactionId vote);
        EvAlert "Vote Recorded"
          (VStr ("You voted to " +:+ vote_string vote +:+ " this proposal"));
        EvFetch (proposals_request id s);
        EvSetState (with_proposals pendingProposals (state w));
        EvSetState (with_ledger executedTransactions
                      (with_proposals pendingProposals (state w)))] ++ rest)%list.
Proof.
  intros Hid Hauth Hvoted Hokv Hlisted Hokl Hjson mine pendingProposals executedTransactions.
  unfold exec, handleVote, fetch, perform, alert.
  cbn [bind try_catch run answer]. rewrite Hvoted.
  cbn [bind try_catch run answer]. rewrite Hokv.
  cbn [bind try_catch run answer trace state].
  rewrite run_try_catch, run_bind.
  unfold fetchProposals at 1. rewrite Hid, Hauth. cbn [negb].
  unfold fetch, perform. cbn [bind try_catch run answer trace state].
  assert (Hreq : requests_of
            ((trace w ++ [EvFetch (vote_request s transactionId vote)]) ++
             [EvAlert "Vote Recorded"
                (VStr ("You voted to " +:+ vote_string vote +:+ " this proposal"))])
          = (requests_of (trace w) ++ [vote_request s transactionId vote])%list).
  { unfold requests_of. rewrite !omap_app. cbn. rewrite app_nil_r. reflexivity. }
  rewrite Hreq, Hlisted. cbn [bind try_catch run answer]. rewrite Hokl.
  unfold response_json. rewrite Hjson.
  cbn [bind try_catch run answer get_transactions setProposals setLedger perform
       trace state].
  fold mine. fold pendingProposals. fold executedTransactions.
  match goal with
  | |- context [run (answer backend) fetchGroupData ?w1] =>
      destruct (trace_grows backend fetchGroupData w1) as [rest Hrest];
      destruct (run (answer backend) fetchGroupData w1) as [[[]|e] w2]
  end; cbn [snd trace] in Hrest |- *.
  - exists rest. rewrite Hrest. rewrite <- !app_assoc. reflexivity.
  - exists (rest ++ [EvAlert "Error" (VStr "Network error occurred")])%list.
    rewrite Hrest. rewrite <- !app_assoc. reflexivity.
Qed.

(** X8.  The withdraw form proposes nothing the ranch cannot pay.
    [handleWithdrawSubmit] sends its request exactly when the typed amount
    parses to a number above zero that does not exceed [ranchBalance];
    [handleInvestSubmit] exactly when, besides, a token is loaded, the route
    has an id, and the bound is [personalBalance].  Otherwise the handler
    raises one alert and leaves the screen as it was. *)
Theorem proposal_forms_check_the_amount
        (host : Host) (id : string) (s : ScreenState) (fetchGroupData : Handler unit)
        (backend : Backend) (w : World) :
  let amount := parseFloat host (transactionAmount s) in
  (let w' := exec backend (handleWithdrawSubmit host id s fetchGroupData) w in
   if PrimFloat.ltb 0 amount && negb (PrimFloat.ltb (ranchBalance s) amount) then
     exists rest,
       trace w' = (trace w ++ EvSetState (with_loading true (state w))
                     :: EvFetch (withdraw_request host id s amount) :: rest)%list
   else
     state w' = state w /\
     exists title message, trace w' = (trace w ++ [EvAlert title message])%list) /\
  (let w' := exec backend (handleInvestSubmit host id s) w in
   if opt_truthy (authToken s) && string_truthy id
      && PrimFloat.ltb 0 amount && negb (PrimFloat.ltb (personalBalance s) amount) then
     exists rest,
       trace w' = (trace w ++ EvSetState (with_loading true (state w))
                     :: EvFetch (invest_request host id s amount) :: rest)%list
   else
     state w' = state w /\
     exists title message, trace w' = (trace w ++ [EvAlert title message])%list).
Proof.
  intros amount. split.
  - unfold exec, handleWithdrawSubmit. fold amount. rewrite positive_guard.
    destruct (PrimFloat.ltb 0 amount); cbn [negb andb].
    2:{ cbn. eauto. }
    destruct (PrimFloat.ltb (ranchBalance s) amount); cbn [negb].
    { cbn. eauto. }
    unfold setLoading, fetch, perform.
    cbn [bind try_catch try_finally run answer trace state].
    match goal with
    | |- context [run (answer backend) ?h ?w1] =>
        destruct (trace_grows backend h w1) as [rest Hrest]
    end.
    cbn [trace] in Hrest. rewrite Hrest, <- !app_assoc. eauto.
  - unfold exec, handleInvestSubmit. fold amount. rewrite positive_guard.
    destruct (opt_truthy (authToken s)); cbn [negb andb].
    2:{ cbn. eauto. }
    destruct (string_truthy id); cbn [negb andb].
    2:{ cbn. eauto. }
    destruct (PrimFloat.ltb 0 amount); cbn [negb andb].
    2:{ cbn. eauto. }
    destruct (PrimFloat.ltb (personalBalance s) amount); cbn [negb].
    { cbn. eauto. }
    unfold setLoading, fetch, perform.
    cbn [bind try_catch try_finally run answer trace state].
    match goal with
    | |- context [run (answer backend) ?h ?w1] =>
        destruct (trace_grows backend h w1) as [rest Hrest]
    end.
    cbn [trace] in Hrest. rewrite Hrest, <- !app_assoc. eauto.
Qed.

(** X9.  The two proposal forms always lower the [loading] flag they
    raised: after [handleWithdrawSubmit] or [handleInvestSubmit] either the
    state of the screen was never touched or [loading] is [false], whatever
    the backend answers and whatever [fetchGroupData] does. *)
Theorem proposal_forms_reset_loading
        (host : Host) (id : string) (s : ScreenState) (fetchGroupData : Handler unit)
        (backend : Backend) (w : World) :
  (state (exec backend (handleWithdrawSubmit host id s fetchGroupData) w) = state w \/
   loading (state (exec backend (handleWithdrawSubmit host id s fetchGroupData) w)) = false) /\
  (state (exec backend (handleInvestSubmit host id s) w) = state w \/
   loading (state (exec backend (handleInvestSubmit host id s) w)) = false).
Proof.
  split.
  - unfold exec, handleWithdrawSubmit. cbv zeta.
    destruct (negb _ || _); [left; reflexivity|].
    destruct (PrimFloat.ltb _ _); [left; reflexivity|]. right.
    rewrite run_bind. cbn [setLoading perform run answer].
    rewrite run_try_finally.
    match goal with |- context [run (answer backend) ?p ?w1] =>
      destruct (run (answer backend) p w1) as [o w'] end.
    reflexivity.
  - unfold exec, handleInvestSubmit.
    destruct (opt_truthy (authToken s)); [|left; reflexivity].
    destruct (string_truthy id); [|left; reflexivity]. cbn [negb].
    destruct (negb _ || _); [left; reflexivity|].
    destruct (PrimFloat.ltb _ _); [left; reflexivity|]. right.
    rewrite run_bind. cbn [setLoading perform run answer].
    rewrite run_try_finally.
    match goal with |- context [run (answer backend) ?p ?w1] =>
      destruct (run (answer backend) p w1) as [o w'] end.
    reflexivity.
Qed.

(** X10.  [handleKickMember] only edits the list on the screen: the member
    is gone from [memberList], every other member stays, in order, and no
    request is sent.  [memberCount], from which the votes needed are
    computed, is not updated. *)
Theorem handleKickMember_is_local
        (s : ScreenState) (backend : Backend) (w : World) (member : string) :
  let w' := exec backend (handleKickMember s member) w in
  memberList (state w') = filter (fun m => m <> member) (memberList s) /\
  ~ In member (memberList (state w')) /\
  requests_of (trace w') = requests_of (trace w) /\
  memberCount (state w') = memberCount (state w).
Proof.
  intros w'. subst w'. unfold exec, handleKickMember, alert, setMemberList, perform.
  cbn [bind run answer snd state trace memberList memberCount with_memberList].
  split; [reflexivity|]. split; [|split].
  - rewrite <- list_elem_of_In, list_elem_of_filter. tauto.
  - unfold requests_of. rewrite !omap_app. cbn. rewrite !app_nil_r. reflexivity.
  - reflexivity.
Qed.

End ScreenHandlers.

Section ScreenHandlerExamples.
Import Js Http Host React Types RanchScreen Samples.

Lemma execute_needs_token_vote_does_not_witness :
  (opt_truthy (authToken (screen_without_token 3 [tx_approved])) = false /\
   run (answer listing_backend)
       (handleExecute "g1" (screen_without_token 3 [tx_approved]) (Ret tt) (Ret tt) "t3")
       quiet_world
   = (Returned tt,
      mkWorld (state quiet_world)
        (trace quiet_world
         ++ [EvAlert "Error" (VStr "Not authenticated. Please log in again.")])%list)) /\
  (authToken (screen_without_token 3 [tx_open]) = None /\
   header "Authorization"
     (headers (vote_request (screen_without_token 3 [tx_open]) "t1" approve))
   = Some "Bearer null" /\
   exists rest,
     trace (exec listing_backend
              (handleVote "g1" (screen_without_token 3 [tx_open]) (Ret tt) "t1" approve)
              quiet_world)
     = (trace quiet_world
        ++ EvFetch (vote_request (screen_without_token 3 [tx_open]) "t1" approve) :: rest)%list).
Proof.
  split.
  - split; [reflexivity|].
    exact (proj1 execute_needs_token_vote_does_not "g1"
             (screen_without_token 3 [tx_approved]) (Ret tt) (Ret tt)
             listing_backend quiet_world "t3" eq_refl).
  - split; [reflexivity|].
    exact (proj2 execute_needs_token_vote_does_not "g1"
             (screen_without_token 3 [tx_open]) (Ret tt)
             listing_backend quiet_world "t1" approve eq_refl).
Defined.

Lemma handleStockTrade_outcome_witness :
  opt_truthy (authToken (screen 3 [tx_open])) = true /\
  run (answer offline_backend)
      (handleStockTrade mute_host "g1" (screen 3 [tx_open]) (Ret tt) "ACME" 2 "Acme Corp" 10)
      quiet_world
  = (Threw TypeError,
     mkWorld (state quiet_world)
       ((trace quiet_world ++ [EvFetch (trade_request "g1" (screen 3 [tx_open]) "ACME" 2)])
        ++ [EvAlert "Error" (VStr "Network error occurred")])%list) /\
  run (answer garbled_backend)
      (handleStockTrade mute_host "g1" (screen 3 [tx_open]) (Ret tt) "ACME" 2 "Acme Corp" 10)
      quiet_world
  = (Threw SyntaxError,
     mkWorld (state quiet_world)
       ((trace quiet_world ++ [EvFetch (trade_request "g1" (screen 3 [tx_open]) "ACME" 2)])
        ++ [EvAlert "Error" (VStr "Network error occurred")])%list) /\
  run (answer refusing_backend)
      (handleStockTrade mute_host "g1" (screen 3 [tx_open]) (Ret tt) "ACME" 2 "Acme Corp" 10)
      quiet_world
  = (Returned tt,
     mkWorld (state quiet_world)
       ((trace quiet_world ++ [EvFetch (trade_request "g1" (screen 3 [tx_open]) "ACME" 2)])
        ++ [EvAlert "Error"
              (or_else (detail refusal) (VStr "Failed to create trade proposal"))])%list) /\
  fst (run (answer listing_backend)
         (handleStockTrade mute_host "g1" (screen 3 [tx_open]) (Ret tt) "ACME" 2 "Acme Corp" 10)
         quiet_world)
  = Returned tt.
Proof.
  split; [reflexivity|]. split; [|split; [|split]].
  - exact (handleStockTrade_outcome mute_host "g1" (screen 3 [tx_open]) (Ret tt)
             offline_backend quiet_world "ACME" 2 "Acme Corp" 10 eq_refl).
  - exact (handleStockTrade_outcome mute_host "g1" (screen 3 [tx_open]) (Ret tt)
             garbled_backend quiet_world "ACME" 2 "Acme Corp" 10 eq_refl).
  - exact (handleStockTrade_outcome mute_host "g1" (screen 3 [tx_open]) (Ret tt)
             refusing_backend quiet_world "ACME" 2 "Acme Corp" 10 eq_refl).
  - exact (f_equal fst
             (handleStockTrade_outcome mute_host "g1" (screen 3 [tx_open]) (Ret tt)
                listing_backend quiet_world "ACME" 2 "Acme Corp" 10 eq_refl)).
Defined.

Lemma handleVote_refreshes_proposals_witness :
  string_truthy "g1" = true /\
  opt_truthy (authToken (screen 3 [tx_open])) = true /\
  listing_backend (requests_of (trace quiet_world))
    (vote_request (screen 3 [tx_open]) "t1" approve)
  = Resolved (mkResponse true (Some (BodyData listing))) /\
  listing_backend
    (requests_of (trace quiet_world) ++ [vote_request (screen 3 [tx_open]) "t1" approve])%list
    (proposals_request "g1" (screen 3 [tx_open]))
  = Resolved (mkResponse true (Some (BodyData listing))) /\
  exists rest,
    trace (exec listing_backend
             (handleVote "g1" (screen 3 [tx_open]) (Ret tt) "t1" approve) quiet_world)
    = (trace quiet_world ++
       [EvFetch (vote_request (screen 3 [tx_open]) "t1" approve);
        EvAlert "Vote Recorded"
          (VStr ("You voted to " +:+ vote_string approve +:+ " this proposal"));
        EvFetch (proposals_request "g1" (screen 3 [tx_open]));
        EvSetState
          (with_proposals
             (filter (fun txn => status txn <> executed)
                (filter (fun txn => groupID txn = "g1") (default [] (transactions listing))))
             (state quiet_world));
        EvSetState
          (with_ledger
             (filter (fun txn => status txn = executed)
                (filter (fun txn => groupID txn = "g1") (default [] (transactions listing))))
             (with_proposals
                (filter (fun txn => status txn <> executed)
                   (filter (fun txn => groupID txn = "g1")
                      (default [] (transactions listing))))
                (state quiet_world)))] ++ rest)%list.
Proof.
  split; [reflexivity|]. split; [reflexivity|]. split; [reflexivity|]. split; [reflexivity|].
  exact (handleVote_refreshes_proposals "g1" (screen 3 [tx_open]) (Ret tt) listing_backend
           quiet_world "t1" approve
           (mkResponse true (Some (BodyData listing)))
           (mkResponse true (Some (BodyData listing))) listing
           eq_refl eq_refl eq_refl eq_refl eq_refl eq_refl eq_refl).
Defined.

Example kick_bob :
  memberList (state (exec offline_backend
     (handleKickMember (with_memberList ["alice"; "bob"; "carol"] (screen 3 [])) "bob")
     quiet_world))
  = ["alice"; "carol"].
Proof. vm_compute. reflexivity. Qed.

End ScreenHandlerExamples.

(** ** From the controls of the screen to the requests *)

Section ScreenControls.
Import Js Http Host React Types RanchScreen.

(** X11.  Every request the proposals section can cause is about a proposal
    the screen lists: the press of a control it renders sends, as its first
    request, the vote on a listed proposal that is pending and on which the
    current user has not voted, or the execution of a listed proposal that
    is approved. *)
Theorem controls_act_on_listed_proposals (host : Host) (id : string) (s : ScreenState)
    (fetchGroupData fetchPersonalBalance : Handler unit)
    (backend : Backend) (w : World) (a : Action) :
  In a (presses (proposalsSection host s)) ->
  opt_truthy (authToken s) = true ->
  exists p rest,
    In p (proposals s) /\
    match a with
    | HandleVote transactionId vote =>
        transactionId = transactionID p /\ status p = pending /\ userVote s p = None /\
        trace (exec backend (press id s fetchGroupData fetchPersonalBalance a) w)
        = (trace w ++ EvFetch (vote_request s (transactionID p) vote) :: rest)%list
    | HandleExecute transactionId =>
        transactionId = transactionID p /\ status p = approved /\
        trace (exec backend (press id s fetchGroupData fetchPersonalBalance a) w)
        = (trace w ++ EvFetch (execute_request s (transactionID p)) :: rest)%list
    end.
Proof.
  intros Hin Hauth.
  rewrite proposalsSection_presses, in_concat in Hin.
  destruct Hin as (l & Hl & Hin). apply in_map_iff in Hl as (p & <- & Hp).
  rewrite proposalCard_presses, in_app_iff in Hin.
  exists p.
  assert (Hfirst : forall (h : FetchResult Body -> Handler unit) (hc : exn -> Handler unit) req,
             exists rest,
               trace (snd (run (answer backend)
                             (try_catch (Vis (Fetch req) h) hc) w))
               = (trace w ++ EvFetch req :: rest)%list).
  { intros h hc req. cbn [try_catch run answer].
    match goal with
    | |- context [run (answer backend) ?q ?w1] =>
        destruct (trace_grows backend q w1) as [rest Hrest]
    end.
    cbn [trace] in Hrest. rewrite Hrest, <- app_assoc. eauto. }
  destruct a as [tid vote|tid].
  - destruct Hin as [Hin|Hin].
    2:{ case_bool_decide; [|destruct Hin]. destruct Hin as [E|[]]. discriminate E. }
    destruct (userVote s p) eqn:Hv; [destruct Hin|].
    case_bool_decide as Hst; [|destruct Hin].
    assert (tid = transactionID p /\ True) as [-> _].
    { destruct Hin as [E|[E|[]]]; injection E as <- _; auto. }
    unfold exec, press, handleVote, fetch, perform. cbn [bind].
    edestruct Hfirst as [rest Hrest]. exists rest. rewrite Hrest. auto.
  - destruct Hin as [Hin|Hin].
    1:{ destruct (userVote s p); [destruct Hin|].
        case_bool_decide; [|destruct Hin].
        destruct Hin as [E|[E|[]]]; discriminate E. }
    case_bool_decide as Hst; [|destruct Hin].
    destruct Hin as [E|[]]. injection E as <-.
    unfold exec, press, handleExecute, fetch, perform. rewrite Hauth. cbn [negb bind].
    edestruct Hfirst as [rest Hrest]. exists rest. rewrite Hrest. auto.
Qed.

End ScreenControls.

Section ScreenControlExamples.
Import Js Http Host React Types RanchScreen Samples.

Lemma controls_act_on_listed_proposals_witness :
  In (HandleVote "t2" approve) (presses (proposalsSection mute_host (screen 3 [tx_fresh]))) /\
  opt_truthy (authToken (screen 3 [tx_fresh])) = true /\
  exists p rest,
    In p (proposals (screen 3 [tx_fresh])) /\
    "t2" = transactionID p /\ status p = pending /\
    userVote (screen 3 [tx_fresh]) p = None /\
    trace (exec listing_backend
             (press "g1" (screen 3 [tx_fresh]) (Ret tt) (Ret tt) (HandleVote "t2" approve))
             quiet_world)
    = (trace quiet_world
       ++ EvFetch (vote_request (screen 3 [tx_fresh]) (transactionID p) approve) :: rest)%list.
Proof.
  assert (H : In (HandleVote "t2" approve)
                (presses (proposalsSection mute_host (screen 3 [tx_fresh]))))
    by (vm_compute; left; reflexivity).
  split; [exact H|]. split; [reflexivity|].
  exact (controls_act_on_listed_proposals mute_host "g1" (screen 3 [tx_fresh])
           (Ret tt) (Ret tt) listing_backend quiet_world (HandleVote "t2" approve)
           H eq_refl).
Defined.

End ScreenControlExamples.

(** ** More on the provider of the credentials *)

Section AuthRoundTrips.
Import Js Host AuthContext.

Ltac next_call :=
  match goal with
  | |- context [store_call (mkWorld _ _ ?fs)] =>
      unfold store_call at 1; cbn [faults auth store];
      try (is_var fs; destruct fs as [|[?e|] ?fs]);
      cbn [run bind try_catch try_finally answer fst snd]
  end.

Ltac run_provider :=
  unfold exec, checkAuth, login, logout, await, perform,
    setToken, setUserId, setUsername, setIsAuthenticated, setIsLoading;
  cbn [run bind try_catch try_finally answer fst snd];
  repeat next_call;
  cbn [faults auth store].

(** X12.  [checkAuth] never throws, whatever the secure store does; when it
    is done the provider has stopped loading, the secure store is as it was,
    and a provider that was authenticated still is. *)
Theorem checkAuth_never_throws (w : World) :
  fst (exec checkAuth w) = Returned tt /\
  isLoading (auth (snd (exec checkAuth w))) = false /\
  store (snd (exec checkAuth w)) = store w /\
  (isAuthenticated (auth w) = true ->
   isAuthenticated (auth (snd (exec checkAuth w))) = true).
Proof.
  destruct w as [a st fs].
  remember (exec checkAuth (mkWorld a st fs)) as r eqn:E. revert E. run_provider.
  all: intros ->; try (repeat split; cbn; trivial).
  all: destruct (opt_truthy (st !! "authToken") && opt_truthy (st !! "userId"));
       repeat split; cbn; trivial.
Qed.

Lemma stored_credentials (st : gmap string string) (t u n : string) :
  let st' := <["username" := n]> (<["userId" := u]> (<["authToken" := t]> st)) in
  st' !! "authToken" = Some t /\ st' !! "userId" = Some u /\ st' !! "username" = Some n.
Proof.
  cbv zeta. repeat split.
  - rewrite !lookup_insert_ne by discriminate. apply lookup_insert_eq.
  - rewrite lookup_insert_ne by discriminate. apply lookup_insert_eq.
  - apply lookup_insert_eq.
Qed.

(** X13.  Credentials survive a restart: when the secure store works,
    [login] returns with the provider logged in, and a provider mounted
    afterwards finds by [checkAuth] the same token, user id and user name,
    provided the token and the user id are not empty.  With an empty token
    or user id [login] still reports an authenticated user, and the next
    start does not. *)
Theorem login_survives_restart (a : AuthState) (st : gmap string string)
    (t u n : string) :
  let w' := snd (exec (login t u n) (mkWorld a st [])) in
  fst (exec (login t u n) (mkWorld a st [])) = Returned tt /\
  auth w' = logged_in t u n a /\
  auth (snd (exec checkAuth (remount w')))
  = if string_truthy t && string_truthy u
    then with_isLoading false (logged_in t u n initial)
    else with_isLoading false initial.
Proof.
  cbv zeta.
  assert (E : exec (login t u n) (mkWorld a st [])
              = (Returned tt,
                 mkWorld (logged_in t u n a)
                   (<["username" := n]> (<["userId" := u]> (<["authToken" := t]> st))) []))
    by (run_provider; reflexivity).
  rewrite E. cbn [fst snd auth store remount].
  split; [reflexivity|]. split; [reflexivity|].
  destruct (stored_credentials st t u n) as (Ht & Hu & Hn).
  unfold remount; cbn [store]. run_provider. cbn [snd auth].
  rewrite Ht, Hu, Hn. cbn [opt_truthy].
  destruct (string_truthy t && string_truthy u); reflexivity.
Qed.

Lemma cleared_credentials (st : gmap string string) :
  let st' := delete "username" (delete "userId" (delete "authToken" st)) in
  st' !! "authToken" = None.
Proof.
  cbv zeta. rewrite !lookup_delete_ne by discriminate. apply lookup_delete_eq.
Qed.

(** X14.  A logout survives a restart: when the secure store works,
    [logout] returns, and a provider mounted afterwards is not
    authenticated and holds no token, user id or user name. *)
Theorem logout_survives_restart (a : AuthState) (st : gmap string string) :
  let w' := snd (exec logout (mkWorld a st [])) in
  fst (exec logout (mkWorld a st [])) = Returned tt /\
  auth w' = logged_out a /\
  auth (snd (exec checkAuth (remount w'))) = with_isLoading false initial.
Proof.
  cbv zeta.
  assert (E : exec logout (mkWorld a st [])
              = (Returned tt,
                 mkWorld (logged_out a)
                   (delete "username" (delete "userId" (delete "authToken" st))) []))
    by (run_provider; reflexivity).
  rewrite E. cbn [fst snd auth store remount].
  split; [reflexivity|]. split; [reflexivity|].
  pose proof (cleared_credentials st) as Ht. cbv zeta in Ht.
  unfold remount; cbn [store]. run_provider. cbn [snd auth].
  rewrite Ht. reflexivity.
Qed.

(** X15.  [login] and [logout] either return with every cell set, or throw
    the very error one of their three calls of the secure store rejected
    with, and then no cell of the provider has changed. *)
Theorem login_logout_all_or_nothing (w : World) (t u n : string) :
  ((fst (exec (login t u n) w) = Returned tt /\
    auth (snd (exec (login t u n) w)) = logged_in t u n (auth w)) \/
   (exists e, fst (exec (login t u n) w) = Threw e /\
              In (Some e) (firstn 3 (faults w)) /\
              auth (snd (exec (login t u n) w)) = auth w)) /\
  ((fst (exec logout w) = Returned tt /\
    auth (snd (exec logout w)) = logged_out (auth w)) \/
   (exists e, fst (exec logout w) = Threw e /\
              In (Some e) (firstn 3 (faults w)) /\
              auth (snd (exec logout w)) = auth w)).
Proof.
  destruct w as [a st fs]. split.
  - remember (exec (login t u n) (mkWorld a st fs)) as r eqn:E. revert E.
    run_provider.
    all: intros ->; cbn [fst snd auth firstn].
    all: first [ left; split; reflexivity
               | right; eexists; split; [reflexivity|]; split; [|reflexivity];
                 cbn; tauto ].
  - remember (exec logout (mkWorld a st fs)) as r eqn:E. revert E.
    run_provider.
    all: intros ->; cbn [fst snd auth firstn].
    all: first [ left; split; reflexivity
               | right; eexists; split; [reflexivity|]; split; [|reflexivity];
                 cbn; tauto ].
Qed.

(** X16.  A failed [login] is not rolled back in the secure store: when the
    write of the token succeeds and the write of the user id is rejected,
    [login] throws and the provider is unchanged, but the new token stays
    in the store beside the user id of the previous user, and the next
    start authenticates with this pair. *)
Theorem failed_login_is_not_rolled_back (a : AuthState) (st : gmap string string)
    (fs : list (option exn)) (t u n u0 : string) (e : exn) :
  string_truthy t = true ->
  st !! "userId" = Some u0 ->
  string_truthy u0 = true ->
  let w' := snd (exec (login t u n) (mkWorld a st (None :: Some e :: fs))) in
  fst (exec (login t u n) (mkWorld a st (None :: Some e :: fs))) = Threw e /\
  auth w' = a /\
  auth (snd (exec checkAuth (remount w')))
  = with_isLoading false
      (with_isAuthenticated true
         (with_username (st !! "username")
            (with_userId (Some u0) (with_token (Some t) initial)))).
Proof.
  intros Ht Hu Hu0. cbv zeta.
  assert (E : exec (login t u n) (mkWorld a st (None :: Some e :: fs))
              = (Threw e, mkWorld a (<["authToken" := t]> st) fs))
    by (run_provider; reflexivity).
  rewrite E. cbn [fst snd auth store remount].
  split; [reflexivity|]. split; [reflexivity|].
  unfold remount; cbn [store]. run_provider. cbn [snd auth].
  rewrite lookup_insert_eq, !lookup_insert_ne by discriminate.
  rewrite Hu. cbn [opt_truthy]. rewrite Ht, Hu0. reflexivity.
Qed.

End AuthRoundTrips.

Section AuthRoundTripExamples.
Import Js Host AuthContext Samples.

Lemma checkAuth_never_throws_witness :
  isAuthenticated (auth logged_in_world) = true /\
  isAuthenticated (auth (snd (exec checkAuth logged_in_world))) = true.
Proof.
  split; [reflexivity|].
  destruct (checkAuth_never_throws logged_in_world) as (_ & _ & _ & H).
  exact (H eq_refl).
Defined.

Lemma failed_login_is_not_rolled_back_witness :
  string_truthy "tok2" = true /\
  store failing_world !! "userId" = Some "dave" /\
  string_truthy "dave" = true /\
  fst (exec (login "tok2" "erin" "Erin") failing_world)
  = Threw (Error (VStr "Could not reach the keychain")) /\
  auth (snd (exec (login "tok2" "erin" "Erin") failing_world)) = auth failing_world /\
  auth (snd (exec checkAuth (remount (snd (exec (login "tok2" "erin" "Erin") failing_world)))))
  = with_isLoading false
      (with_isAuthenticated true
         (with_username (store failing_world !! "username")
            (with_userId (Some "dave") (with_token (Some "tok2") initial)))).
Proof.
  split; [reflexivity|]. split; [vm_compute; reflexivity|]. split; [reflexivity|].
  exact (failed_login_is_not_rolled_back (auth failing_world) (store failing_world) []
           "tok2" "erin" "Erin" "dave" (Error (VStr "Could not reach the keychain"))
           eq_refl eq_refl eq_refl).
Defined.

(** Erin logs in on the device of Dave; the next start finds Erin. *)
Example erin_after_restart :
  auth (snd (exec checkAuth
               (remount (snd (exec (login "tok2" "erin" "Erin") logged_in_world)))))
  = mkAuthState true false (Some "tok2") (Some "erin") (Some "Erin").
Proof. vm_compute. reflexivity. Qed.

End AuthRoundTripExamples.

(** ** The entry route of the app *)

Section EntryRoute.
Import Js Host React.

(** X17.  The entry route always leaves its spinner: its check never throws
    and always decides.  It renders the redirect to [/(tabs)] exactly when
    the read of [authToken] succeeds with a token that is not empty, and
    the redirect to [/login] otherwise, also when the store fails.  On a
    native platform the token is read from the secure store, on the web
    from [localStorage]; neither store is written. *)
Theorem index_decides (os : string) (w : Index.World) :
  let r := run Index.answer (Index.checkAuth os) w in
  let from := if String.eqb os "web" then Index.localStorage w else Index.secureStore w in
  let token_found :=
    match Index.faults w with
    | Some _ :: _ => false
    | _ => opt_truthy (from !! "authToken")
    end in
  fst r = Returned tt /\
  Index.secureStore (snd r) = Index.secureStore w /\
  Index.localStorage (snd r) = Index.localStorage w /\
  Index.isAuthenticated (snd r) = Some token_found /\
  forall A,
    Index.Index (A := A) (Index.isAuthenticated (snd r))
    = El "Redirect" [Attribute "href" (if token_found then "/(tabs)" else "/login")] [].
Proof.
  cbv zeta. destruct w as [c sec loc fs].
  unfold Index.checkAuth, Index.getData, Index.await, perform.
  destruct (String.eqb os "web");
    cbn [bind try_catch run Index.answer]; unfold Index.read;
    cbn [Index.faults Index.isAuthenticated Index.secureStore Index.localStorage];
    destruct fs as [|[e|] fs]; cbn;
    repeat split; intros A;
    try (destruct (opt_truthy _)); reflexivity.
Qed.

(** X18.  The entry route and the provider of the credentials read the same
    secure store and decide differently: the route looks at the token only,
    the provider at the token and the user id.  On a native platform with a
    store that answers, the route renders the redirect to [/(tabs)] if the
    stored token is not empty and the redirect to [/login] if it is, while
    the provider is authenticated only if, besides, the stored user id is
    not empty: with a token and no user id the user is sent to the tabs
    and the provider reports nobody. *)
Theorem index_and_provider (os : string) (store : gmap string string) :
  String.eqb os "web" = false ->
  let routed := Index.isAuthenticated
                  (snd (run Index.answer (Index.checkAuth os) (Index.start store []))) in
  let provided := AuthContext.isAuthenticated
                    (AuthContext.auth
                       (snd (AuthContext.exec AuthContext.checkAuth
                               (AuthContext.mkWorld AuthContext.initial store [])))) in
  (forall A,
     Index.Index (A := A) routed
     = El "Redirect"
         [Attribute "href" (if opt_truthy (store !! "authToken") then "/(tabs)" else "/login")]
         []) /\
  provided = opt_truthy (store !! "authToken") && opt_truthy (store !! "userId").
Proof.
  intros Hos. cbv zeta. split.
  - intros A. unfold Index.checkAuth, Index.getData, Index.await, perform. rewrite Hos.
    cbn. destruct (opt_truthy (store !! "authToken")); reflexivity.
  - unfold AuthContext.exec, AuthContext.checkAuth, AuthContext.await, perform,
      AuthContext.setToken, AuthContext.setUserId, AuthContext.setUsername,
      AuthContext.setIsAuthenticated, AuthContext.setIsLoading.
    cbn [run bind try_catch try_finally AuthContext.answer fst snd].
    unfold AuthContext.store_call at 1. cbn [AuthContext.faults AuthContext.auth AuthContext.store].
    cbn [run bind try_catch try_finally AuthContext.answer fst snd].
    unfold AuthContext.store_call at 1. cbn [AuthContext.faults AuthContext.auth AuthContext.store].
    cbn [run bind try_catch try_finally AuthContext.answer fst snd].
    unfold AuthContext.store_call at 1. cbn [AuthContext.faults AuthContext.auth AuthContext.store].
    cbn [run bind try_catch try_finally AuthContext.answer fst snd].
    destruct (opt_truthy (store !! "authToken") && opt_truthy (store !! "userId"));
      reflexivity.
Qed.

End EntryRoute.

Section EntryRouteExamples.
Import Js Host React Samples.

(** A device that holds a token and no user id: the route opens the tabs,
    and the provider reports nobody. *)
Lemma index_and_provider_witness :
  String.eqb "ios" "web" = false /\
  @Index.Index unit
    (Index.isAuthenticated
       (snd (run Index.answer (Index.checkAuth "ios")
               (Index.start (<["authToken" := "tok"]> ∅) []))))
  = El "Redirect" [Attribute "href" "/(tabs)"] [] /\
  AuthContext.isAuthenticated
    (AuthContext.auth
       (snd (AuthContext.exec AuthContext.checkAuth
               (AuthContext.mkWorld AuthContext.initial (<["authToken" := "tok"]> ∅) []))))
  = false.
Proof.
  split; [reflexivity|].
  destruct (index_and_provider "ios" (<["authToken" := "tok"]> ∅) eq_refl) as [Hroute Hprov].
  split.
  - rewrite (Hroute unit). vm_compute. reflexivity.
  - rewrite Hprov. vm_compute. reflexivity.
Defined.

(** With no token stored the route opens the login screen. *)
Example no_token_goes_to_login :
  @Index.Index unit
    (Index.isAuthenticated
       (snd (run Index.answer (Index.checkAuth "ios") (Index.start ∅ []))))
  = El "Redirect" [Attribute "href" "/login"] [].
Proof. vm_compute. reflexivity. Qed.

End EntryRouteExamples.

(** ** More on the modal that proposes a transaction *)

Section ModalOutcomes.
Import Js Host CreateTransactionModal.

(** X19.  [handleSubmit] never throws.  When a guard refuses the form, the
    state of the modal is untouched and the modal stays open.  When the
    parent's [onSubmit] rejects, the description and the amount typed are
    kept, the modal stays open, and one error alert shows the message of
    the error; when it resolves, the form is emptied, the modal is closed
    and one success alert is shown.  In both cases [isSubmitting] is
    [false] at the end. *)
Theorem handleSubmit_outcome (host : Host) (props : Props) (s st : State)
        (parent : string -> float -> outcome unit) :
  let numAmount := parseFloat host (amount s) in
  let r := run answer (handleSubmit host props s) (mkWorld st parent []) in
  let t := trace (snd r) in
  fst r = Returned tt /\
  if string_truthy (trim host (description s)) && PrimFloat.ltb 0 numAmount then
    match parent (description s) numAmount with
    | Returned _ =>
        state (snd r) = mkState "" "" false /\
        In EvClose t /\
        alerts "Success" t = [VStr "Transaction proposed! Members can now vote."] /\
        alerts "Error" t = []
    | Threw e =>
        state (snd r) = with_isSubmitting false st /\
        ~ In EvClose t /\
        alerts "Success" t = [] /\
        alerts "Error" t = [error_text host e]
    end
  else
    state (snd r) = st /\ ~ In EvClose t /\
    alerts "Success" t = [] /\ exists m, alerts "Error" t = [m].
Proof.
  intros numAmount r t. subst t r. unfold handleSubmit.
  fold numAmount. rewrite positive_guard.
  destruct (string_truthy (trim host (description s))); cbn [negb andb].
  2:{ cbn. split; [reflexivity|]. repeat split; eauto. intros [H|[]]. discriminate H. }
  destruct (PrimFloat.ltb 0 numAmount); cbn [negb].
  2:{ cbn. split; [reflexivity|]. repeat split; eauto. intros [H|[]]. discriminate H. }
  destruct (PrimFloat.ltb (groupBalance props) numAmount);
    unfold alert, setIsSubmitting, onSubmit, setDescription, setAmount, onClose, perform;
    cbn [bind try_catch try_finally run answer fst snd CreateTransactionModal.trace
         CreateTransactionModal.state CreateTransactionModal.parent app];
    destruct (parent (description s) numAmount) as [[]|e];
    cbn [bind try_catch try_finally run answer fst snd CreateTransactionModal.trace
         CreateTransactionModal.state CreateTransactionModal.parent app];
    (split; [reflexivity|]); repeat split; cbn; auto;
    try (intros H; repeat (destruct H as [H|H]; try discriminate H); exact H).
Qed.

End ModalOutcomes.

(** ** The handlers of the transaction card *)

Section CardHandlers.
Import Js Host Types TransactionCard.
Context {V X R : Type}.

Ltac run_card :=
  unfold handleVote, confirmExecute, handleExecute, refresh, call,
    setIsVoting, setIsExecuting, perform;
  cbn [bind try_catch try_finally run answer record fst snd
       TransactionCard.state TransactionCard.trace vote_result execute_result
       refresh_result app].

(** X20.  [handleVote] of the card never throws.  Without an [onVote]
    callback, or when [currentUserId in transaction.votes] holds (the votes
    have an entry for the current user, or the user id is the name of a
    member of [Object.prototype]), it does nothing at all.  Otherwise it
    calls [onVote] once, with the id of the transaction and the vote; it
    calls [onRefresh] only after [onVote] has resolved; a rejection is shown
    in one error alert; and [isVoting] is [false] at the end. *)
Theorem card_handleVote_outcome (host : Host) (p : Props V X R) (vote : Vote)
    (st : State) (vr : string -> Vote -> outcome unit) (xr : string -> outcome unit)
    (rr : outcome unit) :
  let id := transactionID (transaction p) in
  let r := run answer (handleVote host p vote) (mkWorld st vr xr rr []) in
  let found :=
    bool_decide (is_Some (votes (transaction p) !! currentUserId p))
    || bool_decide (currentUserId p ∈ Object_prototype) in
  fst r = Returned tt /\
  if bool_decide (is_Some (onVote p)) && negb found then
    state (snd r) = with_isVoting false st /\
    trace (snd r) =
      EvVote id vote ::
      match vr id vote with
      | Threw e => [EvAlert "Error" (error_text host "Failed to vote" e)]
      | Returned _ =>
          match onRefresh p with
          | None => []
          | Some _ =>
              EvRefresh ::
              match rr with
              | Threw e => [EvAlert "Error" (error_text host "Failed to vote" e)]
              | Returned _ => []
              end
          end
      end
  else snd r = mkWorld st vr xr rr [].
Proof.
  cbv zeta. unfold handleVote. unfold userHasVoted. rewrite has_property_spec.
  destruct (bool_decide (is_Some (onVote p))); cbn [negb orb andb];
    [|split; reflexivity].
  destruct (bool_decide (is_Some _) || bool_decide _); cbn [negb orb andb];
    [split; reflexivity|].
  run_card.
  destruct (vr (transactionID (transaction p)) vote) as [[]|e]; run_card;
    [|repeat split; reflexivity].
  destruct (onRefresh p); run_card; [|repeat split; reflexivity].
  destruct rr as [[]|e]; run_card; repeat split; reflexivity.
Qed.

(** X21.  [handleExecute] of the card executes nothing by itself: without an
    [onExecute] callback it does nothing, and with one it only opens a
    dialog, whose "Execute" button is the one button that acts.  The press
    of that button calls [onExecute] once, with the id of the transaction,
    never throws, and leaves [isExecuting] [false]. *)
Theorem card_execute_needs_confirmation (host : Host) (p : Props V X R)
    (st : State) (vr : string -> Vote -> outcome unit) (xr : string -> outcome unit)
    (rr : outcome unit) :
  let id := transactionID (transaction p) in
  let w := mkWorld st vr xr rr [] in
  let r := run answer (press host p HandleExecute) w in
  let r' := run answer (press_dialog host p ConfirmExecute) w in
  (fst r = Returned tt /\ state (snd r) = st /\ calls (trace (snd r)) = [] /\
   match onExecute p with
   | None => trace (snd r) = []
   | Some _ =>
       exists message buttons,
         trace (snd r) = [EvDialog "Execute Transaction" message buttons] /\
         omap onPress buttons = [ConfirmExecute]
   end) /\
  (fst r' = Returned tt /\ state (snd r') = with_isExecuting false st /\
   trace (snd r') =
     EvExecute id ::
     match xr id with
     | Threw e => [EvAlert "Error" (error_text host "Failed to execute" e)]
     | Returned _ =>
         match onRefresh p with
         | None => []
         | Some _ =>
             EvRefresh ::
             match rr with
             | Threw e => [EvAlert "Error" (error_text host "Failed to execute" e)]
             | Returned _ => []
             end
         end
     end).
Proof.
  cbv zeta. split.
  - unfold press, handleExecute.
    destruct (onExecute p) as [x|]; cbn.
    + repeat split. eauto.
    + repeat split.
  - unfold press_dialog. run_card.
    destruct (xr (transactionID (transaction p))) as [[]|e]; run_card;
      [|repeat split; reflexivity].
    destruct (onRefresh p); run_card; [|repeat split; reflexivity].
    destruct rr as [[]|e]; run_card; repeat split; reflexivity.
Qed.

End CardHandlers.

Section CardButtons.
Import Js Host React Types TransactionCard.
Context {V X R : Type}.


End CardButtons.

Section CardExamples.
Import Js Host React Types TransactionCard Samples.


(** For the user whose id is ["constructor"] a vote calls nothing either. *)
Example constructor_vote_is_dropped :
  trace (snd (run answer (handleVote mute_host (constructor_card tx_fresh) approve)
                (mkWorld idle (fun _ _ => Returned tt) (fun _ => Returned tt)
                   (Returned tt) [])))
  = [].
Proof. vm_compute. reflexivity. Qed.

(** Dave has voted on [tx_dave]: a second vote calls nothing. *)
Example second_vote_is_dropped :
  trace (snd (run answer (handleVote mute_host (full_card tx_dave) approve)
                (mkWorld idle (fun _ _ => Returned tt) (fun _ => Returned tt)
                   (Returned tt) [])))
  = [].
Proof. vm_compute. reflexivity. Qed.

End CardExamples.

(** ** The stock trading modal *)

Section TradingModal.
Import Js Http Host StockTradingModal.

(** The quantity guard of [handleTradeSubmit], [isNaN(qty) || qty <= 0],
    rejects exactly the quantities that are not strictly greater than
    zero. *)
Lemma quantity_guard (x : float) :
  PrimFloat.is_nan x || PrimFloat.leb x 0 = negb (PrimFloat.ltb 0 x).
Proof.
  unfold PrimFloat.is_nan.
  rewrite !FloatAxioms.eqb_spec, FloatAxioms.leb_spec, FloatAxioms.ltb_spec.
  replace (Prim2SF 0) with (S754_zero false) by reflexivity.
  destruct (Prim2SF x) as [s|s| |s m e]; try (destruct s; reflexivity); try reflexivity.
  unfold SFeqb, SFleb, SFltb. cbn.
  rewrite Z.compare_refl, Pos.compare_cont_refl.
  destruct s; reflexivity.
Qed.

Ltac run_modal :=
  unfold alert, onTradeSubmit, setSelectedStock, setQuantity, onClose, perform;
  cbn [bind try_catch run answer fst snd StockTradingModal.state
       StockTradingModal.parent StockTradingModal.trace app].

(** X23.  [handleTradeSubmit] never throws, and it hands a trade to
    [onTradeSubmit] only when a stock with a price that is neither missing,
    zero nor [NaN] is selected and the quantity typed parses to a number
    strictly greater than zero; otherwise it raises one error alert and
    leaves the form alone.  When [onTradeSubmit] resolves, the selection and
    the quantity are cleared and the modal is closed.  When it rejects, the
    error is swallowed: the form is kept, the modal stays open, and the
    modal raises no alert of its own. *)
Theorem handleTradeSubmit_outcome (host : Host) (s st : State)
    (parent : string -> float -> string -> float -> outcome unit) :
  let qty := parseFloat host (quantity s) in
  let r := run answer (handleTradeSubmit host s) (mkWorld st parent []) in
  let refused := state (snd r) = st /\ exists m, trace (snd r) = [EvAlert "Error" m] in
  fst r = Returned tt /\
  match selectedStock s with
  | None => refused
  | Some stock =>
      match price stock with
      | None => refused
      | Some p =>
          if string_truthy (quantity s) && number_truthy p && PrimFloat.ltb 0 qty then
            match parent (symbol stock) qty (name stock) p with
            | Returned _ =>
                state (snd r) = with_quantity "" (with_selectedStock None st) /\
                trace (snd r) = [EvTrade (symbol stock) qty (name stock) p; EvClose]
            | Threw _ =>
                state (snd r) = st /\
                trace (snd r) = [EvTrade (symbol stock) qty (name stock) p]
            end
          else refused
      end
  end.
Proof.
  cbv zeta. unfold handleTradeSubmit. cbv zeta.
  destruct (selectedStock s) as [stock|]; [|run_modal; eauto].
  destruct (price stock) as [p|]; [|run_modal; eauto].
  rewrite quantity_guard.
  destruct (string_truthy (quantity s)); cbn [negb orb andb]; [|run_modal; eauto].
  destruct (number_truthy p); cbn [negb orb andb]; [|run_modal; eauto].
  destruct (PrimFloat.ltb 0 (parseFloat host (quantity s))); cbn [negb];
    [|run_modal; eauto].
  run_modal.
  destruct (parent (symbol stock) (parseFloat host (quantity s)) (name stock) p) as [[]|e];
    run_modal; repeat split; reflexivity.
Qed.

(** X24.  As the screen of the ranch mounts the modal, with its
    [handleStockTrade] for [onTradeSubmit], and with a token loaded: the
    modal clears the selection and the quantity and closes exactly when
    [handleStockTrade] returns normally.  That is after an accepted trade
    whose refresh returns, and in the very same way after a trade the
    backend refuses with an error body that is JSON other than [null].  The
    modal stays open with the form as typed when the network fails, when
    the body is not JSON, when the error body is [null], and when the
    refresh after an accepted trade throws. *)
Theorem refused_trade_closes_the_modal (host : Host) (id : string)
    (fetchGroupData : RanchScreen.Handler unit) (backend : RanchScreen.Backend)
    (w : RanchScreen.World) (s st : State) (stock : Stock) (p : float) :
  selectedStock s = Some stock ->
  price stock = Some p ->
  number_truthy p = true ->
  string_truthy (quantity s) = true ->
  PrimFloat.ltb 0 (parseFloat host (quantity s)) = true ->
  opt_truthy (RanchScreen.authToken (RanchScreen.state w)) = true ->
  let qty := parseFloat host (quantity s) in
  let req := RanchScreen.trade_request id (RanchScreen.state w) (symbol stock) qty in
  let r := run answer (handleTradeSubmit host s)
             (mkWorld st (mounted host id fetchGroupData backend w) []) in
  let closed :=
    state (snd r) = with_quantity "" (with_selectedStock None st) /\
    trace (snd r) = [EvTrade (symbol stock) qty (name stock) p; EvClose] in
  let kept :=
    state (snd r) = st /\
    trace (snd r) = [EvTrade (symbol stock) qty (name stock) p] in
  match backend (RanchScreen.requests_of (RanchScreen.trace w)) req with
  | Rejected => kept
  | Resolved response =>
      match json response with
      | None => kept
      | Some body =>
          if ok response then
            let confirmed :=
              RanchScreen.mkWorld (RanchScreen.state w)
                ((RanchScreen.trace w ++ [RanchScreen.EvFetch req])
                 ++ [RanchScreen.EvAlert "Success! 📈"
                       (VStr (RanchScreen.trade_confirmation host qty (name stock) p))]) in
            match fst (run (RanchScreen.answer backend)
                         (RanchScreen.fetchProposals id (RanchScreen.state w) ;;
                          fetchGroupData) confirmed) with
            | Returned _ => closed
            | Threw _ => kept
            end
          else
            match body with
            | RanchScreen.BodyNull => kept
            | RanchScreen.BodyData _ => closed
            end
      end
  end.
Proof.
  intros Hsel Hprice Hp Hq Hpos Hauth. cbv zeta.
  unfold handleTradeSubmit. cbv zeta. rewrite Hsel, Hprice, quantity_guard, Hq, Hp, Hpos.
  cbn [negb orb]. run_modal.
  unfold mounted, RanchScreen.handleStockTrade, RanchScreen.fetch, RanchScreen.alert, perform.
  rewrite Hauth. cbn [negb bind try_catch run RanchScreen.answer].
  destruct (backend _ _) as [|[isok [body|]]]; cbn [json ok].
  - cbn. split; reflexivity.
  - destruct isok.
    + cbn [RanchScreen.response_json json bind try_catch run RanchScreen.answer
           RanchScreen.state RanchScreen.trace].
      rewrite (run_try_catch (RanchScreen.answer backend)).
      cbn [ok run RanchScreen.answer RanchScreen.state RanchScreen.trace].
      match goal with
      | |- context [run (RanchScreen.answer backend)
                      (RanchScreen.fetchProposals id (RanchScreen.state w) ;; fetchGroupData)
                      ?w1] =>
          destruct (run (RanchScreen.answer backend)
                      (RanchScreen.fetchProposals id (RanchScreen.state w) ;; fetchGroupData)
                      w1) as [[[]|e] w2]
      end; cbn; split; reflexivity.
    + destruct body as [|error]; cbn; split; reflexivity.
  - destruct isok; cbn; split; reflexivity.
Qed.

End TradingModal.

Section TradingModalExamples.
Import Js Http Host StockTradingModal Samples.

Lemma refused_trade_closes_the_modal_witness :
  (selectedStock (trade_form "250") = Some acme /\
   price acme = Some 10%float /\
   number_truthy 10 = true /\
   string_truthy (quantity (trade_form "250")) = true /\
   PrimFloat.ltb 0 (parseFloat desk_host (quantity (trade_form "250"))) = true /\
   opt_truthy (RanchScreen.authToken (RanchScreen.state quiet_world)) = true) /\
  (state (snd (run answer (handleTradeSubmit desk_host (trade_form "250"))
                 (mkWorld (trade_form "250")
                    (mounted desk_host "g1" (Ret tt) refusing_backend quiet_world) [])))
   = with_quantity "" (with_selectedStock None (trade_form "250")) /\
   trace (snd (run answer (handleTradeSubmit desk_host (trade_form "250"))
                 (mkWorld (trade_form "250")
                    (mounted desk_host "g1" (Ret tt) refusing_backend quiet_world) [])))
   = [EvTrade "ACME" 250%float "Acme Corp" 10%float; EvClose]) /\
  (state (snd (run answer (handleTradeSubmit desk_host (trade_form "250"))
                 (mkWorld (trade_form "250")
                    (mounted desk_host "g1" (Ret tt) listing_backend quiet_world) [])))
   = with_quantity "" (with_selectedStock None (trade_form "250")) /\
   trace (snd (run answer (handleTradeSubmit desk_host (trade_form "250"))
                 (mkWorld (trade_form "250")
                    (mounted desk_host "g1" (Ret tt) listing_backend quiet_world) [])))
   = [EvTrade "ACME" 250%float "Acme Corp" 10%float; EvClose]) /\
  (state (snd (run answer (handleTradeSubmit desk_host (trade_form "250"))
                 (mkWorld (trade_form "250")
                    (mounted desk_host "g1" (Ret tt) offline_backend quiet_world) [])))
   = trade_form "250" /\
   trace (snd (run answer (handleTradeSubmit desk_host (trade_form "250"))
                 (mkWorld (trade_form "250")
                    (mounted desk_host "g1" (Ret tt) offline_backend quiet_world) [])))
   = [EvTrade "ACME" 250%float "Acme Corp" 10%float]) /\
  (state (snd (run answer (handleTradeSubmit desk_host (trade_form "250"))
                 (mkWorld (trade_form "250")
                    (mounted desk_host "g1" (Ret tt) garbled_backend quiet_world) [])))
   = trade_form "250" /\
   trace (snd (run answer (handleTradeSubmit desk_host (trade_form "250"))
                 (mkWorld (trade_form "250")
                    (mounted desk_host "g1" (Ret tt) garbled_backend quiet_world) [])))
   = [EvTrade "ACME" 250%float "Acme Corp" 10%float]).
Proof.
  split; [repeat split; reflexivity|]. split; [|split; [|split]].
  - exact (refused_trade_closes_the_modal desk_host "g1" (Ret tt) refusing_backend
             quiet_world (trade_form "250") (trade_form "250") acme 10%float
             eq_refl eq_refl eq_refl eq_refl eq_refl eq_refl).
  - exact (refused_trade_closes_the_modal desk_host "g1" (Ret tt) listing_backend
             quiet_world (trade_form "250") (trade_form "250") acme 10%float
             eq_refl eq_refl eq_refl eq_refl eq_refl eq_refl).
  - exact (refused_trade_closes_the_modal desk_host "g1" (Ret tt) offline_backend
             quiet_world (trade_form "250") (trade_form "250") acme 10%float
             eq_refl eq_refl eq_refl eq_refl eq_refl eq_refl).
  - exact (refused_trade_closes_the_modal desk_host "g1" (Ret tt) garbled_backend
             quiet_world (trade_form "250") (trade_form "250") acme 10%float
             eq_refl eq_refl eq_refl eq_refl eq_refl eq_refl).
Defined.

(** A quantity that is no number is refused before the parent is asked. *)
Example unreadable_quantity_is_refused :
  trace (snd (run answer (handleTradeSubmit desk_host (trade_form "many"))
                (mkWorld (trade_form "many") (fun _ _ _ _ => Returned tt) [])))
  = [EvAlert "Error" (VStr "Please enter a valid quantity")].
Proof. vm_compute. reflexivity. Qed.

End TradingModalExamples.

(** ** What the pie chart shows *)

Section ChartContents.
Import Host React Types PieChart.
Context (host : Host) {A : Type}.


End ChartContents.
